(** * seislip: reading GAMMA InSAR products

    A shallow embedding of [parse_files.py] ([get_image_para],
    [get_image_data]) and of [slippy/data/insar.py]
    ([InSAR.read_from_gamma], [InSAR.__phase2los]).

    Conventions of the embedding.
    - Python exceptions are values of [exn]; a call yields an [outcome].
    - A local variable that may be unbound is an [option]; reading it
      while unbound raises [UnboundLocalError].
    - numpy's float64 is idealised as [npfloat]: finite values are exact
      rationals, [NaN] is kept because masking relies on it; rounding and
      infinities are outside the model.
    - Routines whose text lies outside the two modules ([int], [float],
      [struct.unpack], [scipy.interpolate.interp2d] and the projection
      [GeoTrans.ll2xy] that [InSAR] inherits) are the fields of
      [Runtime].
    - Memory: [np.zeros] asks the allocator of the [Runtime] for its
      block and raises [MemoryError] when it is refused; the arrays made
      from a raster afterwards are taken to fit. *)

From Stdlib Require Import ZArith String Ascii List Bool Lia Arith.
From Stdlib Require Import QArith Qcanon.
From Stdlib Require Import Strings.Byte.
Import ListNotations.

Local Open Scope Z_scope.

(** ** Python exceptions and outcomes *)

Inductive exn : Type :=
| OSError            (* raised by [open]; [IOError] is an alias of it *)
| StructError        (* [struct.error] *)
| ValueError
| IndexError
| UnboundLocalError
| ZeroDivisionError
| MemoryError
| FitpackError.      (* [dfitpack.error], raised inside [interp2d] *)

(** Class names under which an exception is caught: its own class, the
    aliases of that class, and its bases. *)
Definition mro (e : exn) : list string :=
  match e with
  | OSError => ["OSError"; "IOError"; "EnvironmentError"; "Exception"; "BaseException"]
  | StructError => ["error"; "struct.error"; "Exception"; "BaseException"]
  | ValueError => ["ValueError"; "Exception"; "BaseException"]
  | IndexError => ["IndexError"; "LookupError"; "Exception"; "BaseException"]
  | UnboundLocalError => ["UnboundLocalError"; "NameError"; "Exception"; "BaseException"]
  | ZeroDivisionError => ["ZeroDivisionError"; "ArithmeticError"; "Exception"; "BaseException"]
  | MemoryError => ["MemoryError"; "Exception"; "BaseException"]
  | FitpackError => ["error"; "dfitpack.error"; "Exception"; "BaseException"]
  end%string.

Definition isinstance (e : exn) (cls : string) : bool :=
  existsb (String.eqb cls) (mro e).

Inductive outcome (A : Type) : Type :=
| Ret (a : A)
| Raise (e : exn).
Arguments Ret {A} a.
Arguments Raise {A} e.

Definition bind {A B : Type} (m : outcome A) (k : A -> outcome B) : outcome B :=
  match m with
  | Ret a => k a
  | Raise e => Raise e
  end.

Declare Scope py_scope.
Delimit Scope py_scope with py.
Notation "x <- m ;; k" := (bind m (fun x => k))
  (at level 61, m at next level, right associativity) : py_scope.
Notation "' p <- m ;; k" := (bind m (fun x => match x with p => k end))
  (at level 61, p pattern, m at next level, right associativity) : py_scope.
Notation "m ;;; k" := (bind m (fun _ => k))
  (at level 61, right associativity) : py_scope.
Open Scope py_scope.

(** [try: body except IOError: handler] *)
Definition try_except_IOError {A : Type} (body : outcome A) (handler : outcome A)
  : outcome A :=
  match body with
  | Ret a => Ret a
  | Raise e => if isinstance e "IOError" then handler else Raise e
  end.

(** The call ends by raising an instance of the class named [cls]. *)
Definition raises {A : Type} (o : outcome A) (cls : string) : Prop :=
  exists e, o = Raise e /\ isinstance e cls = true.

(** Reading a local variable. *)
Definition load {A : Type} (v : option A) : outcome A :=
  match v with
  | Some a => Ret a
  | None => Raise UnboundLocalError
  end.

(** [xs[i]] on a Python list. *)
Definition getitem {A : Type} (xs : list A) (i : nat) : outcome A :=
  match nth_error xs i with
  | Some a => Ret a
  | None => Raise IndexError
  end.

(** [for x in xs: s = body(x, s)] *)
Fixpoint for_each {A S : Type} (xs : list A) (body : A -> S -> outcome S) (s : S)
  : outcome S :=
  match xs with
  | [] => Ret s
  | x :: xs' => s' <- body x s ;; for_each xs' body s'
  end.

(** [range(n)] *)
Definition range (n : Z) : list nat := seq 0 (Z.to_nat n).

(** ** Python strings *)

(** Characters are code points below 256; these are the ones
    [str.strip] and [str.split] treat as white space. *)
Definition isspace (c : ascii) : bool :=
  let n := nat_of_ascii c in
  ((9 <=? n) && (n <=? 13) || (28 <=? n) && (n <=? 32)
   || (n =? 133) || (n =? 160))%nat.

Definition startswith (line pre : string) : bool := String.prefix pre line.

Fixpoint lstrip (s : string) : string :=
  match s with
  | EmptyString => EmptyString
  | String c r => if isspace c then lstrip r else s
  end.

Definition rev_string (s : string) : string :=
  string_of_list_ascii (rev (list_ascii_of_string s)).

Definition strip (s : string) : string :=
  rev_string (lstrip (rev_string (lstrip s))).

(** [s.split(sep)] for a one-character separator. *)
Fixpoint split (sep : ascii) (s : string) : list string :=
  match s with
  | EmptyString => [EmptyString]
  | String c r =>
      if Ascii.eqb c sep then EmptyString :: split sep r
      else match split sep r with
           | w :: ws => String c w :: ws
           | [] => [String c EmptyString]
           end
  end.

(** [s.split()]: the maximal runs of characters that are not white space. *)
Fixpoint split_ws_from (cur : string) (s : string) : list string :=
  match s with
  | EmptyString => match cur with EmptyString => [] | _ => [cur] end
  | String c r =>
      if isspace c
      then match cur with
           | EmptyString => split_ws_from EmptyString r
           | _ => cur :: split_ws_from EmptyString r
           end
      else split_ws_from (cur ++ String c EmptyString) r
  end.

Definition split_ws (s : string) : list string := split_ws_from EmptyString s.

(** ** Idealised float64 *)

Inductive npfloat : Type :=
| NaN
| Fin (q : Qc).

Definition of_Z (z : Z) : npfloat := Fin (Q2Qc (inject_Z z)).

Definition is_zero (q : Qc) : bool := Z.eqb (Qnum (this q)) 0.

Definition fadd (a b : npfloat) : npfloat :=
  match a, b with Fin x, Fin y => Fin (x + y)%Qc | _, _ => NaN end.
Definition fsub (a b : npfloat) : npfloat :=
  match a, b with Fin x, Fin y => Fin (x - y)%Qc | _, _ => NaN end.
Definition fmul (a b : npfloat) : npfloat :=
  match a, b with Fin x, Fin y => Fin (x * y)%Qc | _, _ => NaN end.
(** Every divisor met in the modelled code is a nonzero constant or a
    positive count; a zero divisor (an infinity in numpy) has no
    counterpart here and yields [NaN]. *)
Definition fdiv (a b : npfloat) : npfloat :=
  match a, b with
  | Fin x, Fin y => if is_zero y then NaN else Fin (x / y)%Qc
  | _, _ => NaN
  end.
Definition fneg (a : npfloat) : npfloat :=
  match a with Fin x => Fin (- x)%Qc | NaN => NaN end.
(** [a == b]; false whenever an operand is not-a-number. *)
Definition feqb (a b : npfloat) : bool :=
  match a, b with Fin x, Fin y => is_zero (x - y)%Qc | _, _ => false end.
Definition isnan (a : npfloat) : bool :=
  match a with NaN => true | Fin _ => false end.

Declare Scope np_scope.
Delimit Scope np_scope with np.
Infix "+" := fadd : np_scope.
Infix "-" := fsub : np_scope.
Infix "*" := fmul : np_scope.
Infix "/" := fdiv : np_scope.
Notation "- x" := (fneg x) : np_scope.

(** [np.pi]: the float64 nearest to pi, as the rational it is. *)
Definition np_pi : npfloat := Fin (Q2Qc (884279719003555 # 281474976710656)).
(** [scipy.constants.c], metres per second. *)
Definition c : npfloat := of_Z 299792458.
(** [np.degrees(x)] multiplies by [180 / pi]. *)
Definition degrees (x : npfloat) : npfloat := (x * (of_Z 180 / np_pi))%np.

(** ** numpy arrays *)

(** A two-dimensional array is the list of its rows; a column vector
    (shape [(n, 1)]) is the list of its entries. *)
Definition ndarray : Type := list (list npfloat).
Definition column : Type := list npfloat.

(** An array of one or of two dimensions, where the code can meet
    either. *)
Inductive nparray : Type :=
| Array1 (v : list npfloat)
| Array2 (a : ndarray).

(** The largest [intp], on a platform of 64 bits. *)
Definition intp_max : Z := 2 ^ 63 - 1.

Fixpoint update {A : Type} (n : nat) (f : A -> A) (l : list A) : list A :=
  match l, n with
  | [], _ => []
  | x :: l', O => f x :: l'
  | x :: l', S n' => x :: update n' f l'
  end.

(** [a[j][i] = v], for [j] and [i] inside the array. *)
Definition setitem (a : ndarray) (j i : nat) (v : npfloat) : ndarray :=
  update j (update i (fun _ => v)) a.

(** [a[j][i]] *)
Definition item (a : ndarray) (j i : nat) : npfloat :=
  nth i (nth j a []) NaN.

Fixpoint map2 {A B C : Type} (f : A -> B -> C) (xs : list A) (ys : list B) : list C :=
  match xs, ys with
  | x :: xs', y :: ys' => f x y :: map2 f xs' ys'
  | _, _ => []
  end.

(** [np.where(cond == 0, np.nan, a)] on arrays of one shape. *)
Definition where_zero_nan (cond a : ndarray) : ndarray :=
  map2 (map2 (fun p v => if feqb p (of_Z 0) then NaN else v)) cond a.

Definition ncols (a : ndarray) : nat :=
  match a with [] => O | r :: _ => List.length r end.

(** [a.transpose()]; an array without rows has no entries either way. *)
Definition transpose (a : ndarray) : ndarray :=
  map (fun i => map (fun row => nth i row NaN) a) (seq 0 (ncols a)).

(** [a.reshape(-1, 1)]: the entries in row-major order. *)
Definition reshape_column (a : ndarray) : column := concat a.

(** [l[::step]] for [step > 0], from index 0. *)
Fixpoint every {A : Type} (step : nat) (skip : nat) (l : list A) : list A :=
  match l with
  | [] => []
  | x :: l' =>
      match skip with
      | O => x :: every step (Nat.pred step) l'
      | S k => every step k l'
      end
  end.

(** [l[::step]]: a zero step is refused, a negative one walks backwards
    from the last entry. *)
Definition slice_step {A : Type} (l : list A) (step : Z) : outcome (list A) :=
  if step =? 0 then Raise ValueError
  else if 0 <? step then Ret (every (Z.to_nat step) O l)
  else Ret (every (Z.to_nat (- step)) O (rev l)).

(** Number of entries of [np.arange(0, stop, step)]:
    [ceil(stop / step)], or none when that is negative. *)
Definition arange_len (stop step : Z) : nat := Z.to_nat (- ((- stop) / step)).

(** [np.arange(0, stop, step)] on integers. *)
Definition arange (stop step : Z) : outcome (list Z) :=
  if step =? 0 then Raise ZeroDivisionError
  else Ret (map (fun k => Z.of_nat k * step) (seq 0 (arange_len stop step))).

(** [np.linspace(start, stop, num)]: [num] samples [start + k * step] with
    [step = (stop - start) / (num - 1)]; a single sample when [num = 1]. *)
Definition linspace (start stop : npfloat) (num : Z) : outcome (list npfloat) :=
  if num <? 0 then Raise ValueError
  else
    let div := num - 1 in
    let delta := (stop - start)%np in
    let y := map (fun k => of_Z (Z.of_nat k)) (seq 0 (Z.to_nat num)) in
    if 0 <? div
    then let step := (delta / of_Z div)%np in
         Ret (map (fun v => v * step + start)%np y)
    else Ret (map (fun v => v * delta + start)%np y).

(** [np.meshgrid(xs, ys)]: both results have [len(ys)] rows of
    [len(xs)] entries. *)
Definition meshgrid (xs ys : list npfloat) : ndarray * ndarray :=
  (map (fun _ => xs) ys, map (fun y => map (fun _ => y) xs) ys).

(** ** The world outside the two modules *)

Record filesystem : Type := {
  (* [open(path, 'r')]: the lines, each with its line end *)
  open_r : string -> option (list string);
  (* [open(path, 'rb')]: the bytes *)
  open_rb : string -> option (list byte)
}.

Definition py_open {A : Type} (f : option A) : outcome A :=
  match f with
  | Some a => Ret a
  | None => Raise OSError
  end.

Class Runtime : Type := {
  (* [int(s)] and [float(s)]; [None] stands for their ValueError *)
  py_int : string -> option Z;
  py_float : string -> option npfloat;
  (* [struct.unpack('>f', chunk)[0]] on a chunk of four bytes *)
  unpack_be_float : list byte -> npfloat;
  (* [interpolate.interp2d(x, y, z, kind='cubic')]: the fitted surface,
     evaluated at a point [(x, y)] *)
  interp2d : list Z -> list Z -> ndarray -> outcome (Z -> Z -> npfloat);
  (* [GeoTrans.ll2xy(lons, lats)] *)
  ll2xy : column -> column -> outcome (column * column);
  (* whether the allocator grants a block of so many bytes *)
  malloc : Z -> bool
}.

(** [np.zeros([n0, n1])] of float64.  A negative dimension is refused,
    and so is a size in bytes beyond [intp], counted over the dimensions
    that are not zero (a dimension beyond [intp] falls under this too);
    both with [ValueError].  Then the block is asked for. *)
Definition np_zeros `{Runtime} (n0 n1 : Z) : outcome ndarray :=
  if (n0 <? 0) || (n1 <? 0) then Raise ValueError
  else if intp_max <? 8 * Z.max n0 1 * Z.max n1 1 then Raise ValueError
  else if malloc (8 * n0 * n1)
       then Ret (repeat (repeat (of_Z 0) (Z.to_nat n1)) (Z.to_nat n0))
       else Raise MemoryError.

Definition int_ `{Runtime} (s : string) : outcome Z :=
  match py_int s with Some z => Ret z | None => Raise ValueError end.
Definition float_ `{Runtime} (s : string) : outcome npfloat :=
  match py_float s with Some x => Ret x | None => Raise ValueError end.

(** [file.read(n)]: the next [n] bytes, fewer at the end of the file. *)
Definition read (f : list byte) (n : nat) : list byte * list byte :=
  (firstn n f, skipn n f).

(** [struct.unpack('>f', chunk)[0]] *)
Definition unpack `{Runtime} (chunk : list byte) : outcome npfloat :=
  if (List.length chunk =? 4)%nat then Ret (unpack_be_float chunk)
  else Raise StructError.

(** ** parse_files.py *)

Module ParseFiles.
Section Defs.
Context `{Runtime}.

(** The list [[width, nlines, corner_lat, corner_lon, post_lat, post_lon,
    post_arc, post_utm]] that [get_image_para] returns and
    [get_image_data] takes and returns. *)
Record image_para : Type := {
  width : Z;
  nlines : Z;
  corner_lat : npfloat;
  corner_lon : npfloat;
  post_lat : npfloat;
  post_lon : npfloat;
  post_arc : npfloat;
  post_utm : npfloat
}.

(** The local variables that the scan of the parameter file binds. *)
Record locals : Type := {
  l_width : option Z;
  l_nlines : option Z;
  l_corner_lat : option npfloat;
  l_corner_lon : option npfloat;
  l_post_lat : option npfloat;
  l_post_lon : option npfloat
}.

Definition unbound : locals :=
  {| l_width := None; l_nlines := None; l_corner_lat := None;
     l_corner_lon := None; l_post_lat := None; l_post_lon := None |}.

(** [int(line.strip().split(':')[1])] *)
Definition int_field (line : string) : outcome Z :=
  s <- getitem (split ":" (strip line)) 1 ;;
  int_ s.

(** [float(line.strip().split(':')[1].split()[0])] *)
Definition float_field (line : string) : outcome npfloat :=
  s <- getitem (split ":" (strip line)) 1 ;;
  t <- getitem (split_ws s) 0 ;;
  float_ t.

(** The body of [for line in file]. *)
Definition scan_line (line : string) (l : locals) : outcome locals :=
  if startswith line "width:" then
    v <- int_field line ;;
    Ret {| l_width := Some v; l_nlines := l_nlines l;
           l_corner_lat := l_corner_lat l; l_corner_lon := l_corner_lon l;
           l_post_lat := l_post_lat l; l_post_lon := l_post_lon l |}
  else if startswith line "nlines:" then
    v <- int_field line ;;
    Ret {| l_width := l_width l; l_nlines := Some v;
           l_corner_lat := l_corner_lat l; l_corner_lon := l_corner_lon l;
           l_post_lat := l_post_lat l; l_post_lon := l_post_lon l |}
  else if startswith line "corner_lat:" then
    v <- float_field line ;;
    Ret {| l_width := l_width l; l_nlines := l_nlines l;
           l_corner_lat := Some v; l_corner_lon := l_corner_lon l;
           l_post_lat := l_post_lat l; l_post_lon := l_post_lon l |}
  else if startswith line "corner_lon:" then
    v <- float_field line ;;
    Ret {| l_width := l_width l; l_nlines := l_nlines l;
           l_corner_lat := l_corner_lat l; l_corner_lon := Some v;
           l_post_lat := l_post_lat l; l_post_lon := l_post_lon l |}
  else if startswith line "post_lat:" then
    v <- float_field line ;;
    Ret {| l_width := l_width l; l_nlines := l_nlines l;
           l_corner_lat := l_corner_lat l; l_corner_lon := l_corner_lon l;
           l_post_lat := Some v; l_post_lon := l_post_lon l |}
  else if startswith line "post_lon:" then
    v <- float_field line ;;
    Ret {| l_width := l_width l; l_nlines := l_nlines l;
           l_corner_lat := l_corner_lat l; l_corner_lon := l_corner_lon l;
           l_post_lat := l_post_lat l; l_post_lon := Some v |}
  else Ret l.

(** [get_image_para(par_file)]; the result [None] is Python's [None],
    returned when the handler of [IOError] has run. *)
Definition get_image_para (fs : filesystem) (par_file : string)
  : outcome (option image_para) :=
  try_except_IOError
    (file <- py_open (open_r fs par_file) ;;
     l <- for_each file scan_line unbound ;;
     post_lon <- load (l_post_lon l) ;;
     let post_arc := (post_lon * of_Z 3600)%np in
     let post_utm := (post_arc * of_Z 40075017 / of_Z 360 / of_Z 3600)%np in
     width <- load (l_width l) ;;
     nlines <- load (l_nlines l) ;;
     corner_lat <- load (l_corner_lat l) ;;
     corner_lon <- load (l_corner_lon l) ;;
     post_lat <- load (l_post_lat l) ;;
     Ret (Some {| width := width; nlines := nlines;
                  corner_lat := corner_lat; corner_lon := corner_lon;
                  post_lat := post_lat; post_lon := post_lon;
                  post_arc := post_arc; post_utm := post_utm |}))
    (Ret None).

(** One turn of the inner loop: [chunk = file.read(4)] and
    [image_arry[j][i] = struct.unpack('>f', chunk)[0]]. *)
Definition read_pixel (j i : nat) (st : list byte * ndarray)
  : outcome (list byte * ndarray) :=
  let '(file, image_arry) := st in
  let '(chunk, file) := read file 4 in
  v <- unpack chunk ;;
  Ret (file, setitem image_arry j i v).

(** [a // b] on integers. *)
Definition floordiv (a b : Z) : outcome Z :=
  if b =? 0 then Raise ZeroDivisionError else Ret (a / b).

(** [interp_func(xs, ys)], the [__call__] of [interp2d]: one row for
    each [y], one entry for each [x]; a result of one row is handed back
    as that row, an array of one dimension; without an [x] or without a
    [y] the evaluation is refused with [ValueError]. *)
Definition call_interp (g : Z -> Z -> npfloat) (xs ys : list Z) : outcome nparray :=
  match xs, ys with
  | [], _ => Raise ValueError
  | _, [] => Raise ValueError
  | _, [y] => Ret (Array1 (map (fun x => g x y) xs))
  | _, _ => Ret (Array2 (map (fun y => map (fun x => g x y) xs) ys))
  end.

(** [get_image_data(image_file, parameters, resample_factor)], with
    [plot_flag] left at 0. *)
Definition get_image_data (fs : filesystem) (image_file : string)
    (parameters : image_para) (resample_factor : Z)
  : outcome (option (nparray * image_para)) :=
  let range_samples := width parameters in
  let azimuth_lines := nlines parameters in
  let corner_lat := corner_lat parameters in
  let corner_lon := corner_lon parameters in
  let post_lat := post_lat parameters in
  let post_lon := post_lon parameters in
  let post_arc := post_arc parameters in
  let post_utm := post_utm parameters in
  try_except_IOError
    (file <- py_open (open_rb fs image_file) ;;
     image_arry <- np_zeros range_samples azimuth_lines ;;
     '(_, image_arry) <-
        for_each (range azimuth_lines)
          (fun i => for_each (range range_samples) (fun j => read_pixel j i))
          (file, image_arry) ;;
     if resample_factor =? 1 then
       Ret (Some (Array2 image_arry,
                  {| width := range_samples; nlines := azimuth_lines;
                     corner_lat := corner_lat; corner_lon := corner_lon;
                     post_lat := post_lat; post_lon := post_lon;
                     post_arc := post_arc; post_utm := post_utm |}))
     else
       new_range_samples <- floordiv range_samples resample_factor ;;
       new_azimuth_lines <- floordiv azimuth_lines resample_factor ;;
       let new_post_lat := (post_lat * of_Z resample_factor)%np in
       let new_post_lon := (post_lon * of_Z resample_factor)%np in
       let new_post_arc := (post_arc * of_Z resample_factor)%np in
       let new_post_utm := (post_utm * of_Z resample_factor)%np in
       rows <- arange range_samples 1 ;;
       cols <- arange azimuth_lines 1 ;;
       interp_func <- interp2d cols rows image_arry ;;
       new_rows <- arange range_samples resample_factor ;;
       new_cols <- arange azimuth_lines resample_factor ;;
       new_image_arry <- call_interp interp_func new_cols new_rows ;;
       Ret (Some (new_image_arry,
                  {| width := new_range_samples; nlines := new_azimuth_lines;
                     corner_lat := corner_lat; corner_lon := corner_lon;
                     post_lat := new_post_lat; post_lon := new_post_lon;
                     post_arc := new_post_arc; post_utm := new_post_utm |})))
    (Ret None).

End Defs.
End ParseFiles.

(** ** slippy/data/insar.py *)

Module Insar.
Section Defs.
Context `{Runtime}.

(** One entry of [self.data]: [{"value": ..., "unit": ...}]. *)
Record channel : Type := {
  value : column;
  unit_ : string
}.

(** [self.data], a dictionary with these eight keys. *)
Record dataset : Type := {
  lon : channel;
  lat : channel;
  x : channel;
  y : channel;
  phase : channel;
  los : channel;
  azi : channel;
  inc : channel
}.

(** [self.data_para] *)
Record datapara : Type := {
  satellite : string;
  datum_name : string
}.

(** The two attributes of an instance that [read_from_gamma] assigns;
    both are [None] after [__init__]. *)
Record InSAR : Type := {
  data : option dataset;
  data_para : option datapara
}.

(** The instance as [__init__] leaves it. *)
Definition init : InSAR := {| data := None; data_para := None |}.

(** A method body: it may assign attributes of [self] before it returns
    or raises. *)
Definition method (A : Type) : Type := InSAR -> InSAR * outcome A.

Definition mbind {A B : Type} (m : method A) (k : A -> method B) : method B :=
  fun self =>
    match m self with
    | (self', Ret a) => k a self'
    | (self', Raise e) => (self', Raise e)
    end.

Definition pure {A : Type} (o : outcome A) : method A := fun self => (self, o).

Definition set_data (d : dataset) : method unit :=
  fun self => ({| data := Some d; data_para := data_para self |}, Ret tt).

Definition set_data_para (p : datapara) : method unit :=
  fun self => ({| data := data self; data_para := Some p |}, Ret tt).

(** [try: body except IOError: handler], around statements that may
    assign attributes. *)
Definition try_except_IOError_m {A : Type} (body handler : method A) : method A :=
  fun self =>
    match body self with
    | (self', Ret a) => (self', Ret a)
    | (self', Raise e) =>
        if isinstance e "IOError" then handler self' else (self', Raise e)
    end.

(** The local variables that the scan of the parameter file binds. *)
Record locals : Type := {
  range_samples : option Z;
  azimuth_lines : option Z;
  corner_lat : option npfloat;
  corner_lon : option npfloat;
  post_lat : option npfloat;
  post_lon : option npfloat;
  ellps_name : option string
}.

Definition unbound : locals :=
  {| range_samples := None; azimuth_lines := None; corner_lat := None;
     corner_lon := None; post_lat := None; post_lon := None;
     ellps_name := None |}.

(** [int(line.strip().split(':')[1])] *)
Definition int_field (line : string) : outcome Z :=
  s <- getitem (split ":" (strip line)) 1 ;;
  int_ s.

(** [float(line.strip().split(':')[1].split()[0])] *)
Definition float_field (line : string) : outcome npfloat :=
  s <- getitem (split ":" (strip line)) 1 ;;
  t <- getitem (split_ws s) 0 ;;
  float_ t.

(** [line.strip().split(':')[1].strip()] *)
Definition str_field (line : string) : outcome string :=
  s <- getitem (split ":" (strip line)) 1 ;;
  Ret (strip s).

(** The body of [for line in file]. *)
Definition scan_line (line : string) (l : locals) : outcome locals :=
  if startswith line "width:" then
    v <- int_field line ;;
    Ret {| range_samples := Some v; azimuth_lines := azimuth_lines l;
           corner_lat := corner_lat l; corner_lon := corner_lon l;
           post_lat := post_lat l; post_lon := post_lon l;
           ellps_name := ellps_name l |}
  else if startswith line "nlines:" then
    v <- int_field line ;;
    Ret {| range_samples := range_samples l; azimuth_lines := Some v;
           corner_lat := corner_lat l; corner_lon := corner_lon l;
           post_lat := post_lat l; post_lon := post_lon l;
           ellps_name := ellps_name l |}
  else if startswith line "corner_lat:" then
    v <- float_field line ;;
    Ret {| range_samples := range_samples l; azimuth_lines := azimuth_lines l;
           corner_lat := Some v; corner_lon := corner_lon l;
           post_lat := post_lat l; post_lon := post_lon l;
           ellps_name := ellps_name l |}
  else if startswith line "corner_lon:" then
    v <- float_field line ;;
    Ret {| range_samples := range_samples l; azimuth_lines := azimuth_lines l;
           corner_lat := corner_lat l; corner_lon := Some v;
           post_lat := post_lat l; post_lon := post_lon l;
           ellps_name := ellps_name l |}
  else if startswith line "post_lat:" then
    v <- float_field line ;;
    Ret {| range_samples := range_samples l; azimuth_lines := azimuth_lines l;
           corner_lat := corner_lat l; corner_lon := corner_lon l;
           post_lat := Some v; post_lon := post_lon l;
           ellps_name := ellps_name l |}
  else if startswith line "post_lon:" then
    v <- float_field line ;;
    Ret {| range_samples := range_samples l; azimuth_lines := azimuth_lines l;
           corner_lat := corner_lat l; corner_lon := corner_lon l;
           post_lat := post_lat l; post_lon := Some v;
           ellps_name := ellps_name l |}
  else if startswith line "ellipsoid_name:" then
    v <- str_field line ;;
    Ret {| range_samples := range_samples l; azimuth_lines := azimuth_lines l;
           corner_lat := corner_lat l; corner_lon := corner_lon l;
           post_lat := post_lat l; post_lon := post_lon l;
           ellps_name := Some v |}
  else Ret l.

(** The [if]/[elif] chain of [__phase2los] that picks [radar_freq]. *)
Definition radar_freq (satellite : string) : outcome npfloat :=
  if existsb (String.eqb satellite) ["sentinel-1"; "Sentinel-1"; "s1"; "S1"]%string
  then Ret (Fin (Q2Qc (540500045433 # 100)))
  else if existsb (String.eqb satellite) ["ALOS"; "alos"]%string
  then Ret (Fin (Q2Qc (1270000000 # 1)))
  else if String.eqb satellite "ALOS-2/U"
  then Ret (Fin (Q2Qc (1257500000 # 1)))
  else if String.eqb satellite "ALOS-2/{F,W}"
  then Ret (Fin (Q2Qc (1236500000 # 1)))
  else Raise ValueError.

(** [__phase2los(phase, satellite)] on a column of phases. *)
Definition phase2los (phase : column) (satellite : string) : outcome column :=
  radar_freq <- radar_freq satellite ;;
  let wavelength := (c / radar_freq)%np in
  let los := map (fun p => - (p / of_Z 2 / np_pi * wavelength / of_Z 2))%np phase in
  Ret los.

(** The images still to be read and the three arrays being filled. *)
Record images : Type := {
  f1 : list byte;
  f2 : list byte;
  f3 : list byte;
  im_phase : ndarray;
  im_azimuth : ndarray;
  im_incidence : ndarray
}.

(** One turn of the inner loop: a value from each of the three files. *)
Definition read_pixels (j i : nat) (st : images) : outcome images :=
  let '(chunk, f1) := read (f1 st) 4 in
  v1 <- unpack chunk ;;
  let phase := setitem (im_phase st) j i v1 in
  let '(chunk, f2) := read (f2 st) 4 in
  v2 <- unpack chunk ;;
  let azimuth := setitem (im_azimuth st) j i v2 in
  let '(chunk, f3) := read (f3 st) 4 in
  v3 <- unpack chunk ;;
  let incidence := setitem (im_incidence st) j i v3 in
  Ret {| f1 := f1; f2 := f2; f3 := f3; im_phase := phase;
         im_azimuth := azimuth; im_incidence := incidence |}.

(** The first [try] statement: the scan of the parameter file.  When
    [open] fails the handler prints and no local is bound. *)
Definition read_para (fs : filesystem) (para_file : string) : outcome locals :=
  try_except_IOError
    (file <- py_open (open_r fs para_file) ;;
     l <- for_each file scan_line unbound ;;
     post_lon <- load (post_lon l) ;;
     let post_arc := (post_lon * of_Z 3600)%np in
     let post_utm := (post_arc * of_Z 40075017 / of_Z 360 / of_Z 3600)%np in
     (* the two [print]s read these *)
     _ <- load (range_samples l) ;;
     _ <- load (azimuth_lines l) ;;
     Ret l)
    (Ret unbound).

(** The second [try] statement up to the line before [self.data = ...]. *)
Definition read_images (fs : filesystem) (l : locals)
    (phase_file azi_file inc_file satellite : string) (downsample : Z)
  : outcome dataset :=
  f1 <- py_open (open_rb fs phase_file) ;;
  f2 <- py_open (open_rb fs azi_file) ;;
  f3 <- py_open (open_rb fs inc_file) ;;
  range_samples <- load (range_samples l) ;;
  azimuth_lines <- load (azimuth_lines l) ;;
  phase <- np_zeros range_samples azimuth_lines ;;
  azimuth <- np_zeros range_samples azimuth_lines ;;
  incidence <- np_zeros range_samples azimuth_lines ;;
  st <- for_each (range azimuth_lines)
          (fun i => for_each (range range_samples) (fun j => read_pixels j i))
          {| f1 := f1; f2 := f2; f3 := f3; im_phase := phase;
             im_azimuth := azimuth; im_incidence := incidence |} ;;
  let phase := im_phase st in
  let azimuth := im_azimuth st in
  let incidence := im_incidence st in
  (* [int(range_samples / downsample)] inside the [print] *)
  _ <- (if downsample =? 0 then Raise ZeroDivisionError else Ret tt) ;;
  let azimuth := where_zero_nan phase azimuth in
  let incidence := where_zero_nan phase incidence in
  let phase := where_zero_nan phase phase in
  phase <- slice_step (reshape_column (transpose phase)) downsample ;;
  los <- phase2los phase satellite ;;
  azimuth <- slice_step (reshape_column (transpose azimuth)) downsample ;;
  incidence <- slice_step (reshape_column (transpose incidence)) downsample ;;
  let azimuth := map (fun a => of_Z (-180) - degrees a)%np azimuth in
  let incidence := map (fun a => of_Z 90 - degrees a)%np incidence in
  corner_lat <- load (corner_lat l) ;;
  post_lat <- load (post_lat l) ;;
  lats <- linspace corner_lat
            (corner_lat + of_Z (azimuth_lines - 1) * post_lat)%np azimuth_lines ;;
  corner_lon <- load (corner_lon l) ;;
  post_lon <- load (post_lon l) ;;
  lons <- linspace corner_lon
            (corner_lon + of_Z (range_samples - 1) * post_lon)%np range_samples ;;
  let '(Lons, Lats) := meshgrid lons lats in
  Lons <- slice_step (reshape_column Lons) downsample ;;
  Lats <- slice_step (reshape_column Lats) downsample ;;
  '(utm_x, utm_y) <- ll2xy Lons Lats ;;
  Ret {| lon := {| value := Lons; unit_ := "degree" |};
         lat := {| value := Lats; unit_ := "degree" |};
         x := {| value := utm_x; unit_ := "km" |};
         y := {| value := utm_y; unit_ := "km" |};
         phase := {| value := phase; unit_ := "radian" |};
         los := {| value := los; unit_ := "m" |};
         azi := {| value := azimuth; unit_ := "degree" |};
         inc := {| value := incidence; unit_ := "degree" |} |}.

(** [InSAR.read_from_gamma(para_file, phase_file, azi_file, inc_file,
    satellite, downsample)] *)
Definition read_from_gamma (fs : filesystem)
    (para_file phase_file azi_file inc_file satellite : string) (downsample : Z)
  : method unit :=
  mbind (pure (read_para fs para_file)) (fun l =>
  try_except_IOError_m
    (mbind (pure (read_images fs l phase_file azi_file inc_file satellite downsample))
       (fun d =>
     mbind (set_data d) (fun _ =>
     mbind (pure (load (ellps_name l))) (fun ellps_name =>
     set_data_para {| satellite := satellite; datum_name := ellps_name |}))))
    (pure (Ret tt))).

End Defs.
End Insar.

(** ** A concrete runtime, to run the model on examples *)

Module Sample.

Definition digit (ch : ascii) : option Z :=
  let n := nat_of_ascii ch in
  if ((48 <=? n) && (n <=? 57))%nat then Some (Z.of_nat n - 48) else None.

(** The digits of [s] read in base ten after [acc]; [None] at the first
    character that is not a digit. *)
Fixpoint digits (s : string) (acc : Z) : option Z :=
  match s with
  | EmptyString => Some acc
  | String ch r =>
      match digit ch with
      | Some d => digits r (acc * 10 + d)
      | None => None
      end
  end.

Definition unsigned (s : string) : option Z :=
  match s with
  | EmptyString => None
  | _ => digits s 0
  end.

(** [int] on an optional sign followed by decimal digits, white space
    around them allowed. *)
Definition int (s : string) : option Z :=
  match strip s with
  | String "-" r => option_map Z.opp (unsigned r)
  | String "+" r => unsigned r
  | r => unsigned r
  end.

(** [float] on [digits] or [digits.digits] with an optional sign. *)
Definition float (s : string) : option npfloat :=
  let t := strip s in
  let '(neg, body) :=
    match t with
    | String "-" r => (true, r)
    | String "+" r => (false, r)
    | r => (false, r)
    end in
  let parts := split "." body in
  let mag :=
    match parts with
    | [i] => option_map (fun n => inject_Z n) (unsigned i)
    | [i; f] =>
        match unsigned i, unsigned f with
        | Some n, Some m =>
            Some (inject_Z n + (m # 1) / inject_Z (10 ^ Z.of_nat (String.length f)))%Q
        | _, _ => None
        end
    | _ => None
    end in
  option_map (fun q => Fin (Q2Qc (if neg : bool then - q else q)%Q)) mag.

Definition be_word (chunk : list byte) : Z :=
  fold_left (fun acc b => acc * 256 + Z.of_N (Byte.to_N b)) chunk 0.

(** IEEE 754 binary32, most significant byte first.  Patterns with all
    exponent bits set are read as [NaN]. *)
Definition binary32 (chunk : list byte) : npfloat :=
  let w := be_word chunk in
  let s := Z.testbit w 31 in
  let e := Z.land (Z.shiftr w 23) 255 in
  let m := Z.land w (2 ^ 23 - 1) in
  if e =? 255 then NaN
  else
    let mag :=
      if e =? 0 then (inject_Z m * Qpower 2 (-149))%Q
      else (inject_Z (2 ^ 23 + m) * Qpower 2 (e - 150))%Q in
    Fin (Q2Qc (if s then - mag else mag)%Q).

(** A surface that passes through the samples: at the node [(x, y)] it
    is the sample of the grid [z] there.  Like the cubic fit it stands
    for, it needs four nodes on each axis. *)
Definition nodes (xs ys : list Z) (z : ndarray) : outcome (Z -> Z -> npfloat) :=
  if ((length xs <? 4) || (length ys <? 4))%nat then Raise FitpackError
  else Ret (fun x y => item z (Z.to_nat y) (Z.to_nat x)).

(** A projection that leaves the coordinates as they are. *)
Definition plate (lons lats : column) : outcome (column * column) :=
  Ret (lons, lats).

#[export] Instance runtime : Runtime := {|
  py_int := int;
  py_float := float;
  unpack_be_float := binary32;
  interp2d := nodes;
  ll2xy := plate;
  malloc := fun n => n <=? 2 ^ 30
|}.

(** A line of text with its line end. *)
Definition line (s : string) : string := (s ++ String "010"%char EmptyString)%string.

(** A parameter file as GAMMA writes it, for a raster of 2 by 2. *)
Definition par_lines : list string :=
  map line
    [ "title: sample";
      "width:    2";
      "nlines:   2";
      "corner_lat:   10.0  decimal degrees";
      "corner_lon:   20.0  decimal degrees";
      "post_lat:   -0.5  decimal degrees";
      "post_lon:    0.5  decimal degrees";
      "ellipsoid_name: WGS 84" ]%string.

(** The same file without its [ellipsoid_name] line. *)
Definition par_lines_no_ellipsoid : list string := removelast par_lines.

(** A raster of one line of two samples. *)
Definition par_lines_wide : list string :=
  map line
    [ "width:    2";
      "nlines:   1";
      "corner_lat:   10.0  decimal degrees";
      "corner_lon:   20.0  decimal degrees";
      "post_lat:   -0.5  decimal degrees";
      "post_lon:    0.5  decimal degrees";
      "ellipsoid_name: WGS 84" ]%string.

(** The first file without its [width] line. *)
Definition par_lines_no_width : list string :=
  filter (fun line => negb (startswith line "width:")) par_lines.

(** Four pixels: 0.0, 1.0, 2.0 and -1.0. *)
Definition four_pixels : list byte :=
  [x00; x00; x00; x00;  x3f; x80; x00; x00;
   x40; x00; x00; x00;  xbf; x80; x00; x00].

(** The parameter lists of a raster of 2 by 2 and of one of 5 by 5. *)
Definition para_2x2 : ParseFiles.image_para :=
  {| ParseFiles.width := 2; ParseFiles.nlines := 2;
     ParseFiles.corner_lat := of_Z 10; ParseFiles.corner_lon := of_Z 20;
     ParseFiles.post_lat := of_Z (-1); ParseFiles.post_lon := of_Z 1;
     ParseFiles.post_arc := of_Z 3600; ParseFiles.post_utm := of_Z 111319 |}.

Definition para_5x5 : ParseFiles.image_para :=
  {| ParseFiles.width := 5; ParseFiles.nlines := 5;
     ParseFiles.corner_lat := of_Z 10; ParseFiles.corner_lon := of_Z 20;
     ParseFiles.post_lat := of_Z (-1); ParseFiles.post_lon := of_Z 1;
     ParseFiles.post_arc := of_Z 3600; ParseFiles.post_utm := of_Z 111319 |}.

Definition disk : filesystem := {|
  open_r := fun path =>
    if String.eqb path "s.par" then Some par_lines
    else if String.eqb path "no_ellipsoid.par" then Some par_lines_no_ellipsoid
    else if String.eqb path "wide.par" then Some par_lines_wide
    else if String.eqb path "no_width.par" then Some par_lines_no_width
    else None;
  open_rb := fun path =>
    if String.eqb path "s.phase" then Some four_pixels
    else if String.eqb path "s.azi" then Some four_pixels
    else if String.eqb path "s.inc" then Some four_pixels
    else if String.eqb path "short.phase" then Some (firstn 14 four_pixels)
    else if String.eqb path "two.img" then Some (firstn 8 four_pixels)
    else if String.eqb path "zeros25" then Some (repeat x00 100)
    else None
|}.

End Sample.


(** ** Notions used in the statements *)

(** One entry of the result, in the shape the formula is usually written:
    [-(p / (2 pi) * wavelength / 2)]. *)
Definition los_of (wavelength p : npfloat) : npfloat :=
  (- (p / (of_Z 2 * np_pi) * wavelength / of_Z 2))%np.

(** The table of sensors of the specification, under the names the code
    knows: each name with its radar frequency in Hz. *)
Definition sensor_table : list (string * Q) :=
  [ ("sentinel-1", 540500045433 # 100); ("Sentinel-1", 540500045433 # 100);
    ("s1", 540500045433 # 100); ("S1", 540500045433 # 100);
    ("ALOS", 1270000000 # 1); ("alos", 1270000000 # 1);
    ("ALOS-2/U", 1257500000 # 1); ("ALOS-2/{F,W}", 1236500000 # 1) ]%string.

(** An array of [n0] rows of [n1] entries. *)
Definition shape (a : ndarray) (n0 n1 : nat) : Prop :=
  length a = n0 /\ Forall (fun r : list npfloat => length r = n1) a.

(** The prefixes of the six lines that [get_image_para] needs. *)
Definition required_keys : list string :=
  ["width:"; "nlines:"; "corner_lat:"; "corner_lon:"; "post_lat:"; "post_lon:"]%string.

Definition is_some {A : Type} (o : option A) : bool :=
  match o with Some _ => true | None => false end.

(** Whether the scan has bound the variable that the line [key] sets. *)
Definition bound (key : string) (l : ParseFiles.locals) : bool :=
  if String.eqb key "width:" then is_some (ParseFiles.l_width l)
  else if String.eqb key "nlines:" then is_some (ParseFiles.l_nlines l)
  else if String.eqb key "corner_lat:" then is_some (ParseFiles.l_corner_lat l)
  else if String.eqb key "corner_lon:" then is_some (ParseFiles.l_corner_lon l)
  else if String.eqb key "post_lat:" then is_some (ParseFiles.l_post_lat l)
  else if String.eqb key "post_lon:" then is_some (ParseFiles.l_post_lon l)
  else true.

(** [np.where(p == 0, nan, v)] at one pixel. *)
Definition masked (p v : npfloat) : npfloat :=
  if feqb p (of_Z 0) then NaN else v.

(** The rational that a finite value stands for. *)
Definition rational (v : npfloat) : option Q :=
  match v with Fin q => Some (this q) | NaN => None end.

(** The longitudes as the specification words them: [height] evenly
    spaced values from [corner_lon] to [corner_lon + (width - 1) *
    post_lon], repeated on [width] rows, then flattened. *)
Definition lon_mesh_as_specified (corner_lon post_lon : npfloat) (width height : Z)
  : outcome column :=
  lons <- linspace corner_lon (corner_lon + of_Z (width - 1) * post_lon)%np height ;;
  Ret (reshape_column (map (fun _ => lons) (range width))).

Section Views.
Context `{Runtime}.
Local Open Scope nat_scope.

(** The [k]-th value stored in a raster file. *)
Definition pixel (F : list byte) (k : nat) : npfloat :=
  unpack_be_float (firstn 4 (skipn (4 * k) F)).

(** After [k] pixels: the rest of the file, and an array that holds the
    pixels read so far, pixel [i * w + j] at [[j][i]]. *)
Definition filled (F : list byte) (w h k : nat) (f : list byte) (a : ndarray) : Prop :=
  f = skipn (4 * k) F
  /\ shape a w h
  /\ forall j i, j < w -> i < h -> i * w + j < k -> item a j i = pixel F (i * w + j).

Definition filled3 (F1 F2 F3 : list byte) (w h k : nat) (st : Insar.images) : Prop :=
  filled F1 w h k (Insar.f1 st) (Insar.im_phase st)
  /\ filled F2 w h k (Insar.f2 st) (Insar.im_azimuth st)
  /\ filled F3 w h k (Insar.f3 st) (Insar.im_incidence st).

(** Each of the three files still holds [n] bytes. *)
Definition holds (n : nat) (st : Insar.images) : Prop :=
  n <= length (Insar.f1 st) /\ n <= length (Insar.f2 st) /\ n <= length (Insar.f3 st).

(** [st'] is [st] with [n] bytes consumed from each file. *)
Definition consumed (n : nat) (st st' : Insar.images) : Prop :=
  length (Insar.f1 st') = length (Insar.f1 st) - n
  /\ length (Insar.f2 st') = length (Insar.f2 st) - n
  /\ length (Insar.f3 st') = length (Insar.f3 st) - n.

End Views.

(** ** Notions used in the further properties *)

(** A value of the parameter list: an [int] or a [float]. *)
Inductive pyvalue : Type :=
| PyInt (z : Z)
| PyFloat (v : npfloat).

(** The entry of the list returned by [get_image_para] that the line
    [key] sets. *)
Definition entry (key : string) (p : ParseFiles.image_para) : option pyvalue :=
  if String.eqb key "width:" then Some (PyInt (ParseFiles.width p))
  else if String.eqb key "nlines:" then Some (PyInt (ParseFiles.nlines p))
  else if String.eqb key "corner_lat:" then Some (PyFloat (ParseFiles.corner_lat p))
  else if String.eqb key "corner_lon:" then Some (PyFloat (ParseFiles.corner_lon p))
  else if String.eqb key "post_lat:" then Some (PyFloat (ParseFiles.post_lat p))
  else if String.eqb key "post_lon:" then Some (PyFloat (ParseFiles.post_lon p))
  else None.

(** The local variable that the line [key] sets, during the scan of
    [get_image_para]. *)
Definition lookup (key : string) (l : ParseFiles.locals) : option pyvalue :=
  if String.eqb key "width:" then option_map PyInt (ParseFiles.l_width l)
  else if String.eqb key "nlines:" then option_map PyInt (ParseFiles.l_nlines l)
  else if String.eqb key "corner_lat:" then option_map PyFloat (ParseFiles.l_corner_lat l)
  else if String.eqb key "corner_lon:" then option_map PyFloat (ParseFiles.l_corner_lon l)
  else if String.eqb key "post_lat:" then option_map PyFloat (ParseFiles.l_post_lat l)
  else if String.eqb key "post_lon:" then option_map PyFloat (ParseFiles.l_post_lon l)
  else None.

(** Whether a line starts with one of the six keys. *)
Definition is_key_line (line : string) : bool :=
  existsb (startswith line) required_keys.

(** The same six variables bound to the same values in the scan of
    [get_image_para] and in the scan of [read_from_gamma]. *)
Definition same_six (lp : ParseFiles.locals) (li : Insar.locals) : Prop :=
  ParseFiles.l_width lp = Insar.range_samples li
  /\ ParseFiles.l_nlines lp = Insar.azimuth_lines li
  /\ ParseFiles.l_corner_lat lp = Insar.corner_lat li
  /\ ParseFiles.l_corner_lon lp = Insar.corner_lon li
  /\ ParseFiles.l_post_lat lp = Insar.post_lat li
  /\ ParseFiles.l_post_lon lp = Insar.post_lon li.

(** Number of entries of [l[::step]] for a list of [n] entries:
    [ceil(n / |step|)]. *)
Definition slice_len (n : nat) (step : Z) : nat :=
  ((n + Z.to_nat (Z.abs step) - 1) / Z.to_nat (Z.abs step))%nat.

(** The pixel that row [k] of [l[::step]] stands for, in a list of [n]
    pixels: [k * step] from the first pixel, or from the last one
    backwards when [step] is negative. *)
Definition slice_pixel (n : nat) (step : Z) (k : nat) : nat :=
  if 0 <? step then (k * Z.to_nat step)%nat
  else (n - 1 - k * Z.to_nat (- step))%nat.

Section Fields.
Context `{Runtime}.

(** The value that [get_image_para] reads off a line that starts with
    [key]. *)
Definition field (key line : string) : outcome pyvalue :=
  if String.eqb key "width:" || String.eqb key "nlines:"
  then v <- ParseFiles.int_field line ;; Ret (PyInt v)
  else v <- ParseFiles.float_field line ;; Ret (PyFloat v).

End Fields.

(** ** Further sample files *)

Module MoreSamples.

(** The sample parameter file with one more [width] line in front. *)
Definition par_lines_twice : list string :=
  Sample.line "width:    7" :: Sample.par_lines.

(** The sample parameter file reduced to its six key lines. *)
Definition par_lines_bare : list string :=
  map Sample.line
    [ "width:    2";
      "nlines:   2";
      "corner_lat:   10.0  decimal degrees";
      "corner_lon:   20.0  decimal degrees";
      "post_lat:   -0.5  decimal degrees";
      "post_lon:    0.5  decimal degrees" ]%string.

(** Six pixels: 0.0, 1.0, 2.0, -1.0, 1.0 and 2.0. *)
Definition six_pixels : list byte :=
  Sample.four_pixels ++ skipn 4 (firstn 12 Sample.four_pixels).

(** The parameter list of a raster of three samples on two lines. *)
Definition para_3x2 : ParseFiles.image_para :=
  {| ParseFiles.width := 3; ParseFiles.nlines := 2;
     ParseFiles.corner_lat := of_Z 10; ParseFiles.corner_lon := of_Z 20;
     ParseFiles.post_lat := of_Z (-1); ParseFiles.post_lon := of_Z 1;
     ParseFiles.post_arc := of_Z 3600; ParseFiles.post_utm := of_Z 111319 |}.

(** Sixteen pixels, 0.0, 1.0, 2.0 and -1.0 four times over, and the
    parameter list of a raster of 4 by 4. *)
Definition sixteen_pixels : list byte :=
  Sample.four_pixels ++ Sample.four_pixels ++ Sample.four_pixels
  ++ Sample.four_pixels.

Definition para_4x4 : ParseFiles.image_para :=
  {| ParseFiles.width := 4; ParseFiles.nlines := 4;
     ParseFiles.corner_lat := of_Z 10; ParseFiles.corner_lon := of_Z 20;
     ParseFiles.post_lat := of_Z (-1); ParseFiles.post_lon := of_Z 1;
     ParseFiles.post_arc := of_Z 3600; ParseFiles.post_utm := of_Z 111319 |}.

Definition disk : filesystem := {|
  open_r := fun path =>
    if String.eqb path "twice.par" then Some par_lines_twice
    else if String.eqb path "bare.par" then Some par_lines_bare
    else None;
  open_rb := fun path =>
    if String.eqb path "six.img" then Some six_pixels
    else if String.eqb path "sixteen.img" then Some sixteen_pixels
    else None
|}.

End MoreSamples.

(** * Properties *)

(** ** Outcomes *)

Lemma bind_ret_inv {A B : Type} (m : outcome A) (k : A -> outcome B) (b : B) :
  bind m k = Ret b -> exists a, m = Ret a /\ k a = Ret b.
Proof.
  destruct m as [a|e]; simpl; intros E; [exists a; auto | discriminate].
Qed.

Lemma bind_raise_inv {A B : Type} (m : outcome A) (k : A -> outcome B) (e : exn) :
  bind m k = Raise e -> m = Raise e \/ exists a, m = Ret a /\ k a = Raise e.
Proof.
  destruct m as [a|e']; simpl; intros E; [right; exists a; auto | left; congruence].
Qed.

(** Splits a hypothesis [bind m k = Ret b] into its two steps. *)
Ltac bind_inv H :=
  let a := fresh "v" in
  let E := fresh "E" in
  apply bind_ret_inv in H; destruct H as (a & E & H).

Ltac bind_as H a Ea :=
  apply bind_ret_inv in H; destruct H as (a & Ea & H).

Lemma load_ret_inv {A : Type} (v : option A) (a : A) :
  load v = Ret a -> v = Some a.
Proof. destruct v; simpl; congruence. Qed.

Lemma py_open_ret_inv {A : Type} (f : option A) (a : A) :
  py_open f = Ret a -> f = Some a.
Proof. destruct f; simpl; congruence. Qed.

(** ** Arithmetic of [npfloat] *)

Lemma is_zero_true (q : Qc) : is_zero q = true <-> q = 0%Qc.
Proof.
  unfold is_zero. split.
  - intros E. apply Z.eqb_eq in E. apply Qc_is_canon.
    destruct q as [[n d] Hq]. simpl in *. subst n. reflexivity.
  - intros ->. reflexivity.
Qed.

Lemma is_zero_false (q : Qc) : is_zero q = false <-> q <> 0%Qc.
Proof.
  rewrite <- is_zero_true. destruct (is_zero q); split; congruence.
Qed.

Lemma fdiv_fin (a b : Qc) :
  is_zero b = false -> (Fin a / Fin b)%np = Fin (a / b)%Qc.
Proof. intros E. simpl. rewrite E. reflexivity. Qed.

Lemma is_zero_mul (a b : Qc) :
  is_zero a = false -> is_zero b = false -> is_zero (a * b)%Qc = false.
Proof.
  rewrite !is_zero_false. intros Ha Hb E.
  destruct (Qcmult_integral _ _ E); contradiction.
Qed.

Lemma is_zero_of_Z (z : Z) : is_zero (Q2Qc (inject_Z z)) = (z =? 0).
Proof.
  destruct (Z.eqb_spec z 0) as [->|Hz].
  - reflexivity.
  - apply is_zero_false. intros E.
    assert (Q : (inject_Z z == 0)%Q).
    { rewrite <- (Qred_correct (inject_Z z)).
      change (Qred (inject_Z z)) with (this (Q2Qc (inject_Z z))).
      rewrite E. reflexivity. }
    unfold Qeq in Q. simpl in Q. lia.
Qed.

(** Dividing twice is dividing by the product. *)
Lemma fdiv_fdiv (p : npfloat) (a b : Qc) :
  is_zero a = false -> is_zero b = false ->
  (p / Fin a / Fin b)%np = (p / (Fin a * Fin b))%np.
Proof.
  intros Ha Hb. destruct p as [|q]; [reflexivity|].
  rewrite fdiv_fin by assumption. rewrite fdiv_fin by assumption.
  simpl fmul. rewrite fdiv_fin by (apply is_zero_mul; assumption).
  f_equal. apply is_zero_false in Ha, Hb. field; repeat split; assumption.
Qed.

(** ** [__phase2los] *)

Lemma radar_freq_fin (satellite : string) (f : npfloat) :
  Insar.radar_freq satellite = Ret f ->
  exists q, f = Fin q /\ is_zero q = false.
Proof.
  unfold Insar.radar_freq.
  repeat match goal with
         | |- context [if ?b then _ else _] => destruct b
         end;
    intros E; inversion E; eexists; split; reflexivity.
Qed.

Lemma radar_freq_unknown (satellite : string) :
  ~ In satellite ["sentinel-1"; "Sentinel-1"; "s1"; "S1"; "ALOS"; "alos";
                  "ALOS-2/U"; "ALOS-2/{F,W}"]%string ->
  Insar.radar_freq satellite = Raise ValueError.
Proof.
  intros Hn. unfold Insar.radar_freq.
  assert (Q : forall s, In s ["sentinel-1"; "Sentinel-1"; "s1"; "S1"; "ALOS"; "alos";
                              "ALOS-2/U"; "ALOS-2/{F,W}"]%string ->
                        String.eqb satellite s = false).
  { intros s Hs. apply String.eqb_neq. intros ->. contradiction. }
  cbn [existsb].
  rewrite !Q by (simpl; tauto). reflexivity.
Qed.

Lemma los_of_linear (wavelength k p : npfloat) :
  los_of wavelength (k * p)%np = (k * los_of wavelength p)%np.
Proof.
  unfold los_of.
  assert (E2 : is_zero (Q2Qc (inject_Z 2)) = false) by reflexivity.
  change (of_Z 2 * np_pi)%np
    with (Fin (Q2Qc (inject_Z 2) * Q2Qc (884279719003555 # 281474976710656))%Qc).
  assert (Ed : is_zero (Q2Qc (inject_Z 2) * Q2Qc (884279719003555 # 281474976710656))%Qc
               = false) by reflexivity.
  unfold of_Z.
  generalize dependent (Q2Qc (inject_Z 2) * Q2Qc (884279719003555 # 281474976710656))%Qc.
  generalize dependent (Q2Qc (inject_Z 2)).
  intros a Ha d Hd.
  destruct k as [|x]; [reflexivity|].
  destruct p as [|y]; [reflexivity|].
  cbn [fmul]. rewrite !fdiv_fin by assumption.
  destruct wavelength as [|w]; [reflexivity|].
  cbn [fmul]. rewrite !fdiv_fin by assumption. cbn [fneg fmul].
  f_equal. apply is_zero_false in Ha, Hd. field; repeat split; assumption.
Qed.

Lemma los_of_zero (w : Qc) : los_of (Fin w) (of_Z 0) = of_Z 0.
Proof.
  unfold los_of.
  assert (E2 : is_zero (Q2Qc (inject_Z 2)) = false) by reflexivity.
  change (of_Z 2 * np_pi)%np
    with (Fin (Q2Qc (inject_Z 2) * Q2Qc (884279719003555 # 281474976710656))%Qc).
  assert (Ed : is_zero (Q2Qc (inject_Z 2) * Q2Qc (884279719003555 # 281474976710656))%Qc
               = false) by reflexivity.
  change (of_Z 0) with (Fin 0%Qc). unfold of_Z.
  generalize dependent (Q2Qc (inject_Z 2) * Q2Qc (884279719003555 # 281474976710656))%Qc.
  generalize dependent (Q2Qc (inject_Z 2)).
  intros a Ha d Hd.
  rewrite fdiv_fin by assumption. cbn [fmul]. rewrite fdiv_fin by assumption.
  cbn [fneg]. reflexivity.
Qed.

Lemma phase2los_elementwise (satellite : string) (f : npfloat) (phase : column) :
  Insar.radar_freq satellite = Ret f ->
  Insar.phase2los phase satellite = Ret (map (los_of (c / f)%np) phase).
Proof.
  intros Hf. unfold Insar.phase2los. rewrite Hf. cbn [bind]. f_equal.
  apply map_ext. intros p. unfold los_of, of_Z, np_pi.
  rewrite fdiv_fdiv by reflexivity. reflexivity.
Qed.

Lemma phase2los_ret_inv (satellite : string) (phase los : column) :
  Insar.phase2los phase satellite = Ret los ->
  exists f, Insar.radar_freq satellite = Ret f.
Proof.
  unfold Insar.phase2los. intros E. bind_inv E. eauto.
Qed.


(** C7, as amended.  For a sensor string that is none of the eight names
    the code knows, [__phase2los] raises [ValueError] and yields no
    value, whatever the phase.  (Every string outside the table of the
    specification is such a string.) *)
Theorem phase2los_unknown_sensor :
  forall (satellite : string) (phase : column),
    ~ In satellite ["sentinel-1"; "Sentinel-1"; "s1"; "S1"; "ALOS"; "alos";
                    "ALOS-2/U"; "ALOS-2/{F,W}"]%string ->
    Insar.phase2los phase satellite = Raise ValueError
    /\ raises (Insar.phase2los phase satellite) "ValueError"
    /\ forall los, Insar.phase2los phase satellite <> Ret los.
Proof.
  intros satellite phase Hn.
  assert (E : Insar.phase2los phase satellite = Raise ValueError).
  { unfold Insar.phase2los. rewrite radar_freq_unknown by assumption. reflexivity. }
  rewrite E. split; [reflexivity|]. split.
  - exists ValueError. split; reflexivity.
  - intros los. discriminate.
Qed.

(** ** Loops *)

Section Loops.
Context {A S : Type}.
Local Open Scope nat_scope.

Lemma for_each_app (xs ys : list A) (body : A -> S -> outcome S) (s : S) :
  for_each (xs ++ ys) body s = bind (for_each xs body s) (for_each ys body).
Proof.
  revert s. induction xs as [|x xs IH]; intros s; simpl; [reflexivity|].
  destruct (body x s); simpl; auto.
Qed.

(** A property that every turn carries from [k] to [k + 1] holds of the
    final state of a loop that ends normally. *)
Lemma for_each_invariant (I : nat -> S -> Prop) (xs : list A)
    (body : A -> S -> outcome S) (s0 s : S) :
  for_each xs body s0 = Ret s ->
  I 0 s0 ->
  (forall k x s1 s2,
      nth_error xs k = Some x -> I k s1 -> body x s1 = Ret s2 -> I (Datatypes.S k) s2) ->
  I (length xs) s.
Proof.
  revert I s0. induction xs as [|x xs IH]; intros I s0 E H0 Hstep; simpl in *.
  - inversion E; subst; assumption.
  - bind_inv E. apply (IH (fun k => I (Datatypes.S k)) v); auto.
    + apply (Hstep 0 x s0 v); auto.
    + intros k y s1 s2 Hk. apply (Hstep (Datatypes.S k)). exact Hk.
Qed.

End Loops.

Lemma nth_error_seq (a n k x : nat) :
  nth_error (seq a n) k = Some x -> (x = a + k /\ k < n)%nat.
Proof.
  intros E.
  assert (Hk : (k < length (seq a n))%nat).
  { apply nth_error_Some. congruence. }
  rewrite length_seq in Hk. split; [|assumption].
  apply (nth_error_nth _ _ O) in E. rewrite seq_nth in E by assumption. lia.
Qed.

(** ** Arrays as lists of rows *)

Section Arrays.
Local Open Scope nat_scope.

Lemma update_length {A : Type} (n : nat) (f : A -> A) (l : list A) :
  length (update n f l) = length l.
Proof.
  revert n. induction l as [|x l IH]; intros [|n]; simpl; auto.
Qed.

Lemma update_nth_same {A : Type} (n : nat) (f : A -> A) (l : list A) (d : A) :
  n < length l -> nth n (update n f l) d = f (nth n l d).
Proof.
  revert n. induction l as [|x l IH]; intros [|n] Hn; simpl in *; try lia; auto.
  apply IH. lia.
Qed.

Lemma update_nth_other {A : Type} (n m : nat) (f : A -> A) (l : list A) (d : A) :
  m <> n -> nth m (update n f l) d = nth m l d.
Proof.
  revert n m. induction l as [|x l IH]; intros [|n] [|m] Hn; simpl; auto; try lia.
Qed.

Lemma update_Forall {A : Type} (P : A -> Prop) (n : nat) (f : A -> A) (l : list A) :
  (forall x, P x -> P (f x)) -> Forall P l -> Forall P (update n f l).
Proof.
  intros Hf. revert n. induction l as [|x l IH]; intros [|n] Hl; simpl; auto;
    inversion Hl; subst; constructor; auto.
Qed.

Lemma shape_row (a : ndarray) (n0 n1 j : nat) :
  shape a n0 n1 -> j < n0 -> length (nth j a []) = n1.
Proof.
  intros [Hl Hr] Hj. rewrite Forall_forall in Hr. apply Hr. apply nth_In. lia.
Qed.

Lemma np_zeros_ret_inv `{Runtime} (n0 n1 : Z) (a : ndarray) :
  np_zeros n0 n1 = Ret a ->
  (0 <= n0)%Z /\ (0 <= n1)%Z
  /\ a = repeat (repeat (of_Z 0) (Z.to_nat n1)) (Z.to_nat n0).
Proof.
  unfold np_zeros.
  destruct (Z.ltb_spec n0 0), (Z.ltb_spec n1 0); cbn [orb]; try discriminate.
  destruct (intp_max <? _)%Z; [discriminate|].
  destruct (malloc _); [|discriminate].
  intros E. inversion E. auto.
Qed.

Lemma np_zeros_raise `{Runtime} (n0 n1 : Z) (e : exn) :
  np_zeros n0 n1 = Raise e -> e = ValueError \/ e = MemoryError.
Proof.
  unfold np_zeros.
  destruct (_ || _); [intros E; inversion E; auto|].
  destruct (intp_max <? _)%Z; [intros E; inversion E; auto|].
  destruct (malloc _); [discriminate|]. intros E; inversion E; auto.
Qed.

Lemma np_zeros_negative `{Runtime} (n0 n1 : Z) :
  (n0 < 0 \/ n1 < 0)%Z -> np_zeros n0 n1 = Raise ValueError.
Proof.
  intros Hn. unfold np_zeros.
  destruct (Z.ltb_spec n0 0), (Z.ltb_spec n1 0); try reflexivity; lia.
Qed.

Lemma zeros_nonneg `{Runtime} (n0 n1 : Z) (a : ndarray) :
  np_zeros n0 n1 = Ret a -> (0 <= n0)%Z /\ (0 <= n1)%Z.
Proof.
  intros E. apply np_zeros_ret_inv in E. tauto.
Qed.

Lemma zeros_shape `{Runtime} (n0 n1 : Z) (a : ndarray) :
  np_zeros n0 n1 = Ret a -> shape a (Z.to_nat n0) (Z.to_nat n1).
Proof.
  intros E. apply np_zeros_ret_inv in E. destruct E as (_ & _ & ->). split.
  - apply repeat_length.
  - apply Forall_forall. intros r Hr. apply repeat_spec in Hr. subst.
    apply repeat_length.
Qed.

Lemma setitem_shape (a : ndarray) (n0 n1 j i : nat) (v : npfloat) :
  shape a n0 n1 -> shape (setitem a j i v) n0 n1.
Proof.
  intros [Hl Hr]. unfold setitem. split.
  - rewrite update_length. assumption.
  - apply update_Forall; [|assumption].
    intros r Er. rewrite update_length. assumption.
Qed.

Lemma item_setitem_same (a : ndarray) (n0 n1 j i : nat) (v : npfloat) :
  shape a n0 n1 -> j < n0 -> i < n1 -> item (setitem a j i v) j i = v.
Proof.
  intros Hs Hj Hi. unfold item, setitem.
  rewrite update_nth_same by (destruct Hs; lia).
  rewrite update_nth_same; [reflexivity|].
  rewrite (shape_row a n0 n1); assumption.
Qed.

Lemma item_setitem_other (a : ndarray) (n0 n1 j i j' i' : nat) (v : npfloat) :
  shape a n0 n1 -> j < n0 -> (j', i') <> (j, i) ->
  item (setitem a j i v) j' i' = item a j' i'.
Proof.
  intros Hs Hj Hne. unfold item, setitem.
  destruct (Nat.eq_dec j' j) as [->|Hjj].
  - rewrite update_nth_same by (destruct Hs; lia).
    apply update_nth_other. congruence.
  - rewrite update_nth_other by assumption. reflexivity.
Qed.

End Arrays.

(** ** Decoding one raster ([get_image_data]) *)

Section Decode.
Context `{Runtime}.
Local Open Scope nat_scope.

Lemma unpack_enough (file : list byte) :
  4 <= length file -> unpack (firstn 4 file) = Ret (unpack_be_float (firstn 4 file)).
Proof.
  intros Hl. unfold unpack. rewrite length_firstn.
  replace (Nat.min 4 (length file)) with 4 by lia. reflexivity.
Qed.

Lemma unpack_short (file : list byte) :
  length file < 4 -> unpack (firstn 4 file) = Raise StructError.
Proof.
  intros Hl. unfold unpack. rewrite length_firstn.
  destruct (Nat.eqb_spec (Nat.min 4 (length file)) 4); [lia|reflexivity].
Qed.

Lemma read_pixel_enough (j i : nat) (file : list byte) (a : ndarray) :
  4 <= length file ->
  ParseFiles.read_pixel j i (file, a)
  = Ret (skipn 4 file, setitem a j i (unpack_be_float (firstn 4 file))).
Proof.
  intros Hl. unfold ParseFiles.read_pixel, read.
  rewrite unpack_enough by assumption. reflexivity.
Qed.

Lemma read_pixel_short (j i : nat) (file : list byte) (a : ndarray) :
  length file < 4 -> ParseFiles.read_pixel j i (file, a) = Raise StructError.
Proof.
  intros Hl. unfold ParseFiles.read_pixel, read.
  rewrite unpack_short by assumption. reflexivity.
Qed.

(** One azimuth line: [n] range samples are read when the file still
    holds [4 n] bytes; otherwise [struct.unpack] fails. *)
Lemma read_line (i n j0 : nat) (file : list byte) (a : ndarray) :
  (4 * n <= length file ->
   exists a', for_each (seq j0 n) (fun j => ParseFiles.read_pixel j i) (file, a)
              = Ret (skipn (4 * n) file, a'))
  /\ (length file < 4 * n ->
      for_each (seq j0 n) (fun j => ParseFiles.read_pixel j i) (file, a)
      = Raise StructError).
Proof.
  revert j0 file a. induction n as [|n IH]; intros j0 file a.
  - split; [|lia]. intros _. exists a. reflexivity.
  - cbn [seq for_each].
    destruct (Nat.lt_ge_cases (length file) 4) as [Hs|Hs].
    + rewrite read_pixel_short by assumption. split; [lia|reflexivity].
    + rewrite read_pixel_enough by assumption. cbn [bind].
      destruct (IH (Datatypes.S j0) (skipn 4 file)
                  (setitem a j0 i (unpack_be_float (firstn 4 file)))) as [Iok Ish].
      rewrite length_skipn in Iok, Ish. split.
      * intros Hl. destruct Iok as [a' Ea]; [lia|].
        exists a'. rewrite Ea. rewrite skipn_skipn. do 3 f_equal. lia.
      * intros Hl. apply Ish. lia.
Qed.

(** The whole raster: [h] lines of [w] samples. *)
Lemma read_raster (w h i0 : nat) (file : list byte) (a : ndarray) :
  (4 * (w * h) <= length file ->
   exists a',
     for_each (seq i0 h)
       (fun i => for_each (seq 0 w) (fun j => ParseFiles.read_pixel j i)) (file, a)
     = Ret (skipn (4 * (w * h)) file, a'))
  /\ (length file < 4 * (w * h) ->
      for_each (seq i0 h)
        (fun i => for_each (seq 0 w) (fun j => ParseFiles.read_pixel j i)) (file, a)
      = Raise StructError).
Proof.
  revert i0 file a. induction h as [|h IH]; intros i0 file a.
  - split; [|lia]. intros _. exists a. rewrite Nat.mul_0_r. reflexivity.
  - cbn [seq for_each].
    destruct (read_line i0 w 0 file a) as [Lok Lsh].
    destruct (Nat.lt_ge_cases (length file) (4 * w)) as [Hs|Hs].
    + rewrite Lsh by assumption. split; [nia|reflexivity].
    + destruct Lok as [a1 E1]; [assumption|]. rewrite E1. cbn [bind].
      destruct (IH (Datatypes.S i0) (skipn (4 * w) file) a1) as [Iok Ish].
      rewrite length_skipn in Iok, Ish. split.
      * intros Hl. destruct Iok as [a' Ea]; [nia|].
        exists a'. rewrite Ea. rewrite skipn_skipn. do 3 f_equal. nia.
      * intros Hl. apply Ish. nia.
Qed.

End Decode.

(** ** [get_image_data] *)

Section ImageData.
Context `{Runtime}.

Lemma try_except_some {A : Type} (body : outcome (option A)) (a : A) :
  try_except_IOError body (Ret None) = Ret (Some a) -> body = Ret (Some a).
Proof.
  unfold try_except_IOError. destruct body as [r|e]; [auto|].
  destruct (isinstance e "IOError"); discriminate.
Qed.

Lemma get_image_data_not_opened (fs : filesystem) (image_file : string)
    (parameters : ParseFiles.image_para) (resample_factor : Z) :
  open_rb fs image_file = None ->
  ParseFiles.get_image_data fs image_file parameters resample_factor = Ret None.
Proof.
  intros E. unfold ParseFiles.get_image_data. rewrite E. reflexivity.
Qed.

Lemma get_image_data_truncated (fs : filesystem) (image_file : string)
    (parameters : ParseFiles.image_para) (resample_factor : Z) (bytes : list byte)
    (a0 : ndarray) :
  open_rb fs image_file = Some bytes ->
  np_zeros (ParseFiles.width parameters) (ParseFiles.nlines parameters) = Ret a0 ->
  Z.of_nat (length bytes) < ParseFiles.width parameters * ParseFiles.nlines parameters * 4 ->
  ParseFiles.get_image_data fs image_file parameters resample_factor
  = Raise StructError.
Proof.
  intros E Ez Hl. unfold ParseFiles.get_image_data. rewrite E. cbn [py_open bind].
  rewrite Ez. cbn [bind]. unfold range.
  destruct (zeros_nonneg _ _ _ Ez) as [Hw Hh].
  destruct (read_raster (Z.to_nat (ParseFiles.width parameters))
              (Z.to_nat (ParseFiles.nlines parameters)) 0 bytes a0) as [_ Hsh].
  rewrite Hsh by nia. reflexivity.
Qed.

(** When [np.zeros] refuses the dimensions, its error is the outcome. *)
Lemma get_image_data_no_array (fs : filesystem) (image_file : string)
    (parameters : ParseFiles.image_para) (resample_factor : Z) (bytes : list byte)
    (e : exn) :
  open_rb fs image_file = Some bytes ->
  np_zeros (ParseFiles.width parameters) (ParseFiles.nlines parameters) = Raise e ->
  ParseFiles.get_image_data fs image_file parameters resample_factor = Raise e.
Proof.
  intros E Ez. unfold ParseFiles.get_image_data. rewrite E. cbn [py_open bind].
  rewrite Ez. cbn [bind try_except_IOError].
  destruct (np_zeros_raise _ _ _ Ez) as [-> | ->]; reflexivity.
Qed.

(** What [interp_func(xs, ys)] hands back when it returns. *)
Lemma call_interp_ret (g : Z -> Z -> npfloat) (xs ys : list Z) (img : nparray) :
  ParseFiles.call_interp g xs ys = Ret img ->
  xs <> [] /\ ys <> []
  /\ (length ys = 1%nat -> img = Array1 (map (fun x => g x (nth 0 ys 0)) xs))
  /\ (length ys <> 1%nat ->
      img = Array2 (map (fun y => map (fun x => g x y) xs) ys)).
Proof.
  unfold ParseFiles.call_interp. destruct xs as [|x xs]; [discriminate|].
  destruct ys as [|y [|y' ys]]; [discriminate| |];
    intros E; inversion E; subst;
    (split; [discriminate|]); (split; [discriminate|]);
    split; intros Hl; cbn in Hl; try reflexivity; try lia; congruence.
Qed.

Lemma call_interp_total (g : Z -> Z -> npfloat) (xs ys : list Z) :
  xs <> [] -> ys <> [] -> exists img, ParseFiles.call_interp g xs ys = Ret img.
Proof.
  intros Hx Hy. unfold ParseFiles.call_interp.
  destruct xs as [|x xs]; [contradiction|].
  destruct ys as [|y [|y' ys]]; [contradiction| |]; eexists; reflexivity.
Qed.

Lemma call_interp_empty (g : Z -> Z -> npfloat) (xs ys : list Z) :
  xs = [] \/ ys = [] -> ParseFiles.call_interp g xs ys = Raise ValueError.
Proof.
  unfold ParseFiles.call_interp. intros [-> | ->]; [reflexivity|].
  destruct xs; reflexivity.
Qed.

(** What a call that returns a raster has returned. *)
Lemma get_image_data_returns (fs : filesystem) (image_file : string)
    (parameters : ParseFiles.image_para) (resample_factor : Z)
    (img : nparray) (p' : ParseFiles.image_para) :
  ParseFiles.get_image_data fs image_file parameters resample_factor
  = Ret (Some (img, p')) ->
  (resample_factor = 1 /\ p' = parameters /\ exists a, img = Array2 a)
  \/ (resample_factor <> 1 /\ resample_factor <> 0 /\
      (exists g,
          ParseFiles.call_interp g
            (map (fun k => Z.of_nat k * resample_factor)
               (seq 0 (arange_len (ParseFiles.nlines parameters) resample_factor)))
            (map (fun k => Z.of_nat k * resample_factor)
               (seq 0 (arange_len (ParseFiles.width parameters) resample_factor)))
          = Ret img)
      /\ p' = {| ParseFiles.width := ParseFiles.width parameters / resample_factor;
                 ParseFiles.nlines := ParseFiles.nlines parameters / resample_factor;
                 ParseFiles.corner_lat := ParseFiles.corner_lat parameters;
                 ParseFiles.corner_lon := ParseFiles.corner_lon parameters;
                 ParseFiles.post_lat :=
                   (ParseFiles.post_lat parameters * of_Z resample_factor)%np;
                 ParseFiles.post_lon :=
                   (ParseFiles.post_lon parameters * of_Z resample_factor)%np;
                 ParseFiles.post_arc :=
                   (ParseFiles.post_arc parameters * of_Z resample_factor)%np;
                 ParseFiles.post_utm :=
                   (ParseFiles.post_utm parameters * of_Z resample_factor)%np |}).
Proof.
  unfold ParseFiles.get_image_data. intros E. apply try_except_some in E.
  bind_as E file Eo. bind_as E a0 Ez. bind_as E st Eloop.
  destruct st as [file' image_arry].
  destruct (Z.eqb_spec resample_factor 1) as [Hf|Hf].
  - left. inversion E; subst. split; [reflexivity|].
    split; [destruct parameters; reflexivity|]. eexists. reflexivity.
  - right. unfold ParseFiles.floordiv, arange in E.
    destruct (Z.eqb_spec resample_factor 0) as [Hz|Hz]; [discriminate|].
    cbn [bind] in E. change (1 =? 0) with false in E. cbn [bind] in E.
    bind_as E g Eg. bind_as E new Enew. inversion E; subst.
    split; [assumption|]. split; [assumption|]. split; [|reflexivity].
    exists g. assumption.
Qed.

(** The resampling branch: the reported dimensions are the floors of
    the quotients and the spacings are multiplied by the factor, while
    the grid has [arange_len] rows and columns, the ceilings; a grid of
    one row comes back as that row. *)
Lemma get_image_data_resampled (fs : filesystem) (image_file : string)
    (parameters : ParseFiles.image_para) (resample_factor : Z)
    (img : nparray) (p' : ParseFiles.image_para) :
  resample_factor <> 1 ->
  ParseFiles.get_image_data fs image_file parameters resample_factor
  = Ret (Some (img, p')) ->
  ParseFiles.width p' = ParseFiles.width parameters / resample_factor
  /\ ParseFiles.nlines p' = ParseFiles.nlines parameters / resample_factor
  /\ ParseFiles.post_lat p' = (ParseFiles.post_lat parameters * of_Z resample_factor)%np
  /\ ParseFiles.post_lon p' = (ParseFiles.post_lon parameters * of_Z resample_factor)%np
  /\ (1 <= arange_len (ParseFiles.nlines parameters) resample_factor)%nat
  /\ match img with
     | Array2 a =>
         shape a (arange_len (ParseFiles.width parameters) resample_factor)
           (arange_len (ParseFiles.nlines parameters) resample_factor)
         /\ (2 <= arange_len (ParseFiles.width parameters) resample_factor)%nat
     | Array1 v =>
         arange_len (ParseFiles.width parameters) resample_factor = 1%nat
         /\ length v = arange_len (ParseFiles.nlines parameters) resample_factor
     end.
Proof.
  intros Hf E. apply get_image_data_returns in E.
  destruct E as [[E1 _]|(_ & _ & [g Eg] & ->)]; [contradiction|].
  repeat (split; [reflexivity|]).
  apply call_interp_ret in Eg. destruct Eg as (Hx & Hy & H1 & H2).
  rewrite length_map, length_seq in H1, H2.
  assert (Lx : (1 <= arange_len (ParseFiles.nlines parameters) resample_factor)%nat).
  { destruct (arange_len (ParseFiles.nlines parameters) resample_factor);
      [contradiction Hx; reflexivity|lia]. }
  assert (Ly : (1 <= arange_len (ParseFiles.width parameters) resample_factor)%nat).
  { destruct (arange_len (ParseFiles.width parameters) resample_factor);
      [contradiction Hy; reflexivity|lia]. }
  split; [exact Lx|].
  destruct (Nat.eq_dec (arange_len (ParseFiles.width parameters) resample_factor) 1)
    as [E1|E1].
  - rewrite (H1 E1). split; [assumption|]. rewrite !length_map, length_seq. reflexivity.
  - rewrite (H2 E1). split; [|lia]. split.
    + rewrite !length_map, length_seq. reflexivity.
    + apply Forall_forall. intros r Hr.
      apply in_map_iff in Hr. destruct Hr as (yv & <- & _).
      rewrite !length_map, length_seq. reflexivity.
Qed.

(** A call that returns a raster has had its array from [np.zeros]. *)
Lemma get_image_data_dims (fs : filesystem) (image_file : string)
    (parameters : ParseFiles.image_para) (resample_factor : Z)
    (img : nparray) (p' : ParseFiles.image_para) :
  ParseFiles.get_image_data fs image_file parameters resample_factor
  = Ret (Some (img, p')) ->
  exists a0,
    np_zeros (ParseFiles.width parameters) (ParseFiles.nlines parameters) = Ret a0.
Proof.
  unfold ParseFiles.get_image_data. intros E. apply try_except_some in E.
  bind_as E file Eo. bind_as E a0 Ez. eauto.
Qed.

(** The failures of [get_image_data] met before a raster is decoded: a
    file that cannot be opened, dimensions that [np.zeros] refuses and a
    file that is too short. *)
Lemma get_image_data_failures :
  forall (fs : filesystem) (image_file : string)
         (parameters : ParseFiles.image_para) (resample_factor : Z),
    (open_rb fs image_file = None ->
     ParseFiles.get_image_data fs image_file parameters resample_factor = Ret None)
    /\ (forall bytes,
           open_rb fs image_file = Some bytes ->
           Z.of_nat (length bytes)
           < ParseFiles.width parameters * ParseFiles.nlines parameters * 4 ->
           (forall a0,
               np_zeros (ParseFiles.width parameters) (ParseFiles.nlines parameters)
               = Ret a0 ->
               ParseFiles.get_image_data fs image_file parameters resample_factor
               = Raise StructError)
           /\ (forall e,
                  np_zeros (ParseFiles.width parameters) (ParseFiles.nlines parameters)
                  = Raise e ->
                  ParseFiles.get_image_data fs image_file parameters resample_factor
                  = Raise e
                  /\ (e = ValueError \/ e = MemoryError))
           /\ ~ raises (ParseFiles.get_image_data fs image_file parameters
                          resample_factor) "IOError").
Proof.
  intros fs image_file parameters resample_factor. split.
  - apply get_image_data_not_opened.
  - intros bytes E Hl.
    assert (Hz : forall a0,
               np_zeros (ParseFiles.width parameters) (ParseFiles.nlines parameters)
               = Ret a0 ->
               ParseFiles.get_image_data fs image_file parameters resample_factor
               = Raise StructError).
    { intros a0 Ez. apply (get_image_data_truncated _ _ _ _ bytes a0); assumption. }
    split; [exact Hz|]. split.
    + intros e Ez. split; [|eapply np_zeros_raise; eassumption].
      apply (get_image_data_no_array _ _ _ _ bytes); assumption.
    + intros (e & Ee & Hi).
      destruct (np_zeros (ParseFiles.width parameters) (ParseFiles.nlines parameters))
        as [a0|e0] eqn:Ez.
      * rewrite (Hz a0 eq_refl) in Ee. inversion Ee; subst. discriminate.
      * rewrite (get_image_data_no_array _ _ _ _ bytes e0 E Ez) in Ee.
        inversion Ee; subst.
        destruct (np_zeros_raise _ _ _ Ez) as [-> | ->]; discriminate.
Qed.

End ImageData.

(** ** [get_image_para] *)

Section ImagePara.
Context `{Runtime}.

Lemma no_ParseError (e : exn) : isinstance e "ParseError" = false.
Proof. destruct e; reflexivity. Qed.

Lemma getitem_raise {A : Type} (xs : list A) (i : nat) (e : exn) :
  getitem xs i = Raise e -> e = IndexError.
Proof. unfold getitem. destruct (nth_error xs i); congruence. Qed.

Lemma int_raise (s : string) (e : exn) : int_ s = Raise e -> e = ValueError.
Proof. unfold int_. destruct (py_int s); congruence. Qed.

Lemma float_raise (s : string) (e : exn) : float_ s = Raise e -> e = ValueError.
Proof. unfold float_. destruct (py_float s); congruence. Qed.

Lemma int_field_raise (line : string) (e : exn) :
  ParseFiles.int_field line = Raise e -> e = ValueError \/ e = IndexError.
Proof.
  unfold ParseFiles.int_field. intros E.
  apply bind_raise_inv in E. destruct E as [E|(s & _ & E)].
  - right. eapply getitem_raise; eassumption.
  - left. eapply int_raise; eassumption.
Qed.

Lemma float_field_raise (line : string) (e : exn) :
  ParseFiles.float_field line = Raise e -> e = ValueError \/ e = IndexError.
Proof.
  unfold ParseFiles.float_field. intros E.
  apply bind_raise_inv in E. destruct E as [E|(s & _ & E)].
  - right. eapply getitem_raise; eassumption.
  - apply bind_raise_inv in E. destruct E as [E|(t & _ & E)].
    + right. eapply getitem_raise; eassumption.
    + left. eapply float_raise; eassumption.
Qed.

Lemma scan_line_raise (line : string) (l : ParseFiles.locals) (e : exn) :
  ParseFiles.scan_line line l = Raise e -> e = ValueError \/ e = IndexError.
Proof.
  unfold ParseFiles.scan_line.
  repeat match goal with
         | |- context [if startswith line ?k then _ else _] =>
             destruct (startswith line k)
         end;
    intros E; try discriminate;
    apply bind_raise_inv in E; destruct E as [E|(v & _ & E)]; try discriminate;
    eauto using int_field_raise, float_field_raise.
Qed.

Lemma scan_raise (lines : list string) (l : ParseFiles.locals) (e : exn) :
  for_each lines ParseFiles.scan_line l = Raise e -> e = ValueError \/ e = IndexError.
Proof.
  revert l. induction lines as [|line lines IH]; intros l; simpl; [discriminate|].
  intros E. apply bind_raise_inv in E. destruct E as [E|(l' & _ & E)].
  - eapply scan_line_raise; eassumption.
  - eapply IH; eassumption.
Qed.

(** A line that does not start with [key] leaves its variable as it was. *)
Lemma scan_line_keeps (key line : string) (l l' : ParseFiles.locals) :
  In key required_keys ->
  startswith line key = false ->
  ParseFiles.scan_line line l = Ret l' ->
  bound key l = false -> bound key l' = false.
Proof.
  intros Hk Hs. unfold ParseFiles.scan_line.
  repeat match goal with
         | |- context [if startswith line ?k then _ else _] =>
             let E := fresh "E" in destruct (startswith line k) eqn:E
         end;
    intros El; try (bind_inv El); inversion El; subst; clear El; auto;
    simpl in Hk; intuition subst; try congruence; auto.
Qed.

Lemma scan_keeps (key : string) (lines : list string) (l l' : ParseFiles.locals) :
  In key required_keys ->
  (forall line, In line lines -> startswith line key = false) ->
  for_each lines ParseFiles.scan_line l = Ret l' ->
  bound key l = false -> bound key l' = false.
Proof.
  intros Hk. revert l. induction lines as [|line lines IH]; intros l Hs E Hb; simpl in E.
  - inversion E; subst; assumption.
  - bind_inv E. apply (IH v); auto using in_cons.
    eapply scan_line_keeps; eauto using in_eq.
Qed.

(** C8, as amended.  When the parameter file cannot be opened,
    [get_image_para] catches the [IOError] and returns [None].  When it
    opens and no line starts with one of the six required keys, the call
    raises: [UnboundLocalError] once the scan is over, or the error of a
    conversion met during the scan.  No call raises a [ParseError]. *)
Theorem get_image_para_failures :
  forall (fs : filesystem) (par_file : string),
    (open_r fs par_file = None ->
     ParseFiles.get_image_para fs par_file = Ret None)
    /\ (forall lines key,
           open_r fs par_file = Some lines ->
           In key required_keys ->
           (forall line, In line lines -> startswith line key = false) ->
           (exists l, for_each lines ParseFiles.scan_line ParseFiles.unbound = Ret l
                      /\ ParseFiles.get_image_para fs par_file = Raise UnboundLocalError)
           \/ (exists e, for_each lines ParseFiles.scan_line ParseFiles.unbound = Raise e
                         /\ (e = ValueError \/ e = IndexError)
                         /\ ParseFiles.get_image_para fs par_file = Raise e))
    /\ ~ raises (ParseFiles.get_image_para fs par_file) "ParseError".
Proof.
  intros fs par_file. split; [|split].
  - intros E. unfold ParseFiles.get_image_para. rewrite E. reflexivity.
  - intros lines key E Hk Hs. unfold ParseFiles.get_image_para. rewrite E.
    cbn [py_open bind].
    destruct (for_each lines ParseFiles.scan_line ParseFiles.unbound) as [l|e] eqn:Es.
    + left. exists l. split; [reflexivity|].
      assert (Hb : bound key l = false).
      { eapply scan_keeps; eauto.
        simpl in Hk. intuition subst; reflexivity. }
      cbn [bind]. destruct l as [[w|] [n|] [a|] [b|] [p|] [q|]];
        try reflexivity.
      simpl in Hk. intuition subst; discriminate.
    + right. exists e. split; [reflexivity|].
      destruct (scan_raise _ _ _ Es) as [->| ->]; split; auto.
  - intros (e & _ & Hi). rewrite no_ParseError in Hi. discriminate.
Qed.

End ImagePara.

(** ** Flattening, slicing and masking *)

Section Flatten.
Local Open Scope nat_scope.

Lemma every_map {A B : Type} (f : A -> B) (step skip : nat) (l : list A) :
  every step skip (map f l) = map f (every step skip l).
Proof.
  revert skip. induction l as [|x l IH]; intros [|k]; simpl; auto.
  rewrite IH. reflexivity.
Qed.

Lemma slice_step_map {A B : Type} (f : A -> B) (l : list A) (step : Z) (idx : list A) :
  slice_step l step = Ret idx -> slice_step (map f l) step = Ret (map f idx).
Proof.
  unfold slice_step. destruct (step =? 0)%Z; [discriminate|].
  destruct (0 <? step)%Z; intros E; inversion E; subst.
  - rewrite every_map. reflexivity.
  - rewrite <- map_rev, every_map. reflexivity.
Qed.

Lemma every_in {A : Type} (step skip : nat) (l : list A) (x : A) :
  In x (every step skip l) -> In x l.
Proof.
  revert skip. induction l as [|y l IH]; intros skip; simpl.
  - intros [].
  - destruct skip as [|k]; simpl.
    + intros [->|Hx]; [left; reflexivity|right; eapply IH; eassumption].
    + intros Hx. right. eapply IH. eassumption.
Qed.

Lemma slice_step_in {A : Type} (l : list A) (step : Z) (idx : list A) (x : A) :
  slice_step l step = Ret idx -> In x idx -> In x l.
Proof.
  unfold slice_step. destruct (step =? 0)%Z; [discriminate|].
  destruct (0 <? step)%Z; intros E; inversion E; subst; intros Hx;
    apply every_in in Hx; auto.
  apply in_rev. assumption.
Qed.

Lemma slice_step_total {A : Type} (l : list A) (step : Z) :
  step <> 0%Z -> exists idx, slice_step l step = Ret idx.
Proof.
  intros Hs. unfold slice_step. destruct (Z.eqb_spec step 0); [contradiction|].
  destruct (0 <? step)%Z; eexists; reflexivity.
Qed.

Lemma map_seq_from {B : Type} (f : nat -> B) (a n : nat) :
  map f (seq a n) = map (fun j => f (a + j)) (seq 0 n).
Proof.
  revert f a. induction n as [|n IH]; intros f a; [reflexivity|].
  cbn [seq map]. rewrite Nat.add_0_r. f_equal.
  rewrite (IH f (S a)), (IH (fun j => f (a + j)) 1).
  apply map_ext. intros j. f_equal. lia.
Qed.

(** Rows of [w] entries laid end to end: entry [k] sits in row [k / w]
    at place [k mod w]. *)
Lemma concat_rows {B : Type} (g : nat -> nat -> B) (w h : nat) :
  concat (map (fun i => map (fun j => g i j) (seq 0 w)) (seq 0 h))
  = map (fun k => g (k / w) (k mod w)) (seq 0 (h * w)).
Proof.
  induction h as [|h IH]; [reflexivity|].
  rewrite seq_S, map_app, concat_app, IH. cbn [map concat Nat.add].
  rewrite app_nil_r.
  replace (S h * w) with (h * w + w) by lia.
  rewrite seq_app, map_app. f_equal. cbn [Nat.add].
  rewrite (map_seq_from _ (h * w) w).
  apply map_ext_in. intros j Hj. apply in_seq in Hj.
  assert (Hw : w <> 0) by lia.
  replace ((h * w + j) / w) with h
    by (apply (Nat.div_unique _ _ _ j); lia).
  replace ((h * w + j) mod w) with j
    by (apply (Nat.mod_unique _ _ h j); lia).
  reflexivity.
Qed.

Lemma nth_map_any {A B : Type} (f : A -> B) (l : list A) (n : nat) (d : B) (d' : A) :
  n < length l -> nth n (map f l) d = f (nth n l d').
Proof.
  intros Hn. rewrite (nth_indep _ d (f d')) by (rewrite length_map; assumption).
  apply map_nth.
Qed.

(** The transposed array, flattened: the file order of the pixels. *)
Lemma ravel_transpose (a : ndarray) (w h : nat) :
  shape a w h ->
  reshape_column (transpose a)
  = map (fun k => item a (k mod w) (k / w)) (seq 0 (h * w)).
Proof.
  intros Hs. unfold reshape_column, transpose.
  destruct a as [|r a'].
  - destruct Hs as [Hl _]. simpl in Hl. subst w.
    rewrite Nat.mul_0_r. reflexivity.
  - assert (Hc : ncols (r :: a') = h).
    { destruct Hs as [_ Hr]. inversion Hr; subst. reflexivity. }
    rewrite Hc. rewrite <- (concat_rows (fun i j => item (r :: a') j i)).
    f_equal. apply map_ext. intros i.
    apply (nth_ext _ _ NaN NaN).
    + rewrite !length_map, length_seq. destruct Hs; assumption.
    + intros n Hn. rewrite length_map in Hn.
      rewrite (nth_map_any (fun row => nth i row NaN) (r :: a') n NaN [])
        by assumption.
      rewrite (nth_map_any (fun j => item (r :: a') j i) (seq 0 w) n NaN 0)
        by (rewrite length_seq; destruct Hs; lia).
      rewrite seq_nth by (destruct Hs; lia). reflexivity.
Qed.

Lemma map2_length {A B C : Type} (f : A -> B -> C) (xs : list A) (ys : list B) :
  length xs = length ys -> length (map2 f xs ys) = length xs.
Proof.
  revert ys. induction xs as [|u xs IH]; intros [|v ys] E; simpl in *; auto; lia.
Qed.

Lemma map2_nth {A B C : Type} (f : A -> B -> C) (xs : list A) (ys : list B)
    (n : nat) (da : A) (db : B) (dc : C) :
  n < length xs -> n < length ys ->
  nth n (map2 f xs ys) dc = f (nth n xs da) (nth n ys db).
Proof.
  revert ys n. induction xs as [|u xs IH]; intros [|v ys] [|n] Hx Hy;
    simpl in *; try lia; auto.
  apply IH; lia.
Qed.

Lemma where_item (cond a : ndarray) (w h j i : nat) :
  shape cond w h -> shape a w h -> j < w -> i < h ->
  item (where_zero_nan cond a) j i = masked (item cond j i) (item a j i).
Proof.
  intros Hc Ha Hj Hi. unfold item, where_zero_nan.
  rewrite (map2_nth _ cond a j [] [] [])
    by (destruct Hc, Ha; lia).
  rewrite (map2_nth _ _ _ i NaN NaN NaN); [reflexivity| |].
  - rewrite (shape_row cond w h); assumption.
  - rewrite (shape_row a w h); assumption.
Qed.

Lemma where_shape (cond a : ndarray) (w h : nat) :
  shape cond w h -> shape a w h -> shape (where_zero_nan cond a) w h.
Proof.
  intros Hc Ha. unfold where_zero_nan. split.
  - rewrite map2_length; destruct Hc, Ha; lia.
  - apply Forall_forall. intros r Hr.
    apply (In_nth _ _ []) in Hr. destruct Hr as (n & Hn & <-).
    rewrite map2_length in Hn by (destruct Hc, Ha; lia).
    assert (Hw : n < w) by (destruct Hc; lia).
    rewrite (map2_nth _ cond a n [] [] []) by (destruct Hc, Ha; lia).
    rewrite map2_length.
    + apply (shape_row cond w h); assumption.
    + rewrite (shape_row cond w h), (shape_row a w h); auto.
Qed.

End Flatten.

(** ** Decoding three rasters in step ([read_from_gamma]) *)

Section Pixels.
Context `{Runtime}.
Local Open Scope nat_scope.

Lemma unpack_ret (chunk : list byte) (v : npfloat) :
  unpack chunk = Ret v -> v = unpack_be_float chunk.
Proof.
  unfold unpack. destruct (_ =? _); intros E; inversion E; reflexivity.
Qed.

Lemma filled_step (F : list byte) (w h j i : nat) (f : list byte) (a : ndarray)
    (v : npfloat) :
  filled F w h (i * w + j) f a -> j < w -> i < h ->
  unpack (firstn 4 f) = Ret v ->
  filled F w h (S (i * w + j)) (skipn 4 f) (setitem a j i v).
Proof.
  intros (Ef & Hs & Hv) Hj Hi Eu. apply unpack_ret in Eu. split; [|split].
  - subst f. rewrite skipn_skipn. f_equal. lia.
  - apply setitem_shape. assumption.
  - intros j' i' Hj' Hi' Hk.
    destruct (Nat.eq_dec j' j) as [->|Hnj].
    + destruct (Nat.eq_dec i' i) as [->|Hni].
      * rewrite (item_setitem_same a w h) by assumption.
        subst v f. reflexivity.
      * rewrite (item_setitem_other a w h) by (auto; congruence).
        apply Hv; auto.
        destruct (Nat.lt_trichotomy i' i) as [Hlt|[Heq|Hgt]]; [nia|contradiction|nia].
    + rewrite (item_setitem_other a w h) by (auto; congruence).
      apply Hv; auto.
      destruct (Nat.lt_trichotomy i' i) as [Hlt|[Heq|Hgt]]; [nia|subst; lia|nia].
Qed.

Lemma read_pixels_step (F1 F2 F3 : list byte) (w h j i : nat) (st st' : Insar.images) :
  filled3 F1 F2 F3 w h (i * w + j) st -> j < w -> i < h ->
  Insar.read_pixels j i st = Ret st' ->
  filled3 F1 F2 F3 w h (S (i * w + j)) st'.
Proof.
  intros (H1 & H2 & H3) Hj Hi E. unfold Insar.read_pixels, read in E.
  bind_inv E. bind_inv E. bind_inv E. inversion E; subst; clear E.
  split; [|split]; cbn; apply filled_step; assumption.
Qed.

Lemma read_rasters_filled (F1 F2 F3 : list byte) (w h : nat) (st0 st : Insar.images) :
  for_each (seq 0 h) (fun i => for_each (seq 0 w) (fun j => Insar.read_pixels j i)) st0
  = Ret st ->
  filled3 F1 F2 F3 w h 0 st0 ->
  filled3 F1 F2 F3 w h (h * w) st.
Proof.
  intros E H0.
  pose proof (for_each_invariant (fun i s => filled3 F1 F2 F3 w h (i * w) s)
                (seq 0 h) _ st0 st E H0) as Hout.
  rewrite length_seq in Hout. apply Hout. clear Hout E H0 st0 st.
  intros k i s1 s2 Hk Hs1 Ein. apply nth_error_seq in Hk. destruct Hk as [-> Hk].
  cbn [Nat.add] in *.
  pose proof (for_each_invariant (fun j s => filled3 F1 F2 F3 w h (k * w + j) s)
                (seq 0 w) _ s1 s2 Ein) as Hin.
  rewrite length_seq in Hin.
  replace (S k * w) with (k * w + w) by lia. apply Hin.
  - rewrite Nat.add_0_r. assumption.
  - intros n j s3 s4 Hn Hs3 Es. apply nth_error_seq in Hn. destruct Hn as [-> Hn].
    cbn [Nat.add] in *.
    replace (k * w + S n) with (S (k * w + n)) by lia.
    eapply read_pixels_step; eauto.
Qed.

Lemma filled_item (F : list byte) (w h : nat) (f : list byte) (a : ndarray) :
  filled F w h (h * w) f a ->
  shape a w h
  /\ forall j i, j < w -> i < h -> item a j i = pixel F (i * w + j).
Proof.
  intros (_ & Hs & Hv). split; [assumption|].
  intros j i Hj Hi. apply Hv; auto. nia.
Qed.

(** The flattened transpose of a filled, masked array. *)
Lemma ravel_masked (F1 F : list byte) (w h : nat) (f1 f : list byte)
    (phase a : ndarray) :
  filled F1 w h (h * w) f1 phase ->
  filled F w h (h * w) f a ->
  reshape_column (transpose (where_zero_nan phase a))
  = map (fun k => masked (pixel F1 k) (pixel F k)) (seq 0 (h * w)).
Proof.
  intros Hp Ha. apply filled_item in Hp, Ha.
  destruct Hp as [Sp Vp], Ha as [Sa Va].
  rewrite (ravel_transpose _ w h) by (apply where_shape; assumption).
  apply map_ext_in. intros k Hk. apply in_seq in Hk.
  assert (Hw : w <> 0) by (intros ->; lia).
  assert (Hm : k mod w < w) by (apply Nat.mod_upper_bound; assumption).
  assert (Hd : k / w < h) by (apply Nat.Div0.div_lt_upper_bound; lia).
  rewrite (where_item phase a w h) by assumption.
  rewrite Vp, Va by assumption.
  replace (k / w * w + k mod w) with k
    by (rewrite (Nat.div_mod_eq k w) at 1; lia).
  reflexivity.
Qed.

End Pixels.

(** ** Coordinates *)

Lemma affine_step (s p : npfloat) (k m : Z) :
  m <> 0 ->
  (of_Z k * ((s + of_Z m * p - s) / of_Z m) + s)%np = (s + of_Z k * p)%np.
Proof.
  intros Hm. destruct s as [|s]; [reflexivity|].
  destruct p as [|p]; [reflexivity|].
  unfold of_Z. cbn [fadd fmul fsub].
  assert (Hz : is_zero (Q2Qc (inject_Z m)) = false).
  { rewrite is_zero_of_Z. apply Z.eqb_neq. assumption. }
  rewrite fdiv_fin by assumption. cbn [fadd fmul]. f_equal.
  apply is_zero_false in Hz. field. assumption.
Qed.

Lemma affine_single (s p : npfloat) :
  (of_Z 0 * (s + of_Z 0 * p - s) + s)%np = (s + of_Z 0 * p)%np.
Proof.
  destruct s as [|s]; [reflexivity|].
  destruct p as [|p]; [reflexivity|].
  unfold of_Z. cbn [fadd fmul fsub]. f_equal.
  change (Q2Qc (inject_Z 0)) with 0%Qc. ring.
Qed.

(** [np.linspace(s, s + (n - 1) * p, n)] is [s], [s + p], [s + 2 p], ... *)
Lemma linspace_affine (s p : npfloat) (n : Z) (l : list npfloat) :
  linspace s (s + of_Z (n - 1) * p)%np n = Ret l ->
  l = map (fun k => s + of_Z (Z.of_nat k) * p)%np (seq 0 (Z.to_nat n)).
Proof.
  unfold linspace. destruct (Z.ltb_spec n 0) as [Hn|Hn]; [discriminate|].
  destruct (Z.ltb_spec 0 (n - 1)) as [Hd|Hd]; intros E; inversion E; subst; clear E;
    rewrite map_map.
  - apply map_ext. intros k. apply affine_step. lia.
  - apply map_ext_in. intros k Hk. apply in_seq in Hk.
    assert (k = O) by lia. subst k.
    assert (n = 1) by lia. subst n.
    apply affine_single.
Qed.

Lemma linspace_total (s e : npfloat) (n : Z) :
  0 <= n -> exists l, linspace s e n = Ret l.
Proof.
  intros Hn. unfold linspace. destruct (Z.ltb_spec n 0); [lia|].
  destruct (0 <? n - 1); eexists; reflexivity.
Qed.

(** The two meshes, flattened: entry [k] belongs to column [k mod w]
    and to row [k / w]. *)
Lemma meshgrid_x (fx fy : nat -> npfloat) (w h : nat) :
  reshape_column (fst (meshgrid (map fx (seq 0 w)) (map fy (seq 0 h))))
  = map (fun k => fx (k mod w)%nat) (seq 0 (h * w)).
Proof.
  unfold reshape_column, meshgrid. cbn [fst]. rewrite map_map.
  apply (concat_rows (fun _ j => fx j)).
Qed.

Lemma meshgrid_y (fx fy : nat -> npfloat) (w h : nat) :
  reshape_column (snd (meshgrid (map fx (seq 0 w)) (map fy (seq 0 h))))
  = map (fun k => fy (k / w)%nat) (seq 0 (h * w)).
Proof.
  unfold reshape_column, meshgrid. cbn [snd]. rewrite map_map.
  rewrite <- (concat_rows (fun i _ => fy i)). f_equal.
  apply map_ext. intros i. apply map_map.
Qed.

(** ** [read_from_gamma]: the dataset *)

Section Gamma.
Context `{Runtime}.

Lemma filled_zeros (F : list byte) (n0 n1 : Z) (a : ndarray) :
  np_zeros n0 n1 = Ret a -> filled F (Z.to_nat n0) (Z.to_nat n1) 0 F a.
Proof.
  intros E. split; [reflexivity|]. split; [apply zeros_shape; assumption|].
  intros j i _ _ Hk. inversion Hk.
Qed.

(** What [read_images] has computed when it returns: every channel is a
    function of the pixel number, taken over one and the same list
    [idx] of kept pixels. *)
Lemma read_images_returns (fs : filesystem) (l : Insar.locals)
    (phase_file azi_file inc_file satellite : string) (downsample : Z)
    (d : Insar.dataset) :
  Insar.read_images fs l phase_file azi_file inc_file satellite downsample = Ret d ->
  exists (w h : Z) (F1 F2 F3 : list byte) (cla pla clo plo : npfloat) (idx : list nat),
    Insar.range_samples l = Some w /\ Insar.azimuth_lines l = Some h
    /\ 0 <= w /\ 0 <= h
    /\ open_rb fs phase_file = Some F1
    /\ open_rb fs azi_file = Some F2
    /\ open_rb fs inc_file = Some F3
    /\ Insar.corner_lat l = Some cla /\ Insar.post_lat l = Some pla
    /\ Insar.corner_lon l = Some clo /\ Insar.post_lon l = Some plo
    /\ slice_step (seq 0 (Z.to_nat h * Z.to_nat w)) downsample = Ret idx
    /\ Insar.value (Insar.phase d)
       = map (fun k => masked (pixel F1 k) (pixel F1 k)) idx
    /\ Insar.phase2los (Insar.value (Insar.phase d)) satellite
       = Ret (Insar.value (Insar.los d))
    /\ Insar.value (Insar.azi d)
       = map (fun k => of_Z (-180) - degrees (masked (pixel F1 k) (pixel F2 k)))%np idx
    /\ Insar.value (Insar.inc d)
       = map (fun k => of_Z 90 - degrees (masked (pixel F1 k) (pixel F3 k)))%np idx
    /\ Insar.value (Insar.lon d)
       = map (fun k => clo + of_Z (Z.of_nat (k mod Z.to_nat w)) * plo)%np idx
    /\ Insar.value (Insar.lat d)
       = map (fun k => cla + of_Z (Z.of_nat (k / Z.to_nat w)) * pla)%np idx
    /\ ll2xy (Insar.value (Insar.lon d)) (Insar.value (Insar.lat d))
       = Ret (Insar.value (Insar.x d), Insar.value (Insar.y d)).
Proof.
  unfold Insar.read_images. intros E.
  bind_as E F1 E1. bind_as E F2 E2. bind_as E F3 E3.
  bind_as E w Ew. bind_as E h Eh.
  bind_as E phase0 Ep0. bind_as E azimuth0 Ea0. bind_as E incidence0 Ei0.
  bind_as E st Est. bind_as E u Ed.
  bind_as E ph Eph. bind_as E los Elos.
  bind_as E az Eaz. bind_as E inc Einc.
  bind_as E cla Ecla. bind_as E pla Epla. bind_as E lats Elats.
  bind_as E clo Eclo. bind_as E plo Eplo. bind_as E lons Elons.
  destruct (meshgrid lons lats) as [Lons0 Lats0] eqn:Em.
  bind_as E Lons ELons. bind_as E Lats ELats.
  bind_as E xy Exy. destruct xy as [utm_x utm_y].
  inversion E; subst d; clear E. cbn [Insar.value Insar.phase Insar.los Insar.azi
    Insar.inc Insar.lon Insar.lat Insar.x Insar.y].
  apply py_open_ret_inv in E1, E2, E3.
  apply load_ret_inv in Ew, Eh, Ecla, Epla, Eclo, Eplo.
  destruct (zeros_nonneg _ _ _ Ep0) as [Hw Hh].
  assert (Hds : downsample <> 0).
  { destruct (Z.eqb_spec downsample 0); [discriminate|assumption]. }
  (* the three arrays after the loop *)
  unfold range in Est.
  apply (read_rasters_filled F1 F2 F3) in Est;
    [|split; [|split]; cbn; apply filled_zeros; assumption].
  destruct Est as (Hp & Ha & Hi).
  rewrite (ravel_masked F1 F1 _ _ _ _ _ _ Hp Hp) in Eph.
  rewrite (ravel_masked F1 F2 _ _ _ _ _ _ Hp Ha) in Eaz.
  rewrite (ravel_masked F1 F3 _ _ _ _ _ _ Hp Hi) in Einc.
  (* the coordinates *)
  apply linspace_affine in Elats, Elons. subst lats lons.
  pose proof (f_equal fst Em) as EmL. pose proof (f_equal snd Em) as EmR.
  cbn [fst snd] in EmL, EmR. subst Lons0 Lats0.
  rewrite meshgrid_x in ELons. rewrite meshgrid_y in ELats.
  (* the kept pixels *)
  destruct (slice_step_total (seq 0 (Z.to_nat h * Z.to_nat w)) downsample Hds)
    as [idx Eidx].
  rewrite (slice_step_map _ _ _ _ Eidx) in Eph.
  rewrite (slice_step_map _ _ _ _ Eidx) in Eaz.
  rewrite (slice_step_map _ _ _ _ Eidx) in Einc.
  rewrite (slice_step_map _ _ _ _ Eidx) in ELons.
  rewrite (slice_step_map _ _ _ _ Eidx) in ELats.
  inversion Eph; inversion Eaz; inversion Einc; inversion ELons; inversion ELats.
  subst ph az inc Lons Lats.
  exists w, h, F1, F2, F3, cla, pla, clo, plo, idx.
  rewrite !map_map. repeat (split; [solve [auto]|]). assumption.
Qed.

End Gamma.

(** ** [get_image_data]: the raster it decodes and the corner it keeps *)

Lemma arange_len_ceil (n f : Z) :
  0 <= n -> 0 < f ->
  Z.of_nat (arange_len n f) = n / f + (if n mod f =? 0 then 0 else 1).
Proof.
  intros Hn Hf. unfold arange_len.
  destruct (Z.eqb_spec (n mod f) 0) as [Hm|Hm].
  - rewrite Z.div_opp_l_z by lia.
    rewrite Z.opp_involutive, Z2Nat.id; [lia|].
    apply Z.div_pos; lia.
  - rewrite Z.div_opp_l_nz by lia.
    assert (0 <= n / f) by (apply Z.div_pos; lia).
    rewrite Z2Nat.id; lia.
Qed.

Lemma arange_len_backwards (n f : Z) : 0 <= n -> f < 0 -> arange_len n f = O.
Proof.
  intros Hn Hf. unfold arange_len.
  assert (0 <= - n / f).
  { rewrite <- (Z.opp_involutive f). rewrite Z.div_opp_opp by lia.
    apply Z.div_pos; lia. }
  lia.
Qed.

Lemma div_backwards (n f : Z) : 0 <= n -> f < 0 -> n / f <= 0.
Proof.
  intros Hn Hf. rewrite <- Z.div_opp_opp by lia.
  apply Z.div_le_upper_bound; lia.
Qed.

Lemma arange_nonempty (n f : Z) :
  0 < n -> 0 < f ->
  map (fun k => Z.of_nat k * f) (seq 0 (arange_len n f)) <> [].
Proof.
  intros Hn Hf.
  assert (L : (1 <= arange_len n f)%nat).
  { pose proof (arange_len_ceil n f ltac:(lia) Hf) as E.
    assert (0 <= n / f) by (apply Z.div_pos; lia).
    destruct (Z.eqb_spec (n mod f) 0) as [Hm|Hm]; [|lia].
    assert (n = f * (n / f)) by (rewrite (Z.div_mod n f) at 1; lia).
    assert (n / f <> 0) by nia. lia. }
  destruct (arange_len n f); [lia|]. discriminate.
Qed.

Section Raster.
Context `{Runtime}.
Local Open Scope nat_scope.

Lemma read_pixel_step (F : list byte) (w h j i : nat) (st st' : list byte * ndarray) :
  filled F w h (i * w + j) (fst st) (snd st) -> j < w -> i < h ->
  ParseFiles.read_pixel j i st = Ret st' ->
  filled F w h (S (i * w + j)) (fst st') (snd st').
Proof.
  destruct st as [f a]. intros Hf Hj Hi E.
  unfold ParseFiles.read_pixel, read in E. bind_inv E.
  inversion E; subst; clear E. cbn [fst snd] in *.
  apply filled_step; assumption.
Qed.

Lemma read_raster_filled (F : list byte) (w h : nat) (st0 st : list byte * ndarray) :
  for_each (seq 0 h) (fun i => for_each (seq 0 w) (fun j => ParseFiles.read_pixel j i))
    st0 = Ret st ->
  filled F w h 0 (fst st0) (snd st0) ->
  filled F w h (h * w) (fst st) (snd st).
Proof.
  intros E H0.
  pose proof (for_each_invariant (fun i s => filled F w h (i * w) (fst s) (snd s))
                (seq 0 h) _ st0 st E H0) as Hout.
  rewrite length_seq in Hout. apply Hout. clear Hout E H0 st0 st.
  intros k i s1 s2 Hk Hs1 Ein. apply nth_error_seq in Hk. destruct Hk as [-> Hk].
  cbn [Nat.add] in *.
  pose proof (for_each_invariant
                (fun j s => filled F w h (k * w + j) (fst s) (snd s))
                (seq 0 w) _ s1 s2 Ein) as Hin.
  rewrite length_seq in Hin.
  replace (S k * w) with (k * w + w) by lia. apply Hin.
  - rewrite Nat.add_0_r. assumption.
  - intros n j s3 s4 Hn Hs3 Es. apply nth_error_seq in Hn. destruct Hn as [-> Hn].
    cbn [Nat.add] in *.
    replace (k * w + S n) with (S (k * w + n)) by lia.
    eapply read_pixel_step; eauto.
Qed.

(** The array that the two loops of [get_image_data] leave. *)
Lemma get_image_data_decoded (fs : filesystem) (image_file : string)
    (parameters : ParseFiles.image_para) (resample_factor : Z)
    (F : list byte) (img : nparray) (p' : ParseFiles.image_para) :
  open_rb fs image_file = Some F ->
  ParseFiles.get_image_data fs image_file parameters resample_factor
  = Ret (Some (img, p')) ->
  exists a : ndarray,
    shape a (Z.to_nat (ParseFiles.width parameters))
      (Z.to_nat (ParseFiles.nlines parameters))
    /\ (forall j i,
           j < Z.to_nat (ParseFiles.width parameters) ->
           i < Z.to_nat (ParseFiles.nlines parameters) ->
           item a j i = pixel F (i * Z.to_nat (ParseFiles.width parameters) + j))
    /\ (resample_factor = 1%Z -> img = Array2 a)
    /\ (resample_factor <> 1%Z ->
        exists g,
          interp2d
            (map (fun k => Z.of_nat k * 1)%Z
               (seq 0 (arange_len (ParseFiles.nlines parameters) 1)))
            (map (fun k => Z.of_nat k * 1)%Z
               (seq 0 (arange_len (ParseFiles.width parameters) 1)))
            a = Ret g
          /\ ParseFiles.call_interp g
               (map (fun k => Z.of_nat k * resample_factor)%Z
                  (seq 0 (arange_len (ParseFiles.nlines parameters)
                            resample_factor)))
               (map (fun k => Z.of_nat k * resample_factor)%Z
                  (seq 0 (arange_len (ParseFiles.width parameters)
                            resample_factor)))
             = Ret img).
Proof.
  intros Eo. unfold ParseFiles.get_image_data. intros E. apply try_except_some in E.
  rewrite Eo in E. cbn [py_open bind] in E.
  bind_as E a0 Ez. bind_as E st Eloop. destruct st as [file' a].
  unfold range in Eloop.
  apply (read_raster_filled F) in Eloop; [|apply filled_zeros; assumption].
  cbn [fst snd] in Eloop. apply filled_item in Eloop. destruct Eloop as [Hs Hv].
  exists a. split; [assumption|]. split; [assumption|].
  destruct (Z.eqb_spec resample_factor 1) as [Hf|Hf].
  - inversion E; subst. split; [reflexivity|]. intros Hn. contradiction.
  - split; [intros; contradiction|]. intros _.
    unfold ParseFiles.floordiv, arange in E.
    destruct (Z.eqb_spec resample_factor 0) as [Hz|Hz]; [discriminate|].
    cbn [bind] in E. change (1 =? 0)%Z with false in E. cbn [bind] in E.
    bind_as E g Eg. bind_as E new Enew. inversion E; subst.
    exists g. split; assumption.
Qed.

(** A call returns a raster when [np.zeros] makes the array, the raster
    has a pixel, the file holds the declared pixels, the factor is
    positive and the interpolation routine accepts the rasters of this
    grid. *)
Lemma get_image_data_total (fs : filesystem) (image_file : string)
    (parameters : ParseFiles.image_para) (resample_factor : Z) (bytes : list byte)
    (a0 : ndarray) :
  open_rb fs image_file = Some bytes ->
  np_zeros (ParseFiles.width parameters) (ParseFiles.nlines parameters) = Ret a0 ->
  (0 < ParseFiles.width parameters)%Z ->
  (0 < ParseFiles.nlines parameters)%Z ->
  (ParseFiles.width parameters * ParseFiles.nlines parameters * 4
   <= Z.of_nat (length bytes))%Z ->
  (0 < resample_factor)%Z ->
  (forall z,
      shape z (Z.to_nat (ParseFiles.width parameters))
        (Z.to_nat (ParseFiles.nlines parameters)) ->
      exists g,
        interp2d
          (map (fun k => Z.of_nat k * 1)%Z
             (seq 0 (arange_len (ParseFiles.nlines parameters) 1)))
          (map (fun k => Z.of_nat k * 1)%Z
             (seq 0 (arange_len (ParseFiles.width parameters) 1)))
          z = Ret g) ->
  exists img p',
    ParseFiles.get_image_data fs image_file parameters resample_factor
    = Ret (Some (img, p')).
Proof.
  intros E Ez Hw Hh Hl Hf Hi. unfold ParseFiles.get_image_data. rewrite E.
  cbn [py_open bind]. rewrite Ez. cbn [bind]. unfold range.
  destruct (read_raster (Z.to_nat (ParseFiles.width parameters))
              (Z.to_nat (ParseFiles.nlines parameters)) 0 bytes a0) as [Hok _].
  destruct Hok as [a' Ea]; [nia|].
  pose proof (read_raster_filled bytes _ _ _ _ Ea
                (filled_zeros bytes _ _ _ Ez)) as Hfill.
  cbn [fst snd] in Hfill. destruct Hfill as (_ & Hs & _).
  rewrite Ea. cbn [bind].
  destruct (Z.eqb_spec resample_factor 1).
  - eexists. eexists. reflexivity.
  - unfold ParseFiles.floordiv, arange.
    destruct (Z.eqb_spec resample_factor 0); [lia|].
    change (1 =? 0)%Z with false. cbn [bind].
    destruct (Hi a' Hs) as [g Eg]. rewrite Eg. cbn [bind].
    destruct (call_interp_total g
                (map (fun k => Z.of_nat k * resample_factor)%Z
                   (seq 0 (arange_len (ParseFiles.nlines parameters) resample_factor)))
                (map (fun k => Z.of_nat k * resample_factor)%Z
                   (seq 0 (arange_len (ParseFiles.width parameters) resample_factor))))
      as [img Eimg]; [apply arange_nonempty; assumption..|].
    rewrite Eimg. cbn [bind]. eexists. eexists. reflexivity.
Qed.

(** C10. Whatever the resampling factor, the parameter list that
    [get_image_data] returns carries the [corner_lat] and [corner_lon]
    of the parameter list it was given; and the call does return one
    when [np.zeros] makes the array, the raster has a pixel, the file
    holds the declared pixels, the factor is positive and the
    interpolation routine accepts the rasters of this grid. *)
Theorem get_image_data_keeps_corner :
  forall (fs : filesystem) (image_file : string)
         (parameters : ParseFiles.image_para) (resample_factor : Z),
    (forall (img : nparray) (p' : ParseFiles.image_para),
        ParseFiles.get_image_data fs image_file parameters resample_factor
        = Ret (Some (img, p')) ->
        ParseFiles.corner_lat p' = ParseFiles.corner_lat parameters
        /\ ParseFiles.corner_lon p' = ParseFiles.corner_lon parameters)
    /\ (forall bytes a0,
           open_rb fs image_file = Some bytes ->
           np_zeros (ParseFiles.width parameters) (ParseFiles.nlines parameters)
           = Ret a0 ->
           (0 < ParseFiles.width parameters)%Z ->
           (0 < ParseFiles.nlines parameters)%Z ->
           (ParseFiles.width parameters * ParseFiles.nlines parameters * 4
            <= Z.of_nat (length bytes))%Z ->
           (0 < resample_factor)%Z ->
           (forall z,
               shape z (Z.to_nat (ParseFiles.width parameters))
                 (Z.to_nat (ParseFiles.nlines parameters)) ->
               exists g,
                 interp2d
                   (map (fun k => Z.of_nat k * 1)%Z
                      (seq 0 (arange_len (ParseFiles.nlines parameters) 1)))
                   (map (fun k => Z.of_nat k * 1)%Z
                      (seq 0 (arange_len (ParseFiles.width parameters) 1)))
                   z = Ret g) ->
           exists img p',
             ParseFiles.get_image_data fs image_file parameters resample_factor
             = Ret (Some (img, p'))
             /\ ParseFiles.corner_lat p' = ParseFiles.corner_lat parameters
             /\ ParseFiles.corner_lon p' = ParseFiles.corner_lon parameters).
Proof.
  intros fs image_file parameters resample_factor.
  assert (K : forall img p',
             ParseFiles.get_image_data fs image_file parameters resample_factor
             = Ret (Some (img, p')) ->
             ParseFiles.corner_lat p' = ParseFiles.corner_lat parameters
             /\ ParseFiles.corner_lon p' = ParseFiles.corner_lon parameters).
  { intros img p' E. apply get_image_data_returns in E.
    destruct E as [(_ & -> & _)|(_ & _ & _ & ->)]; split; reflexivity. }
  split; [exact K|].
  intros bytes a0 E Ez Hw Hh Hl Hf Hi.
  destruct (get_image_data_total _ _ _ _ _ _ E Ez Hw Hh Hl Hf Hi) as (img & p' & Er).
  exists img, p'. split; [assumption|]. exact (K img p' Er).
Qed.

End Raster.

(** ** [read_from_gamma]: what a call stores *)

Section Publish.
Context `{Runtime}.

(** The ways a call of [read_from_gamma] can end. *)
Lemma read_from_gamma_cases (fs : filesystem)
    (para_file phase_file azi_file inc_file satellite : string) (downsample : Z)
    (self self' : Insar.InSAR) (o : outcome unit) :
  Insar.read_from_gamma fs para_file phase_file azi_file inc_file satellite
    downsample self = (self', o) ->
  (self' = self
   /\ ((exists e, Insar.read_para fs para_file = Raise e /\ o = Raise e)
       \/ (exists l e,
              Insar.read_para fs para_file = Ret l
              /\ Insar.read_images fs l phase_file azi_file inc_file satellite
                   downsample = Raise e
              /\ o = if isinstance e "IOError" then Ret tt else Raise e)))
  \/ (exists l d,
         Insar.read_para fs para_file = Ret l
         /\ Insar.read_images fs l phase_file azi_file inc_file satellite
              downsample = Ret d
         /\ ((Insar.ellps_name l = None
              /\ self' = {| Insar.data := Some d;
                            Insar.data_para := Insar.data_para self |}
              /\ o = Raise UnboundLocalError)
             \/ (exists name,
                    Insar.ellps_name l = Some name
                    /\ self' = {| Insar.data := Some d;
                                  Insar.data_para :=
                                    Some {| Insar.satellite := satellite;
                                            Insar.datum_name := name |} |}
                    /\ o = Ret tt))).
Proof.
  unfold Insar.read_from_gamma, Insar.mbind, Insar.pure, Insar.try_except_IOError_m,
    Insar.set_data, Insar.set_data_para.
  destruct (Insar.read_para fs para_file) as [l|e] eqn:El.
  - destruct (Insar.read_images fs l phase_file azi_file inc_file satellite downsample)
      as [d|e] eqn:Ed.
    + destruct (Insar.ellps_name l) as [name|] eqn:En; cbn; intros E;
        inversion E; subst; clear E; right; exists l, d;
        (split; [solve [auto]|]); (split; [solve [auto]|]).
      * right. exists name. auto.
      * left. auto.
    + intros E. left.
      destruct (isinstance e "IOError") eqn:Ei; inversion E; subst; clear E;
        (split; [reflexivity|]); right; exists l, e; rewrite Ei; auto.
  - intros E. inversion E; subst. left. split; [reflexivity|]. left. exists e. auto.
Qed.

(** A call that changes the instance has stored the dataset that
    [read_images] computed. *)
Lemma read_from_gamma_stored (fs : filesystem)
    (para_file phase_file azi_file inc_file satellite : string) (downsample : Z)
    (self self' : Insar.InSAR) (o : outcome unit) :
  Insar.read_from_gamma fs para_file phase_file azi_file inc_file satellite
    downsample self = (self', o) ->
  self' <> self ->
  exists l d,
    Insar.read_para fs para_file = Ret l
    /\ Insar.read_images fs l phase_file azi_file inc_file satellite downsample = Ret d
    /\ Insar.data self' = Some d.
Proof.
  intros E Hne. apply read_from_gamma_cases in E.
  destruct E as [[E _]|(l & d & El & Ed & E)]; [contradiction|].
  exists l, d. split; [assumption|]. split; [assumption|].
  destruct E as [(_ & -> & _)|(name & _ & -> & _)]; reflexivity.
Qed.

(** C5. Take a call of [read_from_gamma] that stores a dataset.  Let
    [idx] list the pixels kept by the decimation, in file order.  At each
    place [n] of the channels, standing for pixel [k]: when the phase of
    pixel [k] in the phase file is exactly zero, the channels phase, azi
    and inc all hold not-a-number there; otherwise they hold the phase
    itself and the azimuth and incidence turned to degrees, unmasked. *)
Theorem co_masking :
  forall (fs : filesystem)
         (para_file phase_file azi_file inc_file satellite : string) (downsample : Z)
         (self self' : Insar.InSAR) (o : outcome unit),
    Insar.read_from_gamma fs para_file phase_file azi_file inc_file satellite
      downsample self = (self', o) ->
    self' <> self ->
    exists (d : Insar.dataset) (l : Insar.locals) (w h : Z)
           (F1 F2 F3 : list byte) (idx : list nat),
      Insar.data self' = Some d
      /\ Insar.read_para fs para_file = Ret l
      /\ Insar.range_samples l = Some w /\ Insar.azimuth_lines l = Some h
      /\ open_rb fs phase_file = Some F1
      /\ open_rb fs azi_file = Some F2
      /\ open_rb fs inc_file = Some F3
      /\ slice_step (seq 0 (Z.to_nat h * Z.to_nat w)) downsample = Ret idx
      /\ length (Insar.value (Insar.phase d)) = length idx
      /\ length (Insar.value (Insar.azi d)) = length idx
      /\ length (Insar.value (Insar.inc d)) = length idx
      /\ forall n k,
          nth_error idx n = Some k ->
          (feqb (pixel F1 k) (of_Z 0) = true ->
           nth_error (Insar.value (Insar.phase d)) n = Some NaN
           /\ nth_error (Insar.value (Insar.azi d)) n = Some NaN
           /\ nth_error (Insar.value (Insar.inc d)) n = Some NaN)
          /\ (feqb (pixel F1 k) (of_Z 0) = false ->
              nth_error (Insar.value (Insar.phase d)) n = Some (pixel F1 k)
              /\ nth_error (Insar.value (Insar.azi d)) n
                 = Some (of_Z (-180) - degrees (pixel F2 k))%np
              /\ nth_error (Insar.value (Insar.inc d)) n
                 = Some (of_Z 90 - degrees (pixel F3 k))%np).
Proof.
  intros fs para_file phase_file azi_file inc_file satellite downsample
    self self' o E Hne.
  destruct (read_from_gamma_stored _ _ _ _ _ _ _ _ _ _ E Hne) as (l & d & El & Ed & Es).
  apply read_images_returns in Ed.
  destruct Ed as (w & h & F1 & F2 & F3 & cla & pla & clo & plo & idx & Ew & Eh & _ & _
                  & E1 & E2 & E3 & _ & _ & _ & _ & Eidx & Eph & _ & Eaz & Einc & _).
  exists d, l, w, h, F1, F2, F3, idx.
  rewrite Eph, Eaz, Einc, !length_map.
  repeat (split; [solve [auto]|]).
  intros n k Hk. rewrite !nth_error_map, Hk. cbn [option_map]. unfold masked.
  split; intros ->; repeat split; reflexivity.
Qed.

(** C9, as amended.  Take a call of [read_from_gamma] that stores a
    dataset, for a raster of [w] samples by [h] lines.  The longitudes
    are [w] evenly spaced values, [corner_lon + j * post_lon] for the
    sample [j], repeated on each of the [h] lines; the latitudes are
    [corner_lat + i * post_lat] for the line [i].  Place [n] of every
    channel stands for one and the same pixel [k], sample [k mod w] of
    line [k / w], the [k]-th value of the three files: so it is for lon,
    lat, phase, azi and inc, for los, which is the phase of that pixel
    turned to metres, and for x and y, which are what the projection
    [ll2xy] makes of the columns lon and lat. *)
Theorem geocoding_alignment :
  forall (fs : filesystem)
         (para_file phase_file azi_file inc_file satellite : string) (downsample : Z)
         (self self' : Insar.InSAR) (o : outcome unit),
    Insar.read_from_gamma fs para_file phase_file azi_file inc_file satellite
      downsample self = (self', o) ->
    self' <> self ->
    exists (d : Insar.dataset) (l : Insar.locals) (w h : Z)
           (F1 F2 F3 : list byte) (cla pla clo plo : npfloat) (idx : list nat),
      Insar.data self' = Some d
      /\ Insar.read_para fs para_file = Ret l
      /\ Insar.range_samples l = Some w /\ Insar.azimuth_lines l = Some h
      /\ Insar.corner_lat l = Some cla /\ Insar.post_lat l = Some pla
      /\ Insar.corner_lon l = Some clo /\ Insar.post_lon l = Some plo
      /\ open_rb fs phase_file = Some F1
      /\ open_rb fs azi_file = Some F2
      /\ open_rb fs inc_file = Some F3
      /\ slice_step (seq 0 (Z.to_nat h * Z.to_nat w)) downsample = Ret idx
      /\ (forall k, In k idx -> (k < Z.to_nat h * Z.to_nat w)%nat)
      /\ Insar.value (Insar.lon d)
         = map (fun k => clo + of_Z (Z.of_nat (k mod Z.to_nat w)) * plo)%np idx
      /\ Insar.value (Insar.lat d)
         = map (fun k => cla + of_Z (Z.of_nat (k / Z.to_nat w)) * pla)%np idx
      /\ Insar.value (Insar.phase d)
         = map (fun k => masked (pixel F1 k) (pixel F1 k)) idx
      /\ Insar.value (Insar.azi d)
         = map (fun k => of_Z (-180) - degrees (masked (pixel F1 k) (pixel F2 k)))%np idx
      /\ Insar.value (Insar.inc d)
         = map (fun k => of_Z 90 - degrees (masked (pixel F1 k) (pixel F3 k)))%np idx
      /\ (exists f,
             Insar.radar_freq satellite = Ret f
             /\ Insar.value (Insar.los d)
                = map (fun k => los_of (c / f)%np (masked (pixel F1 k) (pixel F1 k)))
                    idx)
      /\ ll2xy (Insar.value (Insar.lon d)) (Insar.value (Insar.lat d))
         = Ret (Insar.value (Insar.x d), Insar.value (Insar.y d)).
Proof.
  intros fs para_file phase_file azi_file inc_file satellite downsample
    self self' o E Hne.
  destruct (read_from_gamma_stored _ _ _ _ _ _ _ _ _ _ E Hne) as (l & d & El & Ed & Es).
  apply read_images_returns in Ed.
  destruct Ed as (w & h & F1 & F2 & F3 & cla & pla & clo & plo & idx & Ew & Eh & _ & _
                  & E1 & E2 & E3 & Ecla & Epla & Eclo & Eplo & Eidx & Eph & Elos
                  & Eaz & Einc & Elon & Elat & Exy).
  exists d, l, w, h, F1, F2, F3, cla, pla, clo, plo, idx.
  repeat (split; [solve [auto]|]).
  split.
  { intros k Hk. eapply slice_step_in in Hk; [|eassumption].
    apply in_seq in Hk. lia. }
  repeat (split; [solve [auto]|]).
  split; [|exact Exy].
  destruct (phase2los_ret_inv _ _ _ Elos) as [f Hf].
  rewrite (phase2los_elementwise _ f _ Hf) in Elos.
  exists f. split; [exact Hf|].
  assert (Elos' : Insar.value (Insar.los d)
                  = map (los_of (c / f)%np) (Insar.value (Insar.phase d)))
    by congruence.
  rewrite Elos', Eph, map_map. reflexivity.
Qed.

End Publish.

(** ** [read_from_gamma] and the [ellipsoid_name] line *)

Section Ellipsoid.
Context `{Runtime}.

Lemma insar_scan_line_keeps (line : string) (l l' : Insar.locals) :
  startswith line "ellipsoid_name:" = false ->
  Insar.scan_line line l = Ret l' ->
  Insar.ellps_name l = None -> Insar.ellps_name l' = None.
Proof.
  intros Hs. unfold Insar.scan_line. rewrite Hs.
  repeat match goal with
         | |- context [if startswith line ?k then _ else _] =>
             destruct (startswith line k)
         end;
    intros El; try (bind_inv El); inversion El; subst; clear El; auto.
Qed.

Lemma insar_scan_keeps (lines : list string) (l l' : Insar.locals) :
  (forall line, In line lines -> startswith line "ellipsoid_name:" = false) ->
  for_each lines Insar.scan_line l = Ret l' ->
  Insar.ellps_name l = None -> Insar.ellps_name l' = None.
Proof.
  revert l. induction lines as [|line lines IH]; intros l Hs E Hb; simpl in E.
  - inversion E; subst; assumption.
  - bind_inv E. apply (IH v); auto using in_cons.
    eapply insar_scan_line_keeps; eauto using in_eq.
Qed.

Lemma read_para_no_ellipsoid (fs : filesystem) (para_file : string)
    (lines : list string) (l : Insar.locals) :
  open_r fs para_file = Some lines ->
  (forall line, In line lines -> startswith line "ellipsoid_name:" = false) ->
  Insar.read_para fs para_file = Ret l ->
  Insar.ellps_name l = None.
Proof.
  intros Eo Hs. unfold Insar.read_para, try_except_IOError. rewrite Eo.
  cbn [py_open bind].
  destruct (for_each lines Insar.scan_line Insar.unbound) as [l0|e] eqn:Es; cbn [bind].
  - apply insar_scan_keeps in Es; [|assumption|reflexivity].
    destruct (Insar.post_lon l0), (Insar.range_samples l0), (Insar.azimuth_lines l0);
      cbn; intros E; inversion E; subst; auto.
  - destruct (isinstance e "IOError"); intros E; inversion E; reflexivity.
Qed.

(** C3, what the code does.  When no line of the parameter file starts
    with [ellipsoid_name:], a call of [read_from_gamma] never completes
    its work: [self.data_para] is left as it was, a normal return is
    only the one after a caught [IOError], and once the images have been
    read and [self.data] assigned the call raises [UnboundLocalError]. *)
Theorem read_from_gamma_without_ellipsoid_name :
  forall (fs : filesystem)
         (para_file phase_file azi_file inc_file satellite : string) (downsample : Z)
         (lines : list string) (self self' : Insar.InSAR) (o : outcome unit),
    open_r fs para_file = Some lines ->
    (forall line, In line lines -> startswith line "ellipsoid_name:" = false) ->
    Insar.read_from_gamma fs para_file phase_file azi_file inc_file satellite
      downsample self = (self', o) ->
    Insar.data_para self' = Insar.data_para self
    /\ (o = Ret tt -> self' = self)
    /\ (forall l d,
           Insar.read_para fs para_file = Ret l ->
           Insar.read_images fs l phase_file azi_file inc_file satellite downsample
           = Ret d ->
           o = Raise UnboundLocalError /\ Insar.data self' = Some d).
Proof.
  intros fs para_file phase_file azi_file inc_file satellite downsample
    lines self self' o Eo Hs E.
  apply read_from_gamma_cases in E.
  destruct E as [[-> E]|(l & d & El & Ed & E)].
  - split; [reflexivity|]. split; [reflexivity|].
    intros l d El Ed.
    destruct E as [(e & E1 & _)|(l1 & e & E1 & E2 & _)]; congruence.
  - pose proof (read_para_no_ellipsoid _ _ _ _ Eo Hs El) as En.
    destruct E as [(_ & -> & ->)|(name & En' & _)]; [|congruence].
    split; [reflexivity|]. split; [discriminate|].
    intros l1 d1 El1 Ed1. split; [reflexivity|]. cbn. congruence.
Qed.

End Ellipsoid.

(** ** Short rasters in [read_from_gamma] *)

Section Short.
Context `{Runtime}.
Local Open Scope nat_scope.

Lemma read_pixels_cases (j i : nat) (st : Insar.images) :
  (holds 4 st -> exists st', Insar.read_pixels j i st = Ret st' /\ consumed 4 st st')
  /\ (~ holds 4 st -> Insar.read_pixels j i st = Raise StructError).
Proof.
  unfold holds, consumed, Insar.read_pixels, read.
  destruct (Nat.lt_ge_cases (length (Insar.f1 st)) 4) as [H1|H1].
  { rewrite unpack_short by assumption. split; [lia|reflexivity]. }
  rewrite unpack_enough by assumption. cbn [bind].
  destruct (Nat.lt_ge_cases (length (Insar.f2 st)) 4) as [H2|H2].
  { rewrite unpack_short by assumption. split; [lia|reflexivity]. }
  rewrite unpack_enough by assumption. cbn [bind].
  destruct (Nat.lt_ge_cases (length (Insar.f3 st)) 4) as [H3|H3].
  { rewrite unpack_short by assumption. split; [lia|reflexivity]. }
  rewrite unpack_enough by assumption. cbn [bind].
  split; [|intros Hn; exfalso; apply Hn; auto].
  intros _. eexists. split; [reflexivity|].
  cbn [Insar.f1 Insar.f2 Insar.f3]. rewrite !length_skipn. auto.
Qed.

Lemma read_line3 (i n j0 : nat) (st : Insar.images) :
  (holds (4 * n) st ->
   exists st', for_each (seq j0 n) (fun j => Insar.read_pixels j i) st = Ret st'
               /\ consumed (4 * n) st st')
  /\ (~ holds (4 * n) st ->
      for_each (seq j0 n) (fun j => Insar.read_pixels j i) st = Raise StructError).
Proof.
  revert j0 st. induction n as [|n IH]; intros j0 st.
  - split.
    + intros _. exists st. split; [reflexivity|]. unfold consumed. lia.
    + intros Hn. exfalso. apply Hn. unfold holds. lia.
  - cbn [seq for_each].
    destruct (read_pixels_cases j0 i st) as [Pok Psh].
    assert (D : holds 4 st \/ ~ holds 4 st) by (unfold holds; lia).
    destruct D as [D|D].
    + destruct (Pok D) as (st1 & E1 & C1). rewrite E1. cbn [bind].
      destruct (IH (S j0) st1) as [Iok Ish].
      unfold holds, consumed in *. split.
      * intros Hl. destruct Iok as (st' & E' & C'); [lia|].
        exists st'. split; [assumption|]. lia.
      * intros Hl. apply Ish. lia.
    + rewrite (Psh D). split; [|reflexivity].
      intros Hl. exfalso. apply D. unfold holds in *. lia.
Qed.

Lemma read_raster3 (w h i0 : nat) (st : Insar.images) :
  (holds (4 * (w * h)) st ->
   exists st',
     for_each (seq i0 h)
       (fun i => for_each (seq 0 w) (fun j => Insar.read_pixels j i)) st = Ret st')
  /\ (~ holds (4 * (w * h)) st ->
      for_each (seq i0 h)
        (fun i => for_each (seq 0 w) (fun j => Insar.read_pixels j i)) st
      = Raise StructError).
Proof.
  revert i0 st. induction h as [|h IH]; intros i0 st.
  - split.
    + intros _. exists st. reflexivity.
    + intros Hn. exfalso. apply Hn. unfold holds. lia.
  - cbn [seq for_each].
    destruct (read_line3 i0 w 0 st) as [Lok Lsh].
    assert (D : holds (4 * w) st \/ ~ holds (4 * w) st) by (unfold holds; lia).
    destruct D as [D|D].
    + destruct (Lok D) as (st1 & E1 & C1). rewrite E1. cbn [bind].
      destruct (IH (S i0) st1) as [Iok Ish].
      unfold holds, consumed in *. split.
      * intros Hl. apply Iok. nia.
      * intros Hl. apply Ish. nia.
    + rewrite (Lsh D). split; [|reflexivity].
      intros Hl. exfalso. apply D. unfold holds in *. nia.
Qed.

Lemma read_images_not_opened (fs : filesystem) (l : Insar.locals)
    (phase_file azi_file inc_file satellite : string) (downsample : Z) :
  open_rb fs phase_file = None \/ open_rb fs azi_file = None
  \/ open_rb fs inc_file = None ->
  Insar.read_images fs l phase_file azi_file inc_file satellite downsample
  = Raise OSError.
Proof.
  unfold Insar.read_images.
  destruct (open_rb fs phase_file); [|reflexivity].
  destruct (open_rb fs azi_file); [|reflexivity].
  destruct (open_rb fs inc_file); [|reflexivity].
  intros [E|[E|E]]; discriminate.
Qed.

Lemma read_images_truncated (fs : filesystem) (l : Insar.locals)
    (phase_file azi_file inc_file satellite : string) (downsample : Z)
    (w h : Z) (F1 F2 F3 : list byte) (a0 : ndarray) :
  open_rb fs phase_file = Some F1 ->
  open_rb fs azi_file = Some F2 ->
  open_rb fs inc_file = Some F3 ->
  Insar.range_samples l = Some w -> Insar.azimuth_lines l = Some h ->
  np_zeros w h = Ret a0 ->
  (Z.of_nat (length F1) < w * h * 4 \/ Z.of_nat (length F2) < w * h * 4
   \/ Z.of_nat (length F3) < w * h * 4)%Z ->
  Insar.read_images fs l phase_file azi_file inc_file satellite downsample
  = Raise StructError.
Proof.
  intros E1 E2 E3 Ew Eh Ez Hl. unfold Insar.read_images.
  rewrite E1, E2, E3, Ew, Eh. cbn [py_open load bind].
  rewrite Ez. cbn [bind]. unfold range.
  destruct (zeros_nonneg _ _ _ Ez) as [Hw Hh].
  match goal with
  | |- bind (for_each _ _ ?st) _ = _ =>
      destruct (read_raster3 (Z.to_nat w) (Z.to_nat h) 0 st) as [_ Hsh]
  end.
  rewrite Hsh; [reflexivity|].
  unfold holds. cbn. nia.
Qed.

(** When [np.zeros] refuses the dimensions, its error is the outcome. *)
Lemma read_images_no_array (fs : filesystem) (l : Insar.locals)
    (phase_file azi_file inc_file satellite : string) (downsample : Z)
    (w h : Z) (F1 F2 F3 : list byte) (e : exn) :
  open_rb fs phase_file = Some F1 ->
  open_rb fs azi_file = Some F2 ->
  open_rb fs inc_file = Some F3 ->
  Insar.range_samples l = Some w -> Insar.azimuth_lines l = Some h ->
  np_zeros w h = Raise e ->
  Insar.read_images fs l phase_file azi_file inc_file satellite downsample
  = Raise e.
Proof.
  intros E1 E2 E3 Ew Eh Ez. unfold Insar.read_images.
  rewrite E1, E2, E3, Ew, Eh. cbn [py_open load bind].
  rewrite Ez. reflexivity.
Qed.

End Short.

Section DecodeFailures.
Context `{Runtime}.

Lemma read_from_gamma_raises (fs : filesystem)
    (para_file phase_file azi_file inc_file satellite : string) (downsample : Z)
    (self : Insar.InSAR) (l : Insar.locals) (e : exn) :
  Insar.read_para fs para_file = Ret l ->
  Insar.read_images fs l phase_file azi_file inc_file satellite downsample = Raise e ->
  isinstance e "IOError" = false ->
  Insar.read_from_gamma fs para_file phase_file azi_file inc_file satellite
    downsample self = (self, Raise e).
Proof.
  intros El Ed Hi.
  unfold Insar.read_from_gamma, Insar.mbind, Insar.pure, Insar.try_except_IOError_m.
  rewrite El, Ed, Hi. reflexivity.
Qed.

(** C4, as amended.  When an image file cannot be opened, the [IOError]
    is caught inside the operation: [get_image_data] returns [None] and
    [read_from_gamma] returns with the instance untouched.  When a file
    holds fewer than [width * nlines * 4] bytes, the call ends with
    [struct.error] once [np.zeros] has made the arrays, and with the
    [ValueError] or [MemoryError] of [np.zeros] when it refuses the
    declared dimensions; none of these is an [IOError], and
    [read_from_gamma] leaves the instance untouched. *)
Theorem raster_decode_failures :
  forall fs : filesystem,
    (forall image_file parameters resample_factor,
        open_rb fs image_file = None ->
        ParseFiles.get_image_data fs image_file parameters resample_factor = Ret None)
    /\ (forall image_file parameters resample_factor bytes,
           open_rb fs image_file = Some bytes ->
           Z.of_nat (length bytes)
           < ParseFiles.width parameters * ParseFiles.nlines parameters * 4 ->
           (forall a0,
               np_zeros (ParseFiles.width parameters) (ParseFiles.nlines parameters)
               = Ret a0 ->
               ParseFiles.get_image_data fs image_file parameters resample_factor
               = Raise StructError)
           /\ (forall e,
                  np_zeros (ParseFiles.width parameters) (ParseFiles.nlines parameters)
                  = Raise e ->
                  ParseFiles.get_image_data fs image_file parameters resample_factor
                  = Raise e
                  /\ (e = ValueError \/ e = MemoryError))
           /\ ~ raises (ParseFiles.get_image_data fs image_file parameters
                          resample_factor) "IOError")
    /\ (forall para_file phase_file azi_file inc_file satellite downsample self l,
           Insar.read_para fs para_file = Ret l ->
           open_rb fs phase_file = None \/ open_rb fs azi_file = None
           \/ open_rb fs inc_file = None ->
           Insar.read_from_gamma fs para_file phase_file azi_file inc_file
             satellite downsample self = (self, Ret tt))
    /\ (forall para_file phase_file azi_file inc_file satellite downsample self
               l w h F1 F2 F3,
           Insar.read_para fs para_file = Ret l ->
           Insar.range_samples l = Some w -> Insar.azimuth_lines l = Some h ->
           open_rb fs phase_file = Some F1 ->
           open_rb fs azi_file = Some F2 ->
           open_rb fs inc_file = Some F3 ->
           Z.of_nat (length F1) < w * h * 4 \/ Z.of_nat (length F2) < w * h * 4
           \/ Z.of_nat (length F3) < w * h * 4 ->
           (forall a0,
               np_zeros w h = Ret a0 ->
               Insar.read_from_gamma fs para_file phase_file azi_file inc_file
                 satellite downsample self = (self, Raise StructError))
           /\ (forall e,
                  np_zeros w h = Raise e ->
                  Insar.read_from_gamma fs para_file phase_file azi_file inc_file
                    satellite downsample self = (self, Raise e)
                  /\ (e = ValueError \/ e = MemoryError))).
Proof.
  intros fs. split; [|split; [|split]].
  - intros image_file parameters resample_factor.
    apply get_image_data_failures.
  - intros image_file parameters resample_factor.
    apply get_image_data_failures.
  - intros para_file phase_file azi_file inc_file satellite downsample self l El Ho.
    unfold Insar.read_from_gamma, Insar.mbind, Insar.pure, Insar.try_except_IOError_m.
    rewrite El. rewrite read_images_not_opened by assumption. reflexivity.
  - intros para_file phase_file azi_file inc_file satellite downsample self
      l w h F1 F2 F3 El Ew Eh E1 E2 E3 Hl. split.
    + intros a0 Ez.
      apply (read_from_gamma_raises _ _ _ _ _ _ _ _ l); [assumption| |reflexivity].
      apply (read_images_truncated _ _ _ _ _ _ _ w h F1 F2 F3 a0); assumption.
    + intros e Ez.
      pose proof (np_zeros_raise _ _ _ Ez) as He. split; [|exact He].
      apply (read_from_gamma_raises _ _ _ _ _ _ _ _ l); [assumption| |].
      * apply (read_images_no_array _ _ _ _ _ _ _ w h F1 F2 F3); assumption.
      * destruct He as [-> | ->]; reflexivity.
Qed.

End DecodeFailures.

Section Atomic.
Context `{Runtime}.

(** With [ellps_name] bound by the scan, a call either leaves the
    instance as it was or replaces both attributes and returns. *)
Lemma read_from_gamma_atomic_when_ellipsoid_bound (fs : filesystem)
    (para_file phase_file azi_file inc_file satellite : string) (downsample : Z)
    (self self' : Insar.InSAR) (o : outcome unit) :
  (forall l, Insar.read_para fs para_file = Ret l -> Insar.ellps_name l <> None) ->
  Insar.read_from_gamma fs para_file phase_file azi_file inc_file satellite
    downsample self = (self', o) ->
  self' = self
  \/ (o = Ret tt
      /\ exists d name,
          self' = {| Insar.data := Some d;
                     Insar.data_para :=
                       Some {| Insar.satellite := satellite;
                               Insar.datum_name := name |} |}).
Proof.
  intros Hb E. apply read_from_gamma_cases in E.
  destruct E as [[-> _]|(l & d & El & _ & [(En & _)|(name & _ & -> & ->)])].
  - left. reflexivity.
  - exfalso. exact (Hb l El En).
  - right. split; [reflexivity|]. exists d, name. reflexivity.
Qed.

End Atomic.

(** ** The model at concrete inputs *)

(** C1, what the code does.  For a raster of 5 by 5 resampled with
    factor 2, the parameter list that [get_image_data] returns reports
    2 by 2, the floors of 5 / 2, while the grid it returns has 3 rows
    of 3 entries: the grid and the reported dimensions disagree. *)
Theorem resampled_grid_exceeds_reported_dimensions :
  exists (img : ndarray) (p' : ParseFiles.image_para),
    @ParseFiles.get_image_data Sample.runtime Sample.disk "zeros25"
      Sample.para_5x5 2
    = Ret (Some (Array2 img, p'))
    /\ ParseFiles.width p' = 2 /\ ParseFiles.nlines p' = 2
    /\ ParseFiles.post_lat p' = (of_Z (-1) * of_Z 2)%np
    /\ ParseFiles.post_lon p' = (of_Z 1 * of_Z 2)%np
    /\ length img = 3%nat
    /\ Forall (fun r : list npfloat => length r = 3%nat) img
    /\ Z.of_nat (length img) <> ParseFiles.width p'.
Proof.
  eexists. eexists. split; [vm_compute; reflexivity|].
  cbn [ParseFiles.width ParseFiles.nlines ParseFiles.post_lat ParseFiles.post_lon].
  repeat split; try reflexivity.
  - repeat constructor.
  - cbn. lia.
Qed.

(** C2, what the code does.  With a parameter file that has the six
    required lines and no [ellipsoid_name] line, and three well-formed
    rasters, a call on a fresh instance raises [UnboundLocalError] after
    [self.data] has been assigned: the instance is left with a dataset
    and without [data_para]. *)
Theorem read_from_gamma_half_published :
  exists d : Insar.dataset,
    @Insar.read_from_gamma Sample.runtime Sample.disk
      "no_ellipsoid.par" "s.phase" "s.azi" "s.inc" "Sentinel-1" 1 Insar.init
    = ({| Insar.data := Some d; Insar.data_para := None |}, Raise UnboundLocalError).
Proof.
  eexists. vm_compute. reflexivity.
Qed.

(** C4, counterexample.  The file holds 14 bytes where 2 * 2 * 4 are
    declared, and the call does not end with an [IOError]. *)
Lemma truncated_file_is_no_IOError :
  (exists bytes, open_rb Sample.disk "short.phase" = Some bytes
                 /\ (length bytes < 2 * 2 * 4)%nat)
  /\ @ParseFiles.get_image_data Sample.runtime Sample.disk "short.phase"
       Sample.para_2x2 1 = Raise StructError
  /\ ~ raises (@ParseFiles.get_image_data Sample.runtime Sample.disk "short.phase"
                 Sample.para_2x2 1)
         "IOError".
Proof.
  split; [|split].
  - eexists. split; [reflexivity|]. cbn. lia.
  - vm_compute. reflexivity.
  - intros (e & E & Hi). vm_compute in E. inversion E; subst e. discriminate.
Qed.

(** C7, counterexample.  For the sensor "TerraSAR-X" the call does not
    end with an [UnsupportedSensorError]. *)
Lemma unknown_sensor_is_no_UnsupportedSensorError :
  ~ raises (Insar.phase2los [of_Z 1] "TerraSAR-X") "UnsupportedSensorError".
Proof.
  intros (e & E & Hi). cbv [Insar.phase2los] in E.
  rewrite radar_freq_unknown in E by (simpl; intuition discriminate).
  inversion E; subst e. discriminate.
Qed.

(** C8, counterexample.  The parameter file cannot be opened and the
    call does not end with a [ParseError]: it returns [None]. *)
Lemma missing_parameter_file_is_no_ParseError :
  open_r Sample.disk "missing.par" = None
  /\ @ParseFiles.get_image_para Sample.runtime Sample.disk "missing.par" = Ret None
  /\ ~ raises (@ParseFiles.get_image_para Sample.runtime Sample.disk "missing.par")
         "ParseError".
Proof.
  split; [reflexivity|]. split; [reflexivity|].
  intros (e & E & _). discriminate.
Qed.

(** C9, counterexample.  For a raster of two samples on one line, the
    longitudes stored are 20 and 20.5, one for each sample; worded as in
    the specification they would be one value, 20, on two rows. *)
Lemma longitudes_are_not_as_specified :
  exists (d : Insar.dataset) (spec : column),
    Insar.data (fst (@Insar.read_from_gamma Sample.runtime Sample.disk
                       "wide.par" "two.img" "two.img" "two.img" "Sentinel-1" 1
                       Insar.init)) = Some d
    /\ lon_mesh_as_specified (of_Z 20) (Fin (Q2Qc (1 # 2))) 2 1 = Ret spec
    /\ map rational (Insar.value (Insar.lon d)) = [Some 20%Q; Some (41 # 2)%Q]
    /\ map rational spec = [Some 20%Q; Some 20%Q]
    /\ Insar.value (Insar.lon d) <> spec.
Proof.
  eexists. eexists. split; [vm_compute; reflexivity|].
  split; [vm_compute; reflexivity|].
  split; [reflexivity|]. split; [reflexivity|].
  cbn [Insar.value Insar.lon]. intros E.
  apply (f_equal (map rational)) in E. vm_compute in E. discriminate.
Qed.

(** ** Instances *)


Lemma phase2los_unknown_sensor_witness :
  ~ In "TerraSAR-X"%string
      ["sentinel-1"; "Sentinel-1"; "s1"; "S1"; "ALOS"; "alos";
       "ALOS-2/U"; "ALOS-2/{F,W}"]%string
  /\ Insar.phase2los [of_Z 1] "TerraSAR-X" = Raise ValueError.
Proof.
  assert (Hn : ~ In "TerraSAR-X"%string
                 ["sentinel-1"; "Sentinel-1"; "s1"; "S1"; "ALOS"; "alos";
                  "ALOS-2/U"; "ALOS-2/{F,W}"]%string).
  { simpl. intuition discriminate. }
  split; [exact Hn|].
  exact (proj1 (phase2los_unknown_sensor "TerraSAR-X" [of_Z 1] Hn)).
Defined.

Lemma get_image_data_keeps_corner_witness :
  (exists img p',
      @ParseFiles.get_image_data Sample.runtime Sample.disk "s.phase"
        Sample.para_2x2 1
      = Ret (Some (img, p'))
      /\ ParseFiles.corner_lat p' = of_Z 10 /\ ParseFiles.corner_lon p' = of_Z 20)
  /\ (exists img p',
         @ParseFiles.get_image_data Sample.runtime Sample.disk "zeros25"
           Sample.para_5x5 2
         = Ret (Some (img, p'))
         /\ ParseFiles.corner_lat p' = of_Z 10 /\ ParseFiles.corner_lon p' = of_Z 20).
Proof.
  split.
  - eexists. eexists.
    match goal with
    | |- ?A /\ _ =>
        assert (E : A) by (vm_compute; reflexivity);
        split;
        [exact E
        |exact (proj1 (@get_image_data_keeps_corner Sample.runtime _ _ _ _) _ _ E)]
    end.
  - eapply (proj2 (@get_image_data_keeps_corner Sample.runtime Sample.disk "zeros25"
                     Sample.para_5x5 2) (repeat x00 100)).
    + reflexivity.
    + reflexivity.
    + cbn. lia.
    + cbn. lia.
    + cbn. lia.
    + lia.
    + intros z _. eexists. reflexivity.
Defined.

Lemma get_image_para_failures_witness :
  @ParseFiles.get_image_para Sample.runtime Sample.disk "missing.par" = Ret None
  /\ @ParseFiles.get_image_para Sample.runtime Sample.disk "no_width.par"
     = Raise UnboundLocalError.
Proof.
  destruct (@get_image_para_failures Sample.runtime Sample.disk "missing.par")
    as (Hopen & _ & _).
  destruct (@get_image_para_failures Sample.runtime Sample.disk "no_width.par")
    as (_ & Hkey & _).
  split; [apply Hopen; reflexivity|].
  destruct (Hkey Sample.par_lines_no_width "width:"%string) as [(l & _ & E)|(e & Es & _)].
  - reflexivity.
  - simpl. auto.
  - intros line Hl. vm_compute in Hl.
    repeat (destruct Hl as [<-|Hl]; [reflexivity|]). destruct Hl.
  - exact E.
  - vm_compute in Es. discriminate.
Defined.

(** The sample rasters: pixel 0 has phase 0.0 and is masked in the three
    channels, pixel 1 has phase 1.0 and is not. *)
Lemma co_masking_witness :
  exists d : Insar.dataset,
    Insar.data (fst (@Insar.read_from_gamma Sample.runtime Sample.disk
                       "s.par" "s.phase" "s.azi" "s.inc" "Sentinel-1" 1 Insar.init))
    = Some d
    /\ nth_error (Insar.value (Insar.phase d)) 0 = Some NaN
    /\ nth_error (Insar.value (Insar.azi d)) 0 = Some NaN
    /\ nth_error (Insar.value (Insar.inc d)) 0 = Some NaN
    /\ nth_error (Insar.value (Insar.phase d)) 1
       = Some (@pixel Sample.runtime Sample.four_pixels 1)
    /\ nth_error (Insar.value (Insar.azi d)) 1
       = Some (of_Z (-180) - degrees (@pixel Sample.runtime Sample.four_pixels 1))%np.
Proof.
  destruct (@Insar.read_from_gamma Sample.runtime Sample.disk
              "s.par" "s.phase" "s.azi" "s.inc" "Sentinel-1" 1 Insar.init)
    as [self' o] eqn:E.
  assert (Hne : self' <> Insar.init).
  { vm_compute in E. inversion E. discriminate. }
  destruct (@co_masking Sample.runtime _ _ _ _ _ _ _ _ _ _ E Hne)
    as (d & l & w & h & F1 & F2 & F3 & idx & Ed & El & Ew & Eh & E1 & E2 & E3
        & Eidx & _ & _ & _ & Hall).
  exists d. split; [exact Ed|].
  assert (Ewh : w = 2 /\ h = 2).
  { vm_compute in El. inversion El; subst l. cbn in Ew, Eh.
    inversion Ew; inversion Eh. auto. }
  destruct Ewh as [-> ->].
  cbn in E1, E2, E3. inversion E1; inversion E2; inversion E3. subst F1 F2 F3.
  vm_compute in Eidx. inversion Eidx; subst idx.
  destruct (Hall 0%nat 0%nat eq_refl) as [Hz _].
  destruct (Hall 1%nat 1%nat eq_refl) as [_ Hnz].
  destruct (Hz eq_refl) as (Z1 & Z2 & Z3).
  destruct (Hnz eq_refl) as (N1 & N2 & _).
  repeat split; assumption.
Defined.

(** The raster of two samples on one line: the longitudes are 20 and
    20.5, the latitudes 10 and 10. *)
Lemma geocoding_alignment_witness :
  exists d : Insar.dataset,
    Insar.data (fst (@Insar.read_from_gamma Sample.runtime Sample.disk
                       "wide.par" "two.img" "two.img" "two.img" "Sentinel-1" 1
                       Insar.init))
    = Some d
    /\ map rational (Insar.value (Insar.lon d)) = [Some 20%Q; Some (41 # 2)%Q]
    /\ map rational (Insar.value (Insar.lat d)) = [Some 10%Q; Some 10%Q]
    /\ Insar.value (Insar.phase d)
       = map (fun k => masked (@pixel Sample.runtime (firstn 8 Sample.four_pixels) k)
                         (@pixel Sample.runtime (firstn 8 Sample.four_pixels) k))
           [0%nat; 1%nat]
    /\ Insar.value (Insar.los d)
       = map (fun k => los_of (c / Fin (Q2Qc (540500045433 # 100)))%np
                         (masked (@pixel Sample.runtime (firstn 8 Sample.four_pixels) k)
                            (@pixel Sample.runtime (firstn 8 Sample.four_pixels) k)))
           [0%nat; 1%nat]
    /\ Insar.value (Insar.x d) = Insar.value (Insar.lon d)
    /\ Insar.value (Insar.y d) = Insar.value (Insar.lat d).
Proof.
  destruct (@Insar.read_from_gamma Sample.runtime Sample.disk
              "wide.par" "two.img" "two.img" "two.img" "Sentinel-1" 1 Insar.init)
    as [self' o] eqn:E.
  assert (Hne : self' <> Insar.init).
  { vm_compute in E. inversion E. discriminate. }
  destruct (@geocoding_alignment Sample.runtime _ _ _ _ _ _ _ _ _ _ E Hne)
    as (d & l & w & h & F1 & F2 & F3 & cla & pla & clo & plo & idx & Ed & El & Ew & Eh
        & Ecla & Epla & Eclo & Eplo & E1 & E2 & E3 & Eidx & _ & Elon & Elat & Eph & _
        & _ & (f & Ef & Elos) & Exy).
  exists d. split; [exact Ed|].
  vm_compute in El. inversion El; subst l.
  cbn in Ew, Eh, Ecla, Epla, Eclo, Eplo.
  inversion Ew; inversion Eh; inversion Ecla; inversion Epla; inversion Eclo;
    inversion Eplo. subst w h cla pla clo plo.
  cbn in E1. inversion E1; subst F1.
  vm_compute in Eidx. inversion Eidx; subst idx.
  assert (Ef' : f = Fin (Q2Qc (540500045433 # 100))).
  { assert (Er : Insar.radar_freq "Sentinel-1" = Ret (Fin (Q2Qc (540500045433 # 100))))
      by reflexivity.
    congruence. }
  subst f.
  cbn [ll2xy Sample.runtime Sample.plate] in Exy. inversion Exy as [[Ex Ey]].
  rewrite Elos, Elon, Elat, Eph. repeat split; reflexivity.
Defined.

(** The sample file without its [ellipsoid_name] line. *)
Lemma read_from_gamma_without_ellipsoid_name_witness :
  open_r Sample.disk "no_ellipsoid.par" = Some Sample.par_lines_no_ellipsoid
  /\ (forall line, In line Sample.par_lines_no_ellipsoid ->
                   startswith line "ellipsoid_name:" = false)
  /\ snd (@Insar.read_from_gamma Sample.runtime Sample.disk
            "no_ellipsoid.par" "s.phase" "s.azi" "s.inc" "Sentinel-1" 1 Insar.init)
     = Raise UnboundLocalError
  /\ Insar.data_para
       (fst (@Insar.read_from_gamma Sample.runtime Sample.disk
               "no_ellipsoid.par" "s.phase" "s.azi" "s.inc" "Sentinel-1" 1 Insar.init))
     = None.
Proof.
  assert (Hs : forall line, In line Sample.par_lines_no_ellipsoid ->
                            startswith line "ellipsoid_name:" = false).
  { intros line Hl. vm_compute in Hl.
    repeat (destruct Hl as [<-|Hl]; [reflexivity|]). destruct Hl. }
  split; [reflexivity|]. split; [exact Hs|].
  destruct (@Insar.read_from_gamma Sample.runtime Sample.disk
              "no_ellipsoid.par" "s.phase" "s.azi" "s.inc" "Sentinel-1" 1 Insar.init)
    as [self' o] eqn:E.
  assert (Eo : open_r Sample.disk "no_ellipsoid.par"
               = Some Sample.par_lines_no_ellipsoid) by reflexivity.
  destruct (@read_from_gamma_without_ellipsoid_name Sample.runtime _ _ _ _ _ _ _ _ _ _ _
              Eo Hs E) as (Hp & _ & Hraise).
  cbn [fst snd]. split; [|exact Hp].
  destruct (@Insar.read_para Sample.runtime Sample.disk "no_ellipsoid.par")
    as [l|e] eqn:El; [|vm_compute in El; discriminate].
  destruct (@Insar.read_images Sample.runtime Sample.disk l
              "s.phase" "s.azi" "s.inc" "Sentinel-1" 1) as [d|e] eqn:Ed.
  - exact (proj1 (Hraise l d eq_refl Ed)).
  - vm_compute in El. inversion El; subst l. vm_compute in Ed. discriminate.
Defined.

Lemma raster_decode_failures_witness :
  @ParseFiles.get_image_data Sample.runtime Sample.disk "missing.phase"
    Sample.para_2x2 1
  = Ret None
  /\ @ParseFiles.get_image_data Sample.runtime Sample.disk "short.phase"
       Sample.para_2x2 1
     = Raise StructError
  /\ @Insar.read_from_gamma Sample.runtime Sample.disk
       "s.par" "missing.phase" "s.azi" "s.inc" "Sentinel-1" 1 Insar.init
     = (Insar.init, Ret tt)
  /\ @Insar.read_from_gamma Sample.runtime Sample.disk
       "s.par" "short.phase" "s.azi" "s.inc" "Sentinel-1" 1 Insar.init
     = (Insar.init, Raise StructError).
Proof.
  destruct (@raster_decode_failures Sample.runtime Sample.disk)
    as (Hopen & Hshort & Gopen & Gshort).
  destruct (@Insar.read_para Sample.runtime Sample.disk "s.par") as [l|e] eqn:El;
    [|vm_compute in El; discriminate].
  split; [|split; [|split]].
  - apply Hopen. reflexivity.
  - destruct (Hshort "short.phase"%string Sample.para_2x2 1
                (firstn 14 Sample.four_pixels)) as (Hs & _).
    + reflexivity.
    + cbn. lia.
    + eapply Hs. reflexivity.
  - apply (Gopen _ _ _ _ _ _ _ l El). left. reflexivity.
  - destruct (Gshort "s.par"%string "short.phase"%string "s.azi"%string
                "s.inc"%string "Sentinel-1"%string 1 Insar.init l 2 2
                (firstn 14 Sample.four_pixels) Sample.four_pixels
                Sample.four_pixels El) as (Gs & _).
    + vm_compute in El. inversion El. reflexivity.
    + vm_compute in El. inversion El. reflexivity.
    + reflexivity.
    + reflexivity.
    + reflexivity.
    + left. cbn. lia.
    + eapply Gs. reflexivity.
Defined.

(** * Further properties *)

(** ** The scan of the parameter file *)

Lemma prefix_cons (a : ascii) (s line : string) :
  String.prefix (String a s) line = true ->
  exists r, line = String a r /\ String.prefix s r = true.
Proof.
  destruct line as [|b r]; simpl; [discriminate|].
  destruct (ascii_dec a b) as [->|]; [|discriminate].
  intros E. exists r. auto.
Qed.

(** Peels the characters of a known prefix off a line until the goal,
    a test of another prefix, computes. *)
Ltac peel H :=
  repeat first
    [ reflexivity
    | let r := fresh "r" in
      apply prefix_cons in H; destruct H as (r & -> & H) ].

Lemma keys_exclusive (line k1 k2 : string) :
  In k1 required_keys -> In k2 required_keys -> k1 <> k2 ->
  startswith line k1 = true -> startswith line k2 = false.
Proof.
  unfold startswith, required_keys. intros H1 H2 Hne E.
  simpl in H1, H2.
  repeat (destruct H1 as [<-|H1]; [|]); try contradiction;
    repeat (destruct H2 as [<-|H2]; [|]); try contradiction;
    try congruence; peel E.
Qed.

Section ScanFacts.
Context `{Runtime}.

(** A line that does not start with [key] leaves the variable of [key]
    as it was. *)
Lemma scan_line_frame (key line : string) (l l' : ParseFiles.locals) :
  In key required_keys ->
  startswith line key = false ->
  ParseFiles.scan_line line l = Ret l' ->
  lookup key l' = lookup key l.
Proof.
  intros Hk Hs. unfold ParseFiles.scan_line.
  repeat match goal with
         | |- context [if startswith line ?k then _ else _] =>
             let E := fresh "E" in destruct (startswith line k) eqn:E
         end;
    intros El; try (bind_inv El); inversion El; subst; clear El; auto;
    simpl in Hk; intuition subst; try congruence; reflexivity.
Qed.

Lemma scan_frame (key : string) (lines : list string) (l l' : ParseFiles.locals) :
  In key required_keys ->
  (forall line, In line lines -> startswith line key = false) ->
  for_each lines ParseFiles.scan_line l = Ret l' ->
  lookup key l' = lookup key l.
Proof.
  intros Hk. revert l. induction lines as [|line lines IH]; intros l Hs E; simpl in E.
  - inversion E; reflexivity.
  - bind_inv E. rewrite (IH v); auto using in_cons.
    eapply scan_line_frame; eauto using in_eq.
Qed.

(** A line that starts with [key] binds the variable of [key] to the
    value read off the line. *)
Lemma scan_line_sets (key line : string) (l l' : ParseFiles.locals) :
  In key required_keys ->
  startswith line key = true ->
  ParseFiles.scan_line line l = Ret l' ->
  exists v, field key line = Ret v /\ lookup key l' = Some v.
Proof.
  intros Hk Hs El.
  assert (Hx : forall k, In k required_keys -> k <> key -> startswith line k = false).
  { intros k Hin Hne. apply (keys_exclusive line key k); auto. }
  unfold ParseFiles.scan_line in El. unfold required_keys in Hk, Hx. simpl in Hk.
  destruct Hk as [<-|[<-|[<-|[<-|[<-|[<-|[]]]]]]];
    repeat match type of El with
           | context [if startswith line ?k then _ else _] =>
               first [ rewrite Hs in El
                     | rewrite (Hx k) in El by (simpl; first [tauto | discriminate]) ]
           end;
    bind_inv El; inversion El; subst; clear El;
    unfold field; cbn [String.eqb Ascii.eqb Bool.eqb orb];
    match goal with
    | E : _ = Ret ?v |- _ => rewrite E
    end;
    eexists; split; reflexivity.
Qed.

End ScanFacts.

(** ** [get_image_para]: what it returns *)

Section ParaReturns.
Context `{Runtime}.

Lemma get_image_para_returns (fs : filesystem) (par_file : string)
    (p : ParseFiles.image_para) :
  ParseFiles.get_image_para fs par_file = Ret (Some p) ->
  exists lines l,
    open_r fs par_file = Some lines
    /\ for_each lines ParseFiles.scan_line ParseFiles.unbound = Ret l
    /\ ParseFiles.l_width l = Some (ParseFiles.width p)
    /\ ParseFiles.l_nlines l = Some (ParseFiles.nlines p)
    /\ ParseFiles.l_corner_lat l = Some (ParseFiles.corner_lat p)
    /\ ParseFiles.l_corner_lon l = Some (ParseFiles.corner_lon p)
    /\ ParseFiles.l_post_lat l = Some (ParseFiles.post_lat p)
    /\ ParseFiles.l_post_lon l = Some (ParseFiles.post_lon p)
    /\ ParseFiles.post_arc p = (ParseFiles.post_lon p * of_Z 3600)%np
    /\ ParseFiles.post_utm p
       = (ParseFiles.post_arc p * of_Z 40075017 / of_Z 360 / of_Z 3600)%np.
Proof.
  unfold ParseFiles.get_image_para. intros E. apply try_except_some in E.
  bind_as E lines Eo. bind_as E l El.
  bind_as E post_lon E1. bind_as E width E2. bind_as E nlines E3.
  bind_as E corner_lat E4. bind_as E corner_lon E5. bind_as E post_lat E6.
  apply py_open_ret_inv in Eo. apply load_ret_inv in E1, E2, E3, E4, E5, E6.
  inversion E; subst p; clear E. cbn.
  exists lines, l. repeat split; assumption.
Qed.

Lemma lookup_entry (key : string) (l : ParseFiles.locals) (p : ParseFiles.image_para) :
  In key required_keys ->
  ParseFiles.l_width l = Some (ParseFiles.width p) ->
  ParseFiles.l_nlines l = Some (ParseFiles.nlines p) ->
  ParseFiles.l_corner_lat l = Some (ParseFiles.corner_lat p) ->
  ParseFiles.l_corner_lon l = Some (ParseFiles.corner_lon p) ->
  ParseFiles.l_post_lat l = Some (ParseFiles.post_lat p) ->
  ParseFiles.l_post_lon l = Some (ParseFiles.post_lon p) ->
  lookup key l = entry key p.
Proof.
  intros Hk E1 E2 E3 E4 E5 E6. unfold required_keys in Hk. simpl in Hk.
  destruct Hk as [<-|[<-|[<-|[<-|[<-|[<-|[]]]]]]];
    unfold lookup, entry; cbn [String.eqb Ascii.eqb Bool.eqb];
    rewrite ?E1, ?E2, ?E3, ?E4, ?E5, ?E6; reflexivity.
Qed.

(** X1. When a key occurs on several lines of the parameter file, the
    value that [get_image_para] returns for it is the one read off the
    last of these lines. *)
Theorem last_value_wins :
  forall (fs : filesystem) (par_file key line : string) (pre post : list string)
         (p : ParseFiles.image_para),
    open_r fs par_file = Some (pre ++ line :: post) ->
    In key required_keys ->
    startswith line key = true ->
    (forall later, In later post -> startswith later key = false) ->
    ParseFiles.get_image_para fs par_file = Ret (Some p) ->
    exists v, field key line = Ret v /\ entry key p = Some v.
Proof.
  intros fs par_file key line pre post p Eo Hk Hs Hpost E.
  apply get_image_para_returns in E.
  destruct E as (lines & l & Eo' & El & E1 & E2 & E3 & E4 & E5 & E6 & _).
  rewrite Eo in Eo'. inversion Eo'; subst lines; clear Eo'.
  rewrite for_each_app in El. bind_as El l0 Epre.
  cbn [for_each] in El. bind_as El l1 Eline.
  destruct (scan_line_sets key line l0 l1 Hk Hs Eline) as (v & Ev & Hv).
  exists v. split; [assumption|].
  rewrite <- (lookup_entry key l p) by assumption.
  rewrite (scan_frame key post l1 l) by assumption. exact Hv.
Qed.

Lemma scan_line_other (line : string) (l : ParseFiles.locals) :
  is_key_line line = false -> ParseFiles.scan_line line l = Ret l.
Proof.
  unfold is_key_line, required_keys. cbn [existsb]. intros E.
  repeat (apply orb_false_elim in E; destruct E as [? E]).
  unfold ParseFiles.scan_line.
  repeat match goal with
         | Hs : startswith line ?k = false |- _ => rewrite Hs; clear Hs
         end.
  reflexivity.
Qed.

Lemma scan_filter (lines : list string) (l : ParseFiles.locals) :
  for_each (filter is_key_line lines) ParseFiles.scan_line l
  = for_each lines ParseFiles.scan_line l.
Proof.
  revert l. induction lines as [|line lines IH]; intros l; [reflexivity|].
  cbn [filter]. destruct (is_key_line line) eqn:Ek; cbn [for_each].
  - destruct (ParseFiles.scan_line line l); cbn [bind]; auto.
  - rewrite scan_line_other by assumption. cbn [bind]. apply IH.
Qed.

(** X2. [get_image_para] looks only at the lines that start with one of
    its six keys: a file and the file stripped of every other line give
    the same result, be it a list, [None] or an exception. *)
Theorem other_lines_are_ignored :
  forall (fs fs' : filesystem) (par_file par_file' : string) (lines : list string),
    open_r fs par_file = Some lines ->
    open_r fs' par_file' = Some (filter is_key_line lines) ->
    ParseFiles.get_image_para fs' par_file' = ParseFiles.get_image_para fs par_file.
Proof.
  intros fs fs' par_file par_file' lines E E'.
  unfold ParseFiles.get_image_para. rewrite E, E'. cbn [py_open bind].
  rewrite scan_filter. reflexivity.
Qed.

End ParaReturns.

(** ** The two scans of the parameter file *)

Section TwoScans.
Context `{Runtime}.

Lemma insar_scan_line_raise (line : string) (l : Insar.locals) (e : exn) :
  Insar.scan_line line l = Raise e -> e = ValueError \/ e = IndexError.
Proof.
  unfold Insar.scan_line.
  repeat match goal with
         | |- context [if startswith line ?k then _ else _] =>
             destruct (startswith line k)
         end;
    intros E; try discriminate;
    apply bind_raise_inv in E; destruct E as [E|(v & _ & E)]; try discriminate;
    try (change (Insar.int_field line) with (ParseFiles.int_field line) in E);
    try (change (Insar.float_field line) with (ParseFiles.float_field line) in E);
    eauto using int_field_raise, float_field_raise.
  unfold Insar.str_field in E.
  apply bind_raise_inv in E. destruct E as [E|(s & _ & E)]; [|discriminate].
  right. eapply getitem_raise; eassumption.
Qed.

Lemma insar_scan_raise (lines : list string) (l : Insar.locals) (e : exn) :
  for_each lines Insar.scan_line l = Raise e -> e = ValueError \/ e = IndexError.
Proof.
  revert l. induction lines as [|line lines IH]; intros l; simpl; [discriminate|].
  intros E. apply bind_raise_inv in E. destruct E as [E|(l' & _ & E)].
  - eapply insar_scan_line_raise; eassumption.
  - eapply IH; eassumption.
Qed.

Lemma scan_lines_agree (line : string) (lp lp' : ParseFiles.locals)
    (li li' : Insar.locals) :
  ParseFiles.scan_line line lp = Ret lp' ->
  Insar.scan_line line li = Ret li' ->
  same_six lp li -> same_six lp' li'.
Proof.
  unfold ParseFiles.scan_line, Insar.scan_line, same_six.
  change (Insar.int_field line) with (ParseFiles.int_field line).
  change (Insar.float_field line) with (ParseFiles.float_field line).
  repeat match goal with
         | |- context [if startswith line ?k then _ else _] =>
             destruct (startswith line k)
         end;
    intros Ep Ei (S1 & S2 & S3 & S4 & S5 & S6);
    try (bind_inv Ep); try (bind_inv Ei);
    inversion Ep; inversion Ei; subst; clear Ep Ei; cbn;
    repeat split; congruence.
Qed.

Lemma scans_agree (lines : list string) (lp lp' : ParseFiles.locals)
    (li li' : Insar.locals) :
  for_each lines ParseFiles.scan_line lp = Ret lp' ->
  for_each lines Insar.scan_line li = Ret li' ->
  same_six lp li -> same_six lp' li'.
Proof.
  revert lp li. induction lines as [|line lines IH]; intros lp li Ep Ei Hs;
    simpl in Ep, Ei.
  - inversion Ep; inversion Ei; subst; assumption.
  - bind_as Ep lp1 Ep1. bind_as Ei li1 Ei1.
    apply (IH lp1 li1); auto. eapply scan_lines_agree; eauto.
Qed.

Lemma read_para_returns (fs : filesystem) (para_file : string)
    (lines : list string) (l : Insar.locals) :
  open_r fs para_file = Some lines ->
  Insar.read_para fs para_file = Ret l ->
  for_each lines Insar.scan_line Insar.unbound = Ret l
  /\ Insar.post_lon l <> None
  /\ Insar.range_samples l <> None
  /\ Insar.azimuth_lines l <> None.
Proof.
  intros Eo. unfold Insar.read_para, try_except_IOError. rewrite Eo.
  cbn [py_open bind].
  destruct (for_each lines Insar.scan_line Insar.unbound) as [l0|e] eqn:Es; cbn [bind].
  - destruct (Insar.post_lon l0) eqn:E1, (Insar.range_samples l0) eqn:E2,
      (Insar.azimuth_lines l0) eqn:E3;
      cbn; intros E; inversion E; subst; clear E.
    rewrite E1, E2, E3. repeat split; discriminate.
  - destruct (insar_scan_raise _ _ _ Es) as [-> | ->]; cbn; discriminate.
Qed.

(** X3. The scan inside [read_from_gamma] and [get_image_para] read the
    same geometry off the same file: when both accept it, the six
    variables of the former hold the six entries that the latter
    returns. *)
Theorem the_two_scans_agree :
  forall (fs : filesystem) (par_file : string)
         (p : ParseFiles.image_para) (l : Insar.locals),
    ParseFiles.get_image_para fs par_file = Ret (Some p) ->
    Insar.read_para fs par_file = Ret l ->
    Insar.range_samples l = Some (ParseFiles.width p)
    /\ Insar.azimuth_lines l = Some (ParseFiles.nlines p)
    /\ Insar.corner_lat l = Some (ParseFiles.corner_lat p)
    /\ Insar.corner_lon l = Some (ParseFiles.corner_lon p)
    /\ Insar.post_lat l = Some (ParseFiles.post_lat p)
    /\ Insar.post_lon l = Some (ParseFiles.post_lon p).
Proof.
  intros fs par_file p l Ep Ei.
  apply get_image_para_returns in Ep.
  destruct Ep as (lines & lp & Eo & Elp & E1 & E2 & E3 & E4 & E5 & E6 & _).
  destruct (read_para_returns _ _ _ _ Eo Ei) as (Eli & _).
  assert (Hs : same_six lp l).
  { eapply scans_agree; eauto. repeat split. }
  destruct Hs as (S1 & S2 & S3 & S4 & S5 & S6).
  repeat split; congruence.
Qed.

End TwoScans.

(** ** [get_image_data]: the raster and the parameter list *)

Section RasterProperties.
Context `{Runtime}.

(** X4. With factor 1, [get_image_data] returns the parameter list it
    was given and an array of two dimensions, of [width] rows and
    [nlines] columns, whose entry [[j][i]] is pixel number
    [i * width + j] of the file: the raster is transposed with respect
    to the order in the file. *)
Theorem raster_is_the_transposed_file :
  forall (fs : filesystem) (image_file : string)
         (parameters : ParseFiles.image_para)
         (F : list byte) (img : nparray) (p' : ParseFiles.image_para),
    open_rb fs image_file = Some F ->
    ParseFiles.get_image_data fs image_file parameters 1 = Ret (Some (img, p')) ->
    p' = parameters
    /\ exists a : ndarray,
        img = Array2 a
        /\ shape a (Z.to_nat (ParseFiles.width parameters))
             (Z.to_nat (ParseFiles.nlines parameters))
        /\ forall j i,
            (j < Z.to_nat (ParseFiles.width parameters))%nat ->
            (i < Z.to_nat (ParseFiles.nlines parameters))%nat ->
            item a j i
            = pixel F (i * Z.to_nat (ParseFiles.width parameters) + j)%nat.
Proof.
  intros fs image_file parameters F img p' Eo E.
  destruct (get_image_data_decoded _ _ _ _ _ _ _ Eo E) as (a & Hs & Hv & H1 & _).
  apply get_image_data_returns in E.
  destruct E as [(_ & -> & _)|(Hf & _)]; [|contradiction].
  split; [reflexivity|]. exists a. rewrite (H1 eq_refl). auto.
Qed.

(** X5. With another factor, the grid that [get_image_data] returns is
    the surface that [interp2d] fitted to the decoded raster, taken at
    every [factor]-th sample and line from the first one.  A grid of
    several rows has at [[r][c]] the surface at the node
    [(c * factor, r * factor)]; a grid of one row, which a raster no
    wider than the factor gives, comes back as that row, an array of
    one dimension with the surface at [(c * factor, 0)] in entry [c]. *)
Theorem resampled_grid_samples_the_surface :
  forall (fs : filesystem) (image_file : string)
         (parameters : ParseFiles.image_para) (resample_factor : Z)
         (F : list byte) (img : nparray) (p' : ParseFiles.image_para),
    open_rb fs image_file = Some F ->
    resample_factor <> 1 ->
    ParseFiles.get_image_data fs image_file parameters resample_factor
    = Ret (Some (img, p')) ->
    exists (a : ndarray) (g : Z -> Z -> npfloat),
      (forall j i,
          (j < Z.to_nat (ParseFiles.width parameters))%nat ->
          (i < Z.to_nat (ParseFiles.nlines parameters))%nat ->
          item a j i
          = pixel F (i * Z.to_nat (ParseFiles.width parameters) + j)%nat)
      /\ interp2d
           (map (fun k => Z.of_nat k * 1)
              (seq 0 (arange_len (ParseFiles.nlines parameters) 1)))
           (map (fun k => Z.of_nat k * 1)
              (seq 0 (arange_len (ParseFiles.width parameters) 1)))
           a = Ret g
      /\ match img with
         | Array2 grid =>
             (2 <= arange_len (ParseFiles.width parameters) resample_factor)%nat
             /\ forall r c,
                 (r < arange_len (ParseFiles.width parameters) resample_factor)%nat ->
                 (c < arange_len (ParseFiles.nlines parameters) resample_factor)%nat ->
                 item grid r c
                 = g (Z.of_nat c * resample_factor) (Z.of_nat r * resample_factor)
         | Array1 row =>
             arange_len (ParseFiles.width parameters) resample_factor = 1%nat
             /\ length row
                = arange_len (ParseFiles.nlines parameters) resample_factor
             /\ forall c,
                 (c < arange_len (ParseFiles.nlines parameters) resample_factor)%nat ->
                 nth c row NaN = g (Z.of_nat c * resample_factor) 0
         end.
Proof.
  intros fs image_file parameters resample_factor F img p' Eo Hf E.
  destruct (get_image_data_decoded _ _ _ _ _ _ _ Eo E) as (a & Hs & Hv & _ & Hg).
  destruct (Hg Hf) as (g & Eg & Ecall).
  exists a, g. split; [assumption|]. split; [assumption|].
  apply call_interp_ret in Ecall. destruct Ecall as (Hx & Hy & H1 & H2).
  rewrite length_map, length_seq in H1, H2.
  destruct (Nat.eq_dec (arange_len (ParseFiles.width parameters) resample_factor) 1)
    as [E1|E1].
  - rewrite (H1 E1). split; [assumption|].
    split; [rewrite !length_map, length_seq; reflexivity|].
    intros c Hc.
    rewrite (nth_map_any _ _ c NaN 0) by (rewrite length_map, length_seq; assumption).
    rewrite (nth_map_any _ _ c 0 O) by (rewrite length_seq; assumption).
    rewrite seq_nth by assumption. rewrite E1. reflexivity.
  - rewrite (H2 E1). split.
    + destruct (arange_len (ParseFiles.width parameters) resample_factor) as [|[|n]];
        [contradiction Hy; reflexivity|contradiction|lia].
    + intros r c Hr Hc. unfold item.
      rewrite (nth_map_any _ _ r [] 0) by (rewrite length_map, length_seq; assumption).
      rewrite (nth_map_any _ _ c NaN 0) by (rewrite length_map, length_seq; assumption).
      rewrite (nth_map_any _ _ r 0 O) by (rewrite length_seq; assumption).
      rewrite (nth_map_any _ _ c 0 O) by (rewrite length_seq; assumption).
      rewrite !seq_nth by assumption. reflexivity.
Qed.

(** X7. For a factor above 1, a raster wider than the factor gives a
    grid of two dimensions, with the reported number of rows when the
    factor divides [width] and one more otherwise; a raster no wider
    than the factor gives an array of one dimension.  In both the number
    of entries along the other axis is the reported [nlines] when the
    factor divides [nlines], and one more otherwise. *)
Theorem grid_dimensions :
  forall (fs : filesystem) (image_file : string)
         (parameters : ParseFiles.image_para) (resample_factor : Z)
         (img : nparray) (p' : ParseFiles.image_para),
    1 < resample_factor ->
    ParseFiles.get_image_data fs image_file parameters resample_factor
    = Ret (Some (img, p')) ->
    match img with
    | Array2 a =>
        resample_factor < ParseFiles.width parameters
        /\ Z.of_nat (length a)
           = ParseFiles.width p'
             + (if ParseFiles.width parameters mod resample_factor =? 0 then 0 else 1)
        /\ Forall (fun row : list npfloat =>
                     Z.of_nat (length row)
                     = ParseFiles.nlines p'
                       + (if ParseFiles.nlines parameters mod resample_factor =? 0
                          then 0 else 1)) a
    | Array1 v =>
        0 < ParseFiles.width parameters <= resample_factor
        /\ Z.of_nat (length v)
           = ParseFiles.nlines p'
             + (if ParseFiles.nlines parameters mod resample_factor =? 0
                then 0 else 1)
    end.
Proof.
  intros fs image_file parameters resample_factor img p' Hf E.
  assert (Hne : resample_factor <> 1) by lia.
  destruct (get_image_data_dims _ _ _ _ _ _ E) as [a0 Ez].
  destruct (zeros_nonneg _ _ _ Ez) as [Hw Hh].
  destruct (get_image_data_resampled _ _ _ _ _ _ Hne E)
    as (Ew & Eh & _ & _ & _ & Himg).
  rewrite Ew, Eh.
  pose proof (arange_len_ceil (ParseFiles.width parameters) resample_factor
                Hw ltac:(lia)) as Cw.
  pose proof (arange_len_ceil (ParseFiles.nlines parameters) resample_factor
                Hh ltac:(lia)) as Ch.
  assert (Dw : ParseFiles.width parameters
               = resample_factor * (ParseFiles.width parameters / resample_factor)
                 + ParseFiles.width parameters mod resample_factor)
    by (apply Z.div_mod; lia).
  pose proof (Z.mod_pos_bound (ParseFiles.width parameters) resample_factor
                ltac:(lia)) as Mw.
  assert (Qw : 0 <= ParseFiles.width parameters / resample_factor)
    by (apply Z.div_pos; lia).
  destruct img as [v|a].
  - destruct Himg as [L1 Lv]. split.
    + rewrite L1 in Cw.
      destruct (Z.eqb_spec (ParseFiles.width parameters mod resample_factor) 0); nia.
    + rewrite Lv. exact Ch.
  - destruct Himg as [[Ll Hr] L2]. split; [|split].
    + destruct (Z.eqb_spec (ParseFiles.width parameters mod resample_factor) 0); nia.
    + rewrite Ll. exact Cw.
    + eapply Forall_impl; [|exact Hr]. cbn. intros row ->. exact Ch.
Qed.

(** X8. Inputs at the edge.  A negative [width] or [nlines] makes
    [get_image_data] raise [ValueError] once the file is open; factor 0
    makes it raise [ZeroDivisionError] after the raster has been read;
    with a negative factor no call returns a raster. *)
Theorem get_image_data_edge_inputs :
  forall (fs : filesystem) (image_file : string)
         (parameters : ParseFiles.image_para) (F : list byte),
    open_rb fs image_file = Some F ->
    (forall resample_factor,
        ParseFiles.width parameters < 0 \/ ParseFiles.nlines parameters < 0 ->
        ParseFiles.get_image_data fs image_file parameters resample_factor
        = Raise ValueError)
    /\ (forall a0,
           np_zeros (ParseFiles.width parameters) (ParseFiles.nlines parameters)
           = Ret a0 ->
           ParseFiles.width parameters * ParseFiles.nlines parameters * 4
           <= Z.of_nat (length F) ->
           ParseFiles.get_image_data fs image_file parameters 0
           = Raise ZeroDivisionError)
    /\ (forall resample_factor img p',
           resample_factor < 0 ->
           ParseFiles.get_image_data fs image_file parameters resample_factor
           <> Ret (Some (img, p'))).
Proof.
  intros fs image_file parameters F Eo. split; [|split].
  - intros resample_factor Hn.
    apply (get_image_data_no_array _ _ _ _ F); [assumption|].
    apply np_zeros_negative. assumption.
  - intros a0 Ez Hl. unfold ParseFiles.get_image_data. rewrite Eo.
    cbn [py_open bind]. rewrite Ez. cbn [bind]. unfold range.
    destruct (zeros_nonneg _ _ _ Ez) as [Hw Hh].
    destruct (read_raster (Z.to_nat (ParseFiles.width parameters))
                (Z.to_nat (ParseFiles.nlines parameters)) 0 F a0) as [Hok _].
    destruct Hok as [a' Ea]; [nia|]. rewrite Ea. reflexivity.
  - intros resample_factor img p' Hf E.
    destruct (get_image_data_dims _ _ _ _ _ _ E) as [a0 Ez].
    destruct (zeros_nonneg _ _ _ Ez) as [Hw Hh].
    assert (Hne : resample_factor <> 1) by lia.
    destruct (get_image_data_resampled _ _ _ _ _ _ Hne E)
      as (_ & _ & _ & _ & Lx & _).
    rewrite arange_len_backwards in Lx by assumption. lia.
Qed.

End RasterProperties.

(** ** Decimation *)

Section Decimation.
Local Open Scope nat_scope.

Lemma every_nth_error {A : Type} (step skip k : nat) (l : list A) :
  0 < step ->
  nth_error (every step skip l) k = nth_error l (skip + k * step).
Proof.
  intros Hs. revert skip k. induction l as [|a l IH]; intros skip k.
  - cbn [every]. destruct k, (skip + _); reflexivity.
  - destruct skip as [|s]; cbn [every].
    + destruct k as [|k]; [reflexivity|].
      cbn [nth_error]. rewrite IH.
      replace (0 + S k * step) with (S (Nat.pred step + k * step)) by lia.
      reflexivity.
    + rewrite IH. reflexivity.
Qed.

Lemma every_length {A : Type} (step : nat) (l : list A) :
  0 < step ->
  length (every step 0 l) = (length l + step - 1) / step.
Proof.
  intros Hs.
  set (m := length (every step 0 l)).
  assert (Hin : forall k, k < m -> k * step < length l).
  { intros k Hk. apply nth_error_Some.
    pose proof (every_nth_error step 0 k l Hs) as E. cbn [Nat.add] in E.
    rewrite <- E. apply nth_error_Some. exact Hk. }
  assert (Hout : length l <= m * step).
  { apply nth_error_None.
    pose proof (every_nth_error step 0 m l Hs) as E. cbn [Nat.add] in E.
    rewrite <- E. apply nth_error_None. lia. }
  destruct m as [|m'].
  - symmetry. apply Nat.div_small. lia.
  - specialize (Hin m' ltac:(lia)).
    apply (Nat.div_unique _ _ _ (length l + step - 1 - S m' * step)); lia.
Qed.

Lemma rev_seq_nth_error (n j : nat) :
  j < n -> nth_error (rev (seq 0 n)) j = Some (n - 1 - j).
Proof.
  intros Hj.
  rewrite nth_error_rev. rewrite length_seq.
  destruct (Nat.ltb_spec j n) as [_|]; [|lia].
  rewrite (nth_error_nth' _ 0) by (rewrite length_seq; lia).
  rewrite seq_nth by lia. f_equal. lia.
Qed.

Lemma seq_nth_error (n k : nat) :
  nth_error (seq 0 n) k = if k <? n then Some k else None.
Proof.
  destruct (Nat.ltb_spec k n) as [Hk|Hk].
  - rewrite (nth_error_nth' _ 0) by (rewrite length_seq; assumption).
    rewrite seq_nth by assumption. reflexivity.
  - apply nth_error_None. rewrite length_seq. assumption.
Qed.

Lemma ceil_bounds (n s k : nat) :
  0 < s -> (k < (n + s - 1) / s <-> k * s < n).
Proof.
  intros Hs.
  pose proof (Nat.div_mod_eq (n + s - 1) s) as Hd.
  pose proof (Nat.mod_upper_bound (n + s - 1) s ltac:(lia)) as Hm.
  split; intros Hk; nia.
Qed.

(** The pixels kept by [[::step]] out of [n]. *)
Lemma slice_seq (n : nat) (step : Z) :
  step <> 0%Z ->
  slice_step (seq 0 n) step
  = Ret (map (slice_pixel n step) (seq 0 (slice_len n step))).
Proof.
  intros Hs. unfold slice_step, slice_len, slice_pixel.
  destruct (Z.eqb_spec step 0); [contradiction|].
  destruct (Z.ltb_spec 0 step) as [Hp|Hp]; f_equal.
  - replace (Z.to_nat (Z.abs step)) with (Z.to_nat step) by lia.
    assert (Hpos : 0 < Z.to_nat step) by lia.
    set (s := Z.to_nat step) in *.
    apply nth_error_ext. intros k.
    rewrite every_nth_error by assumption. cbn [Nat.add].
    rewrite nth_error_map, !seq_nth_error.
    pose proof (ceil_bounds n s k Hpos) as Hc.
    destruct (Nat.ltb_spec k ((n + s - 1) / s)), (Nat.ltb_spec (k * s) n);
      try reflexivity; lia.
  - replace (Z.to_nat (Z.abs step)) with (Z.to_nat (- step)) by lia.
    assert (Hpos : 0 < Z.to_nat (- step)) by lia.
    set (s := Z.to_nat (- step)) in *.
    apply nth_error_ext. intros k.
    rewrite every_nth_error by assumption. cbn [Nat.add].
    rewrite nth_error_map, seq_nth_error.
    pose proof (ceil_bounds n s k Hpos) as Hc.
    destruct (Nat.ltb_spec k ((n + s - 1) / s)) as [Hk|Hk]; cbn [option_map].
    + apply rev_seq_nth_error. lia.
    + apply nth_error_None. rewrite length_rev, length_seq. lia.
Qed.

End Decimation.

(** ** [read_from_gamma]: when it completes and when it does not *)

Lemma slice_step_length {A : Type} (l : list A) (step : Z) (r : list A) :
  slice_step l step = Ret r -> length r = slice_len (length l) step.
Proof.
  unfold slice_step, slice_len.
  destruct (Z.eqb_spec step 0); [discriminate|].
  destruct (Z.ltb_spec 0 step); intros E; inversion E; subst; clear E.
  - replace (Z.to_nat (Z.abs step)) with (Z.to_nat step) by lia.
    apply every_length. lia.
  - replace (Z.to_nat (Z.abs step)) with (Z.to_nat (- step)) by lia.
    rewrite every_length by lia. rewrite length_rev. reflexivity.
Qed.

Lemma meshgrid_lengths (xs ys : list npfloat) :
  length (reshape_column (fst (meshgrid xs ys)))
  = length (reshape_column (snd (meshgrid xs ys))).
Proof.
  unfold reshape_column, meshgrid. cbn [fst snd].
  induction ys as [|y ys IH]; [reflexivity|].
  cbn [map concat]. rewrite !length_app, length_map, IH. reflexivity.
Qed.

Section Completion.
Context `{Runtime}.

(** The part of [read_images] up to the end of the two loops. *)
Lemma read_images_decodes (w h : Z) (F1 F2 F3 : list byte) (a0 : ndarray) :
  np_zeros w h = Ret a0 ->
  w * h * 4 <= Z.of_nat (length F1) ->
  w * h * 4 <= Z.of_nat (length F2) ->
  w * h * 4 <= Z.of_nat (length F3) ->
  exists st,
    for_each (range h)
      (fun i => for_each (range w) (fun j => Insar.read_pixels j i))
      {| Insar.f1 := F1; Insar.f2 := F2; Insar.f3 := F3;
         Insar.im_phase := a0; Insar.im_azimuth := a0;
         Insar.im_incidence := a0 |} = Ret st.
Proof.
  intros Ez L1 L2 L3.
  destruct (zeros_nonneg _ _ _ Ez) as [Hw Hh]. unfold range.
  destruct (read_raster3 (Z.to_nat w) (Z.to_nat h) 0
              {| Insar.f1 := F1; Insar.f2 := F2; Insar.f3 := F3;
                 Insar.im_phase := a0; Insar.im_azimuth := a0;
                 Insar.im_incidence := a0 |}) as [Hok _].
  apply Hok. unfold holds; cbn; nia.
Qed.

(** Every step of [read_images] goes through under these conditions. *)
Lemma read_images_total (fs : filesystem) (l : Insar.locals)
    (phase_file azi_file inc_file satellite : string) (downsample : Z)
    (w h : Z) (F1 F2 F3 : list byte) (a0 : ndarray)
    (cla pla clo plo f : npfloat) :
  open_rb fs phase_file = Some F1 ->
  open_rb fs azi_file = Some F2 ->
  open_rb fs inc_file = Some F3 ->
  Insar.range_samples l = Some w -> Insar.azimuth_lines l = Some h ->
  Insar.corner_lat l = Some cla -> Insar.post_lat l = Some pla ->
  Insar.corner_lon l = Some clo -> Insar.post_lon l = Some plo ->
  np_zeros w h = Ret a0 ->
  w * h * 4 <= Z.of_nat (length F1) ->
  w * h * 4 <= Z.of_nat (length F2) ->
  w * h * 4 <= Z.of_nat (length F3) ->
  downsample <> 0 ->
  Insar.radar_freq satellite = Ret f ->
  (forall lons lats,
      length lons = length lats -> exists xy, ll2xy lons lats = Ret xy) ->
  exists d,
    Insar.read_images fs l phase_file azi_file inc_file satellite downsample = Ret d.
Proof.
  intros E1 E2 E3 Ew Eh Ecla Epla Eclo Eplo Ez L1 L2 L3 Hd Hf Hxy.
  destruct (read_images_decodes w h F1 F2 F3 a0 Ez L1 L2 L3) as (st & Est).
  destruct (zeros_nonneg _ _ _ Ez) as [Hw Hh].
  unfold Insar.read_images.
  rewrite E1, E2, E3, Ew, Eh. cbn [py_open load bind].
  rewrite Ez. cbn [bind]. rewrite Est. cbn [bind].
  destruct (Z.eqb_spec downsample 0); [contradiction|]. cbn [bind].
  repeat match goal with
         | |- context [slice_step (reshape_column (transpose ?x)) downsample] =>
             let idx := fresh "idx" in
             let E := fresh "E" in
             destruct (slice_step_total (reshape_column (transpose x)) downsample Hd)
               as [idx E];
             rewrite E; cbn [bind]
         | |- context [Insar.phase2los ?x satellite] =>
             rewrite (phase2los_elementwise satellite f x Hf); cbn [bind]
         | |- context [load (Insar.corner_lat l)] => rewrite Ecla; cbn [load bind]
         | |- context [load (Insar.post_lat l)] => rewrite Epla; cbn [load bind]
         | |- context [load (Insar.corner_lon l)] => rewrite Eclo; cbn [load bind]
         | |- context [load (Insar.post_lon l)] => rewrite Eplo; cbn [load bind]
         | |- context [linspace ?a ?b ?n] =>
             let ls := fresh "ls" in
             let E := fresh "E" in
             destruct (linspace_total a b n ltac:(assumption)) as [ls E];
             rewrite E; cbn [bind]
         end.
  match goal with
  | |- context [meshgrid ?xs ?ys] =>
      pose proof (meshgrid_lengths xs ys) as Lm;
      destruct (meshgrid xs ys) as [Lons0 Lats0]
  end.
  cbn [fst snd] in Lm.
  destruct (slice_step_total (reshape_column Lons0) downsample Hd) as [Lons ELons].
  destruct (slice_step_total (reshape_column Lats0) downsample Hd) as [Lats ELats].
  rewrite ELons, ELats. cbn [bind].
  apply slice_step_length in ELons, ELats.
  destruct (Hxy Lons Lats ltac:(congruence)) as [[utm_x utm_y] Exy].
  rewrite Exy. cbn [bind]. eexists. reflexivity.
Qed.

End Completion.

Section Calls.
Context `{Runtime}.


(** X10. Decimation.  In a dataset that [read_from_gamma] has stored,
    for a raster of [n = nlines * width] pixels, the channels lon, lat,
    phase, los, azi and inc all have [ceil(n / |downsample|)] rows;
    row [k] stands for pixel [k * downsample] when [downsample] is
    positive and for pixel [n - 1 - k * |downsample|] when it is
    negative, so that row 0 is the first pixel in one case and the last
    in the other. *)
Theorem decimation :
  forall (fs : filesystem)
         (para_file phase_file azi_file inc_file satellite : string) (downsample : Z)
         (self self' : Insar.InSAR) (o : outcome unit),
    Insar.read_from_gamma fs para_file phase_file azi_file inc_file satellite
      downsample self = (self', o) ->
    self' <> self ->
    exists (d : Insar.dataset) (l : Insar.locals) (w h : Z) (F1 : list byte)
           (cla pla clo plo : npfloat),
      Insar.data self' = Some d
      /\ Insar.read_para fs para_file = Ret l
      /\ Insar.range_samples l = Some w /\ Insar.azimuth_lines l = Some h
      /\ Insar.corner_lat l = Some cla /\ Insar.post_lat l = Some pla
      /\ Insar.corner_lon l = Some clo /\ Insar.post_lon l = Some plo
      /\ open_rb fs phase_file = Some F1
      /\ let n := (Z.to_nat h * Z.to_nat w)%nat in
         let rows := slice_len n downsample in
         length (Insar.value (Insar.lon d)) = rows
         /\ length (Insar.value (Insar.lat d)) = rows
         /\ length (Insar.value (Insar.phase d)) = rows
         /\ length (Insar.value (Insar.los d)) = rows
         /\ length (Insar.value (Insar.azi d)) = rows
         /\ length (Insar.value (Insar.inc d)) = rows
         /\ forall k, (k < rows)%nat ->
              let px := slice_pixel n downsample k in
              (px < n)%nat
              /\ nth_error (Insar.value (Insar.phase d)) k
                 = Some (masked (pixel F1 px) (pixel F1 px))
              /\ nth_error (Insar.value (Insar.lon d)) k
                 = Some (clo + of_Z (Z.of_nat (px mod Z.to_nat w)) * plo)%np
              /\ nth_error (Insar.value (Insar.lat d)) k
                 = Some (cla + of_Z (Z.of_nat (px / Z.to_nat w)) * pla)%np.
Proof.
  intros fs para_file phase_file azi_file inc_file satellite downsample
    self self' o E Hne.
  destruct (read_from_gamma_stored _ _ _ _ _ _ _ _ _ _ E Hne) as (l & d & El & Ed & Es).
  apply read_images_returns in Ed.
  destruct Ed as (w & h & F1 & F2 & F3 & cla & pla & clo & plo & idx & Ew & Eh & _ & _
                  & E1 & _ & _ & Ecla & Epla & Eclo & Eplo & Eidx & Eph & Elos
                  & Eaz & Einc & Elon & Elat & _).
  assert (Hd : downsample <> 0).
  { intros ->. discriminate. }
  rewrite slice_seq in Eidx by assumption. inversion Eidx; subst idx; clear Eidx.
  destruct (phase2los_ret_inv _ _ _ Elos) as [f Hf].
  rewrite (phase2los_elementwise _ f _ Hf) in Elos.
  assert (Elos' : Insar.value (Insar.los d)
                  = map (los_of (c / f)%np) (Insar.value (Insar.phase d)))
    by congruence.
  exists d, l, w, h, F1, cla, pla, clo, plo.
  repeat (split; [assumption|]).
  cbn zeta. rewrite Elos', Elon, Elat, Eph, Eaz, Einc.
  rewrite !length_map, length_seq.
  repeat (split; [reflexivity|]).
  intros k Hk. rewrite !nth_error_map, seq_nth_error.
  destruct (Nat.ltb_spec k (slice_len (Z.to_nat h * Z.to_nat w) downsample)); [|lia].
  cbn [option_map]. split; [|repeat split; reflexivity].
  unfold slice_pixel, slice_len in *.
  destruct (Z.ltb_spec 0 downsample).
  - replace (Z.to_nat (Z.abs downsample)) with (Z.to_nat downsample) in * by lia.
    apply ceil_bounds in Hk; lia.
  - replace (Z.to_nat (Z.abs downsample)) with (Z.to_nat (- downsample)) in * by lia.
    apply ceil_bounds in Hk; lia.
Qed.

(** X11. In a dataset that [read_from_gamma] has stored, the channel los
    is the channel phase turned to metres place by place, with the
    wavelength of the sensor given to the call; where the phase is
    masked, so is the line-of-sight value. *)
Theorem los_follows_phase :
  forall (fs : filesystem)
         (para_file phase_file azi_file inc_file satellite : string) (downsample : Z)
         (self self' : Insar.InSAR) (o : outcome unit),
    Insar.read_from_gamma fs para_file phase_file azi_file inc_file satellite
      downsample self = (self', o) ->
    self' <> self ->
    exists (d : Insar.dataset) (f : npfloat),
      Insar.data self' = Some d
      /\ Insar.radar_freq satellite = Ret f
      /\ Insar.value (Insar.los d)
         = map (los_of (c / f)%np) (Insar.value (Insar.phase d))
      /\ forall k,
          nth_error (Insar.value (Insar.phase d)) k = Some NaN ->
          nth_error (Insar.value (Insar.los d)) k = Some NaN.
Proof.
  intros fs para_file phase_file azi_file inc_file satellite downsample
    self self' o E Hne.
  destruct (read_from_gamma_stored _ _ _ _ _ _ _ _ _ _ E Hne) as (l & d & El & Ed & Es).
  apply read_images_returns in Ed.
  destruct Ed as (w & h & F1 & F2 & F3 & cla & pla & clo & plo & idx & _ & _ & _ & _
                  & _ & _ & _ & _ & _ & _ & _ & _ & _ & Elos & _).
  destruct (phase2los_ret_inv _ _ _ Elos) as [f Hf].
  rewrite (phase2los_elementwise _ f _ Hf) in Elos.
  assert (Elos' : Insar.value (Insar.los d)
                  = map (los_of (c / f)%np) (Insar.value (Insar.phase d)))
    by congruence.
  exists d, f. split; [assumption|]. split; [assumption|]. split; [assumption|].
  intros k Hk. rewrite Elos', nth_error_map, Hk. reflexivity.
Qed.

End Calls.

Section Refusals.
Context `{Runtime}.

Lemma read_images_unknown_sensor (fs : filesystem) (l : Insar.locals)
    (phase_file azi_file inc_file satellite : string) (downsample : Z)
    (w h : Z) (F1 F2 F3 : list byte) (a0 : ndarray) :
  open_rb fs phase_file = Some F1 ->
  open_rb fs azi_file = Some F2 ->
  open_rb fs inc_file = Some F3 ->
  Insar.range_samples l = Some w -> Insar.azimuth_lines l = Some h ->
  np_zeros w h = Ret a0 ->
  w * h * 4 <= Z.of_nat (length F1) ->
  w * h * 4 <= Z.of_nat (length F2) ->
  w * h * 4 <= Z.of_nat (length F3) ->
  downsample <> 0 ->
  ~ In satellite ["sentinel-1"; "Sentinel-1"; "s1"; "S1"; "ALOS"; "alos";
                  "ALOS-2/U"; "ALOS-2/{F,W}"]%string ->
  Insar.read_images fs l phase_file azi_file inc_file satellite downsample
  = Raise ValueError.
Proof.
  intros E1 E2 E3 Ew Eh Ez L1 L2 L3 Hd Hs.
  destruct (read_images_decodes w h F1 F2 F3 a0 Ez L1 L2 L3) as (st & Est).
  unfold Insar.read_images.
  rewrite E1, E2, E3, Ew, Eh. cbn [py_open load bind].
  rewrite Ez. cbn [bind]. rewrite Est. cbn [bind].
  destruct (Z.eqb_spec downsample 0); [contradiction|]. cbn [bind].
  match goal with
  | |- context [slice_step ?x downsample] =>
      destruct (slice_step_total x downsample Hd) as [idx E]; rewrite E; cbn [bind]
  end.
  unfold Insar.phase2los. rewrite radar_freq_unknown by assumption. reflexivity.
Qed.

Lemma read_images_zero_downsample (fs : filesystem) (l : Insar.locals)
    (phase_file azi_file inc_file satellite : string)
    (w h : Z) (F1 F2 F3 : list byte) (a0 : ndarray) :
  open_rb fs phase_file = Some F1 ->
  open_rb fs azi_file = Some F2 ->
  open_rb fs inc_file = Some F3 ->
  Insar.range_samples l = Some w -> Insar.azimuth_lines l = Some h ->
  np_zeros w h = Ret a0 ->
  w * h * 4 <= Z.of_nat (length F1) ->
  w * h * 4 <= Z.of_nat (length F2) ->
  w * h * 4 <= Z.of_nat (length F3) ->
  Insar.read_images fs l phase_file azi_file inc_file satellite 0
  = Raise ZeroDivisionError.
Proof.
  intros E1 E2 E3 Ew Eh Ez L1 L2 L3.
  destruct (read_images_decodes w h F1 F2 F3 a0 Ez L1 L2 L3) as (st & Est).
  unfold Insar.read_images.
  rewrite E1, E2, E3, Ew, Eh. cbn [py_open load bind].
  rewrite Ez. cbn [bind]. rewrite Est. reflexivity.
Qed.

(** X12. For a sensor that is none of the eight names the code knows,
    [read_from_gamma] never changes the instance; when the rasters can
    be read and memory does not run out it raises [ValueError], and only
    after it has read them whole. *)
Theorem unknown_sensor_stores_nothing :
  forall (fs : filesystem)
         (para_file phase_file azi_file inc_file satellite : string) (downsample : Z)
         (self : Insar.InSAR),
    ~ In satellite ["sentinel-1"; "Sentinel-1"; "s1"; "S1"; "ALOS"; "alos";
                    "ALOS-2/U"; "ALOS-2/{F,W}"]%string ->
    fst (Insar.read_from_gamma fs para_file phase_file azi_file inc_file satellite
           downsample self) = self
    /\ (forall l w h F1 F2 F3,
           Insar.read_para fs para_file = Ret l ->
           Insar.range_samples l = Some w -> Insar.azimuth_lines l = Some h ->
           open_rb fs phase_file = Some F1 ->
           open_rb fs azi_file = Some F2 ->
           open_rb fs inc_file = Some F3 ->
           0 <= w -> 0 <= h ->
           w * h * 4 <= Z.of_nat (length F1) ->
           w * h * 4 <= Z.of_nat (length F2) ->
           w * h * 4 <= Z.of_nat (length F3) ->
           downsample <> 0 ->
           np_zeros w h <> Raise MemoryError ->
           Insar.read_from_gamma fs para_file phase_file azi_file inc_file satellite
             downsample self = (self, Raise ValueError)).
Proof.
  intros fs para_file phase_file azi_file inc_file satellite downsample self Hs.
  split.
  - destruct (Insar.read_from_gamma fs para_file phase_file azi_file inc_file
                satellite downsample self) as [self' o] eqn:E.
    cbn [fst]. apply read_from_gamma_cases in E.
    destruct E as [[-> _]|(l & d & _ & Ed & _)]; [reflexivity|].
    apply read_images_returns in Ed.
    destruct Ed as (w & h & F1 & F2 & F3 & cla & pla & clo & plo & idx & _ & _ & _ & _
                    & _ & _ & _ & _ & _ & _ & _ & _ & _ & Elos & _).
    destruct (phase2los_ret_inv _ _ _ Elos) as [f Hf].
    rewrite radar_freq_unknown in Hf by assumption. discriminate.
  - intros l w h F1 F2 F3 El Ew Eh E1 E2 E3 Hw Hh L1 L2 L3 Hd Hm.
    apply (read_from_gamma_raises _ _ _ _ _ _ _ _ l); [assumption| |reflexivity].
    destruct (np_zeros w h) as [a0|e] eqn:Ez.
    + apply (read_images_unknown_sensor _ _ _ _ _ _ _ w h F1 F2 F3 a0); assumption.
    + destruct (np_zeros_raise _ _ _ Ez) as [-> | ->]; [|contradiction].
      apply (read_images_no_array _ _ _ _ _ _ _ w h F1 F2 F3); assumption.
Qed.

(** X13. With [downsample = 0], [read_from_gamma] never changes the
    instance; when [np.zeros] makes the arrays and the rasters can be
    read it raises [ZeroDivisionError], from the message that announces
    the size of the result. *)
Theorem zero_downsample_stores_nothing :
  forall (fs : filesystem)
         (para_file phase_file azi_file inc_file satellite : string)
         (self : Insar.InSAR),
    fst (Insar.read_from_gamma fs para_file phase_file azi_file inc_file satellite
           0 self) = self
    /\ (forall l w h F1 F2 F3 a0,
           Insar.read_para fs para_file = Ret l ->
           Insar.range_samples l = Some w -> Insar.azimuth_lines l = Some h ->
           open_rb fs phase_file = Some F1 ->
           open_rb fs azi_file = Some F2 ->
           open_rb fs inc_file = Some F3 ->
           np_zeros w h = Ret a0 ->
           w * h * 4 <= Z.of_nat (length F1) ->
           w * h * 4 <= Z.of_nat (length F2) ->
           w * h * 4 <= Z.of_nat (length F3) ->
           Insar.read_from_gamma fs para_file phase_file azi_file inc_file satellite
             0 self = (self, Raise ZeroDivisionError)).
Proof.
  intros fs para_file phase_file azi_file inc_file satellite self. split.
  - destruct (Insar.read_from_gamma fs para_file phase_file azi_file inc_file
                satellite 0 self) as [self' o] eqn:E.
    cbn [fst]. apply read_from_gamma_cases in E.
    destruct E as [[-> _]|(l & d & _ & Ed & _)]; [reflexivity|].
    apply read_images_returns in Ed.
    destruct Ed as (w & h & F1 & F2 & F3 & cla & pla & clo & plo & idx & _ & _ & _ & _
                    & _ & _ & _ & _ & _ & _ & _ & Eidx & _).
    discriminate.
  - intros l w h F1 F2 F3 a0 El Ew Eh E1 E2 E3 Ez L1 L2 L3.
    apply (read_from_gamma_raises _ _ _ _ _ _ _ _ l); [assumption| |reflexivity].
    apply (read_images_zero_downsample _ _ _ _ _ _ w h F1 F2 F3 a0); assumption.
Qed.

(** X14. When the parameter file cannot be opened, [read_from_gamma]
    goes on to the images after the diagnostic: it never changes the
    instance, raises [UnboundLocalError] when the three images open, and
    returns normally when one of them does not. *)
Theorem missing_parameter_file_stores_nothing :
  forall (fs : filesystem)
         (para_file phase_file azi_file inc_file satellite : string) (downsample : Z)
         (self : Insar.InSAR),
    open_r fs para_file = None ->
    fst (Insar.read_from_gamma fs para_file phase_file azi_file inc_file satellite
           downsample self) = self
    /\ (open_rb fs phase_file <> None ->
        open_rb fs azi_file <> None ->
        open_rb fs inc_file <> None ->
        Insar.read_from_gamma fs para_file phase_file azi_file inc_file satellite
          downsample self = (self, Raise UnboundLocalError))
    /\ (open_rb fs phase_file = None \/ open_rb fs azi_file = None
        \/ open_rb fs inc_file = None ->
        Insar.read_from_gamma fs para_file phase_file azi_file inc_file satellite
          downsample self = (self, Ret tt)).
Proof.
  intros fs para_file phase_file azi_file inc_file satellite downsample self Eo.
  assert (El : Insar.read_para fs para_file = Ret Insar.unbound).
  { unfold Insar.read_para. rewrite Eo. reflexivity. }
  assert (Hopen : open_rb fs phase_file <> None ->
                  open_rb fs azi_file <> None ->
                  open_rb fs inc_file <> None ->
                  Insar.read_images fs Insar.unbound phase_file azi_file inc_file
                    satellite downsample = Raise UnboundLocalError).
  { intros H1 H2 H3. unfold Insar.read_images.
    destruct (open_rb fs phase_file); [|contradiction].
    destruct (open_rb fs azi_file); [|contradiction].
    destruct (open_rb fs inc_file); [|contradiction].
    reflexivity. }
  assert (Hclosed : open_rb fs phase_file = None \/ open_rb fs azi_file = None
                    \/ open_rb fs inc_file = None ->
                    Insar.read_from_gamma fs para_file phase_file azi_file inc_file
                      satellite downsample self = (self, Ret tt)).
  { intros Hn.
    unfold Insar.read_from_gamma, Insar.mbind, Insar.pure, Insar.try_except_IOError_m.
    rewrite El. rewrite read_images_not_opened by assumption. reflexivity. }
  split; [|split].
  - destruct (open_rb fs phase_file) eqn:E1;
      [|rewrite Hclosed by auto; reflexivity].
    destruct (open_rb fs azi_file) eqn:E2;
      [|rewrite Hclosed by auto; reflexivity].
    destruct (open_rb fs inc_file) eqn:E3;
      [|rewrite Hclosed by auto; reflexivity].
    rewrite (read_from_gamma_raises _ _ _ _ _ _ _ _ Insar.unbound UnboundLocalError);
      auto.
    apply Hopen; discriminate.
  - intros H1 H2 H3.
    apply (read_from_gamma_raises _ _ _ _ _ _ _ _ Insar.unbound); auto.
  - exact Hclosed.
Qed.

(** X15. What a call of [read_from_gamma] does depends on the files
    and arguments, not on what the instance held: a call that completes
    leaves the same instance and outcome from every starting instance,
    and repeating any call on the instance it left changes nothing. *)
Theorem read_from_gamma_replaces_and_repeats :
  forall (fs : filesystem)
         (para_file phase_file azi_file inc_file satellite : string) (downsample : Z)
         (self self' : Insar.InSAR) (o : outcome unit),
    Insar.read_from_gamma fs para_file phase_file azi_file inc_file satellite
      downsample self = (self', o) ->
    Insar.read_from_gamma fs para_file phase_file azi_file inc_file satellite
      downsample self' = (self', o)
    /\ (o = Ret tt -> self' <> self ->
        forall other,
          Insar.read_from_gamma fs para_file phase_file azi_file inc_file satellite
            downsample other = (self', o)).
Proof.
  intros fs para_file phase_file azi_file inc_file satellite downsample self self' o.
  unfold Insar.read_from_gamma, Insar.mbind, Insar.pure, Insar.try_except_IOError_m,
    Insar.set_data, Insar.set_data_para.
  destruct (Insar.read_para fs para_file) as [l|e].
  - destruct (Insar.read_images fs l phase_file azi_file inc_file satellite downsample)
      as [d|e].
    + destruct (Insar.ellps_name l) as [name|]; cbn; intros E;
        inversion E; subst; clear E; (split; [reflexivity|]).
      * intros _ _ other. reflexivity.
      * discriminate.
    + destruct (isinstance e "IOError"); intros E; inversion E; subst; clear E;
        (split; [reflexivity|]); intros _ Hne; contradiction.
  - intros E. inversion E; subst. split; [reflexivity|]. discriminate.
Qed.

End Refusals.

(** ** Instances of the further properties *)

(** A file with two [width] lines, 7 and then 2: the width returned
    is 2. *)
Lemma last_value_wins_witness :
  exists p : ParseFiles.image_para,
    @ParseFiles.get_image_para Sample.runtime MoreSamples.disk "twice.par"
    = Ret (Some p)
    /\ entry "width:" p = Some (PyInt 2).
Proof.
  destruct (@ParseFiles.get_image_para Sample.runtime MoreSamples.disk "twice.par")
    as [[p|]|e] eqn:E; [|vm_compute in E; discriminate..].
  exists p. split; [reflexivity|].
  destruct (@last_value_wins Sample.runtime MoreSamples.disk "twice.par" "width:"
              (Sample.line "width:    2")
              [Sample.line "width:    7"; Sample.line "title: sample"]
              (skipn 2 Sample.par_lines) p) as (v & Ev & Hv).
  - reflexivity.
  - simpl. auto.
  - reflexivity.
  - intros later Hl. vm_compute in Hl.
    repeat (destruct Hl as [<-|Hl]; [reflexivity|]). destruct Hl.
  - exact E.
  - vm_compute in Ev. inversion Ev; subst v. exact Hv.
Defined.

(** The sample file and the same file without its [title] and
    [ellipsoid_name] lines. *)
Lemma other_lines_are_ignored_witness :
  @ParseFiles.get_image_para Sample.runtime MoreSamples.disk "bare.par"
  = @ParseFiles.get_image_para Sample.runtime Sample.disk "s.par".
Proof.
  apply (@other_lines_are_ignored Sample.runtime Sample.disk MoreSamples.disk
           "s.par" "bare.par" Sample.par_lines).
  - reflexivity.
  - vm_compute. reflexivity.
Defined.

Lemma the_two_scans_agree_witness :
  exists (p : ParseFiles.image_para) (l : Insar.locals),
    @ParseFiles.get_image_para Sample.runtime Sample.disk "s.par" = Ret (Some p)
    /\ @Insar.read_para Sample.runtime Sample.disk "s.par" = Ret l
    /\ Insar.range_samples l = Some (ParseFiles.width p)
    /\ Insar.azimuth_lines l = Some (ParseFiles.nlines p)
    /\ Insar.post_lon l = Some (ParseFiles.post_lon p).
Proof.
  destruct (@ParseFiles.get_image_para Sample.runtime Sample.disk "s.par")
    as [[p|]|e] eqn:Ep; [|vm_compute in Ep; discriminate..].
  destruct (@Insar.read_para Sample.runtime Sample.disk "s.par") as [l|e] eqn:El;
    [|vm_compute in El; discriminate].
  destruct (@the_two_scans_agree Sample.runtime Sample.disk "s.par" p l Ep El)
    as (E1 & E2 & _ & _ & _ & E6).
  exists p, l. repeat split; assumption.
Defined.

(** Three samples on two lines: the array has three rows, and its entry
    [[2][1]] is the last pixel of the file. *)
Lemma raster_is_the_transposed_file_witness :
  exists a : ndarray,
    @ParseFiles.get_image_data Sample.runtime MoreSamples.disk "six.img"
      MoreSamples.para_3x2 1
    = Ret (Some (Array2 a, MoreSamples.para_3x2))
    /\ length a = 3%nat
    /\ item a 2 1 = @pixel Sample.runtime MoreSamples.six_pixels 5
    /\ item a 1 0 = @pixel Sample.runtime MoreSamples.six_pixels 1.
Proof.
  destruct (@ParseFiles.get_image_data Sample.runtime MoreSamples.disk "six.img"
              MoreSamples.para_3x2 1) as [[[img p']|]|e] eqn:E;
    [|vm_compute in E; discriminate..].
  destruct (@raster_is_the_transposed_file Sample.runtime MoreSamples.disk "six.img"
              MoreSamples.para_3x2 MoreSamples.six_pixels img p' eq_refl E)
    as (-> & a & -> & [Hl _] & Hv).
  exists a. split; [reflexivity|]. split; [exact Hl|]. split.
  - apply (Hv 2%nat 1%nat); cbn; lia.
  - apply (Hv 1%nat 0%nat); cbn; lia.
Defined.

(** A raster of 4 by 4 with factor 2, the surface being the one that
    passes through the samples: entry [[1][0]] of the grid is pixel 2 of
    the file. *)
Lemma resampled_grid_samples_the_surface_witness :
  exists (grid : ndarray) (p' : ParseFiles.image_para),
    @ParseFiles.get_image_data Sample.runtime MoreSamples.disk "sixteen.img"
      MoreSamples.para_4x4 2
    = Ret (Some (Array2 grid, p'))
    /\ item grid 1 0 = @pixel Sample.runtime MoreSamples.sixteen_pixels 2.
Proof.
  destruct (@ParseFiles.get_image_data Sample.runtime MoreSamples.disk "sixteen.img"
              MoreSamples.para_4x4 2) as [[[[row|grid] p']|]|e] eqn:E;
    [vm_compute in E; discriminate| |vm_compute in E; discriminate..].
  assert (Hf : 2 <> 1) by lia.
  destruct (@resampled_grid_samples_the_surface Sample.runtime MoreSamples.disk
              "sixteen.img" MoreSamples.para_4x4 2 MoreSamples.sixteen_pixels
              (Array2 grid) p' eq_refl Hf E) as (a & g & Ha & Eg & _ & Hg).
  exists grid, p'. split; [reflexivity|].
  cbn in Eg. inversion Eg; subst g; clear Eg.
  rewrite (Hg 1%nat 0%nat) by (cbn; lia).
  apply (Ha 2%nat 0%nat); cbn; lia.
Defined.

(** A raster of 5 by 5: with factor 2 a grid with one row more than
    reported, with factor 5 an array of one dimension. *)
Lemma grid_dimensions_witness :
  (exists (grid : ndarray) (p' : ParseFiles.image_para),
      @ParseFiles.get_image_data Sample.runtime Sample.disk "zeros25"
        Sample.para_5x5 2
      = Ret (Some (Array2 grid, p'))
      /\ Z.of_nat (length grid) = ParseFiles.width p' + 1)
  /\ (exists (row : list npfloat) (p' : ParseFiles.image_para),
         @ParseFiles.get_image_data Sample.runtime Sample.disk "zeros25"
           Sample.para_5x5 5
         = Ret (Some (Array1 row, p'))
         /\ Z.of_nat (length row) = ParseFiles.nlines p' + 0).
Proof.
  split.
  - destruct (@ParseFiles.get_image_data Sample.runtime Sample.disk "zeros25"
                Sample.para_5x5 2) as [[[[row|grid] p']|]|e] eqn:E;
      [vm_compute in E; discriminate| |vm_compute in E; discriminate..].
    exists grid, p'. split; [reflexivity|].
    exact (proj1 (proj2 (@grid_dimensions Sample.runtime Sample.disk "zeros25"
                           Sample.para_5x5 2 (Array2 grid) p' ltac:(lia) E))).
  - destruct (@ParseFiles.get_image_data Sample.runtime Sample.disk "zeros25"
                Sample.para_5x5 5) as [[[[row|grid] p']|]|e] eqn:E;
      [|vm_compute in E; discriminate..].
    exists row, p'. split; [reflexivity|].
    exact (proj2 (@grid_dimensions Sample.runtime Sample.disk "zeros25"
                    Sample.para_5x5 5 (Array1 row) p' ltac:(lia) E)).
Defined.

(** Factor 0 on the sample raster, and factor -1 on the raster of 5 by
    5. *)
Lemma get_image_data_edge_inputs_witness :
  @ParseFiles.get_image_data Sample.runtime Sample.disk "s.phase" Sample.para_2x2 0
  = Raise ZeroDivisionError
  /\ @ParseFiles.get_image_data Sample.runtime Sample.disk "zeros25"
       Sample.para_5x5 (-1)
     <> Ret (Some (Array2 [], Sample.para_5x5)).
Proof.
  destruct (@get_image_data_edge_inputs Sample.runtime Sample.disk "s.phase"
              Sample.para_2x2 Sample.four_pixels eq_refl) as (_ & Hz & _).
  destruct (@get_image_data_edge_inputs Sample.runtime Sample.disk "zeros25"
              Sample.para_5x5 (repeat x00 100) eq_refl) as (_ & _ & Hn).
  split.
  - eapply Hz; [reflexivity|cbn; lia].
  - apply Hn. lia.
Defined.


(** The sample product with [downsample = 2]: two rows out of four
    pixels, row 1 standing for pixel 2. *)
Lemma decimation_witness :
  exists d : Insar.dataset,
    Insar.data (fst (@Insar.read_from_gamma Sample.runtime Sample.disk
                       "s.par" "s.phase" "s.azi" "s.inc" "Sentinel-1" 2 Insar.init))
    = Some d
    /\ length (Insar.value (Insar.phase d)) = 2%nat
    /\ length (Insar.value (Insar.lon d)) = 2%nat
    /\ nth_error (Insar.value (Insar.phase d)) 1
       = Some (masked (@pixel Sample.runtime Sample.four_pixels 2)
                 (@pixel Sample.runtime Sample.four_pixels 2)).
Proof.
  destruct (@Insar.read_from_gamma Sample.runtime Sample.disk
              "s.par" "s.phase" "s.azi" "s.inc" "Sentinel-1" 2 Insar.init)
    as [self' o] eqn:E.
  assert (Hne : self' <> Insar.init).
  { vm_compute in E. inversion E. discriminate. }
  destruct (@decimation Sample.runtime _ _ _ _ _ _ _ _ _ _ E Hne)
    as (d & l & w & h & F1 & cla & pla & clo & plo & Ed & El & Ew & Eh & _ & _ & _ & _
        & E1 & Hrows).
  exists d. split; [exact Ed|].
  vm_compute in El. inversion El; subst l.
  cbn in Ew, Eh. inversion Ew; inversion Eh; subst w h.
  cbn in E1. inversion E1; subst F1.
  cbn zeta in Hrows. destruct Hrows as (Llon & _ & Lp & _ & _ & _ & Hk).
  destruct (Hk 1%nat) as (_ & Hp & _); [vm_compute; lia|].
  split; [exact Lp|]. split; [exact Llon|]. exact Hp.
Defined.

Lemma los_follows_phase_witness :
  exists (d : Insar.dataset) (f : npfloat),
    Insar.data (fst (@Insar.read_from_gamma Sample.runtime Sample.disk
                       "s.par" "s.phase" "s.azi" "s.inc" "Sentinel-1" 1 Insar.init))
    = Some d
    /\ Insar.radar_freq "Sentinel-1" = Ret f
    /\ Insar.value (Insar.los d)
       = map (los_of (c / f)%np) (Insar.value (Insar.phase d)).
Proof.
  destruct (@Insar.read_from_gamma Sample.runtime Sample.disk
              "s.par" "s.phase" "s.azi" "s.inc" "Sentinel-1" 1 Insar.init)
    as [self' o] eqn:E.
  assert (Hne : self' <> Insar.init).
  { vm_compute in E. inversion E. discriminate. }
  destruct (@los_follows_phase Sample.runtime _ _ _ _ _ _ _ _ _ _ E Hne)
    as (d & f & Ed & Ef & Elos & _).
  exists d, f. repeat split; assumption.
Defined.

Lemma unknown_sensor_stores_nothing_witness :
  @Insar.read_from_gamma Sample.runtime Sample.disk
    "s.par" "s.phase" "s.azi" "s.inc" "TerraSAR-X" 1 Insar.init
  = (Insar.init, Raise ValueError).
Proof.
  assert (Hn : ~ In "TerraSAR-X"%string
                 ["sentinel-1"; "Sentinel-1"; "s1"; "S1"; "ALOS"; "alos";
                  "ALOS-2/U"; "ALOS-2/{F,W}"]%string).
  { simpl. intuition discriminate. }
  destruct (@Insar.read_para Sample.runtime Sample.disk "s.par") as [l|e] eqn:El;
    [|vm_compute in El; discriminate].
  apply (proj2 (@unknown_sensor_stores_nothing Sample.runtime Sample.disk
                  "s.par" "s.phase" "s.azi" "s.inc" "TerraSAR-X" 1 Insar.init Hn)
           l 2 2 Sample.four_pixels Sample.four_pixels Sample.four_pixels El).
  - vm_compute in El. inversion El. reflexivity.
  - vm_compute in El. inversion El. reflexivity.
  - reflexivity.
  - reflexivity.
  - reflexivity.
  - lia.
  - lia.
  - cbn. lia.
  - cbn. lia.
  - cbn. lia.
  - lia.
  - vm_compute. discriminate.
Defined.

Lemma zero_downsample_stores_nothing_witness :
  @Insar.read_from_gamma Sample.runtime Sample.disk
    "s.par" "s.phase" "s.azi" "s.inc" "Sentinel-1" 0 Insar.init
  = (Insar.init, Raise ZeroDivisionError).
Proof.
  destruct (@Insar.read_para Sample.runtime Sample.disk "s.par") as [l|e] eqn:El;
    [|vm_compute in El; discriminate].
  eapply (proj2 (@zero_downsample_stores_nothing Sample.runtime Sample.disk
                   "s.par" "s.phase" "s.azi" "s.inc" "Sentinel-1" Insar.init)
            l 2 2 Sample.four_pixels Sample.four_pixels Sample.four_pixels _ El).
  - vm_compute in El. inversion El. reflexivity.
  - vm_compute in El. inversion El. reflexivity.
  - reflexivity.
  - reflexivity.
  - reflexivity.
  - reflexivity.
  - cbn. lia.
  - cbn. lia.
  - cbn. lia.
Defined.

(** No parameter file: with the three images the call raises, with one
    of them missing it returns. *)
Lemma missing_parameter_file_stores_nothing_witness :
  @Insar.read_from_gamma Sample.runtime Sample.disk
    "missing.par" "s.phase" "s.azi" "s.inc" "Sentinel-1" 1 Insar.init
  = (Insar.init, Raise UnboundLocalError)
  /\ @Insar.read_from_gamma Sample.runtime Sample.disk
       "missing.par" "s.phase" "missing.azi" "s.inc" "Sentinel-1" 1 Insar.init
     = (Insar.init, Ret tt).
Proof.
  split.
  - apply (proj1 (proj2 (@missing_parameter_file_stores_nothing Sample.runtime
                           Sample.disk "missing.par" "s.phase" "s.azi" "s.inc"
                           "Sentinel-1" 1 Insar.init eq_refl)));
      discriminate.
  - apply (proj2 (proj2 (@missing_parameter_file_stores_nothing Sample.runtime
                           Sample.disk "missing.par" "s.phase" "missing.azi" "s.inc"
                           "Sentinel-1" 1 Insar.init eq_refl))).
    right. left. reflexivity.
Defined.

(** The sample product read into an instance that holds the parameters
    of another product, and into one that holds nothing. *)
Lemma read_from_gamma_replaces_and_repeats_witness :
  @Insar.read_from_gamma Sample.runtime Sample.disk
    "s.par" "s.phase" "s.azi" "s.inc" "Sentinel-1" 1
    {| Insar.data := None;
       Insar.data_para := Some {| Insar.satellite := "ALOS";
                                  Insar.datum_name := "GRS 80" |} |}
  = @Insar.read_from_gamma Sample.runtime Sample.disk
      "s.par" "s.phase" "s.azi" "s.inc" "Sentinel-1" 1 Insar.init.
Proof.
  destruct (@Insar.read_from_gamma Sample.runtime Sample.disk
              "s.par" "s.phase" "s.azi" "s.inc" "Sentinel-1" 1 Insar.init)
    as [self' o] eqn:E.
  assert (Ho : o = Ret tt /\ self' <> Insar.init).
  { vm_compute in E. inversion E. split; [reflexivity|discriminate]. }
  destruct Ho as [Ho Hne].
  exact (proj2 (@read_from_gamma_replaces_and_repeats Sample.runtime _ _ _ _ _ _ _ _ _ _ E)
           Ho Hne _).
Defined.
